(** * Resilient invocation layer: metrics, health scoring, endpoint selection,
    rate limiting, circuit breaker and retry policy.

    Shallow embedding of [openrouter_model_manager.py] and
    [error_handling_system.py].

    Conventions of the embedding:
    - Python [int] is [Z];
    - Python [float] is an exact rational [Q], compared with [==], [<=], [<]
      (rounding of IEEE doubles is not modelled; their range is, where the
      code computes a float power, which raises beyond it);
    - a [datetime] is a [Z] count of microseconds, a [timedelta] is a [Z]
      number of microseconds, [total_seconds()] divides by 10^6;
    - every read of [datetime.now()] and every draw of [random.random()] is an
      explicit input of the function that performs it;
    - [self.models] is an insertion-ordered dict: an association list;
      [self.rate_limit_tracker] is a [gmap];
    - an awaited operation is a state transformer on the caller's world that
      returns a value or raises; invocations and [asyncio.sleep] calls are
      logged in the world;
    - log lines are modelled where they can raise, that is where the handler
      of [RetryPolicy.execute] reads [func.__name__]; their output is not. *)

From stdpp Require Import base option list gmap strings.
From Stdlib Require Import ZArith QArith Qabs Qpower Qminmax Lia Lqa.

Local Open Scope Z_scope.

(** ** Python built-ins used by the code *)

Module Py.

Definition Qltb (x y : Q) : bool :=
  match (x ?= y)%Q with Lt => true | _ => false end.

(** [min(a, b)]: the first argument unless the second is strictly smaller. *)
Definition min (a b : Q) : Q := if Qltb b a then b else a.

(** [max(a, b)]: the first argument unless the second is strictly larger. *)
Definition max (a b : Q) : Q := if Qltb a b then b else a.

(** [max(iterable, key=key)] on a non-empty iterable [first :: rest]:
    the earliest element whose key is maximal. *)
Fixpoint max_by {A : Type} (key : A → Q) (best : A) (rest : list A) : A :=
  match rest with
  | [] => best
  | x :: rest' =>
      if Qltb (key best) (key x) then max_by key x rest'
      else max_by key best rest'
  end.

(** [range(lo, hi)] *)
Definition range (lo hi : Z) : list Z :=
  List.map (λ i, lo + Z.of_nat i) (List.seq 0 (Z.to_nat (hi - lo))).

(** a [datetime] and a [timedelta], in microseconds *)
Abbreviation datetime := Z (only parsing).
Abbreviation timedelta := Z (only parsing).

Definition total_seconds (d : timedelta) : Q := (inject_Z d / 1000000)%Q.

Definition seconds (s : Z) : timedelta := s * 1000000.

(** A [float] is an exact rational here: rounding is not modelled, the range
    of a double is. A result of magnitude [2^1024 - 2^970] or more rounds to
    an infinity (IEEE 754 binary64, round to nearest). *)
Definition float_overflow_bound : Q := inject_Z (2 ^ 1024 - 2 ^ 970).

Definition float_overflows (x : Q) : bool :=
  negb (Qltb (Qabs x) float_overflow_bound).

(** [x] is within the range of a double *)
Definition float_finite (x : Q) : Prop := (Qabs x < float_overflow_bound)%Q.

End Py.

(** ** openrouter_model_manager.py *)

Inductive ModelStatus : Set :=
| AVAILABLE | UNAVAILABLE | RATE_LIMITED | ERROR | TESTING.

#[global] Instance ModelStatus_eq_dec : EqDecision ModelStatus.
Proof. solve_decision. Defined.

Record ModelMetrics : Type := mkModelMetrics {
  total_requests : Z;
  successful_requests : Z;
  failed_requests : Z;
  average_response_time : Q;
  last_success : option Py.datetime;
  last_failure : option Py.datetime;
  consecutive_failures : Z;
  error_rate : Q
}.

(** the dataclass defaults *)
Definition ModelMetrics_default : ModelMetrics :=
  {| total_requests := 0; successful_requests := 0; failed_requests := 0;
     average_response_time := 0; last_success := None; last_failure := None;
     consecutive_failures := 0; error_rate := 0 |}.

Definition _update_error_rate (m : ModelMetrics) : ModelMetrics :=
  if 0 <? total_requests m then
    {| total_requests := total_requests m;
       successful_requests := successful_requests m;
       failed_requests := failed_requests m;
       average_response_time := average_response_time m;
       last_success := last_success m;
       last_failure := last_failure m;
       consecutive_failures := consecutive_failures m;
       error_rate :=
         (inject_Z (failed_requests m) / inject_Z (total_requests m))%Q |}
  else m.

(** [now] is the value read by [datetime.now()]. *)
Definition update_success (now : Py.datetime) (m : ModelMetrics)
    (response_time : Q) : ModelMetrics :=
  let total := total_requests m + 1 in
  _update_error_rate
    {| total_requests := total;
       successful_requests := successful_requests m + 1;
       failed_requests := failed_requests m;
       average_response_time :=
         if (total =? 1)%Z then response_time
         else ((average_response_time m * inject_Z (total - 1) + response_time)
               / inject_Z total)%Q;
       last_success := Some now;
       last_failure := last_failure m;
       consecutive_failures := 0;
       error_rate := error_rate m |}.

Definition update_failure (now : Py.datetime) (m : ModelMetrics) : ModelMetrics :=
  _update_error_rate
    {| total_requests := total_requests m + 1;
       successful_requests := successful_requests m;
       failed_requests := failed_requests m + 1;
       average_response_time := average_response_time m;
       last_success := last_success m;
       last_failure := Some now;
       consecutive_failures := consecutive_failures m + 1;
       error_rate := error_rate m |}.

Record FreeModel : Type := mkFreeModel {
  id : string;
  name : string;
  description : string;
  context_length : Z;
  pricing : gmap string Q;
  status : ModelStatus;
  metrics : ModelMetrics;
  last_checked : option Py.datetime;
  rate_limit_rpm : option Z
}.

Definition set_status (s : ModelStatus) (m : FreeModel) : FreeModel :=
  {| id := id m; name := name m; description := description m;
     context_length := context_length m; pricing := pricing m;
     status := s; metrics := metrics m; last_checked := last_checked m;
     rate_limit_rpm := rate_limit_rpm m |}.

Definition set_metrics (mt : ModelMetrics) (m : FreeModel) : FreeModel :=
  {| id := id m; name := name m; description := description m;
     context_length := context_length m; pricing := pricing m;
     status := status m; metrics := mt; last_checked := last_checked m;
     rate_limit_rpm := rate_limit_rpm m |}.

(** [FreeModel.health_score]; [now] is the value read by [datetime.now()]. *)
Definition health_score (now : Py.datetime) (m : FreeModel) : Q :=
  if decide (status m = UNAVAILABLE) then 0%Q
  else
    let success_rate := (1 - error_rate (metrics m))%Q in
    let failure_penalty :=
      Py.min (5 # 10)
        (inject_Z (consecutive_failures (metrics m)) * (1 # 10))%Q in
    let time_bonus :=
      match last_success (metrics m) with
      | Some ls =>
          let time_since_success := Py.total_seconds (now - ls) in
          Py.max 0 ((2 # 10) * (1 - time_since_success / 3600))%Q
      | None => 0%Q
      end in
    let speed_penalty :=
      Py.min (3 # 10)
        (Py.max 0 ((average_response_time (metrics m) - 2) * (1 # 10))%Q) in
    let score :=
      (success_rate - failure_penalty + time_bonus - speed_penalty)%Q in
    Py.max 0 (Py.min 1 score).

(** *** Insertion-ordered dict with string keys *)

Module Dict.

Definition t (V : Type) : Type := list (string * V).

Fixpoint get {V : Type} (k : string) (d : t V) : option V :=
  match d with
  | [] => None
  | (k', v) :: d' => if decide (k' = k) then Some v else get k d'
  end.

(** in-place mutation of the object stored under [k] *)
Fixpoint alter {V : Type} (f : V → V) (k : string) (d : t V) : t V :=
  match d with
  | [] => []
  | (k', v) :: d' =>
      if decide (k' = k) then (k', f v) :: d' else (k', v) :: alter f k d'
  end.

(** [d.values()], in insertion order *)
Definition values {V : Type} (d : t V) : list V := List.map snd d.

End Dict.

Record OpenRouterModelManager : Type := mkManager {
  api_key : string;
  models : Dict.t FreeModel;
  last_discovery : option Py.datetime;
  discovery_interval : Py.timedelta;
  health_check_interval : Py.timedelta;
  circuit_breaker_threshold : Z;
  rate_limit_tracker : gmap string (list Py.datetime)
}.

(** [OpenRouterModelManager.__init__] *)
Definition Manager_init (key : string) : OpenRouterModelManager :=
  {| api_key := key; models := []; last_discovery := None;
     discovery_interval := Py.seconds 3600;
     health_check_interval := Py.seconds 300;
     circuit_breaker_threshold := 5;
     rate_limit_tracker := ∅ |}.

Definition set_models (ms : Dict.t FreeModel) (g : OpenRouterModelManager)
    : OpenRouterModelManager :=
  {| api_key := api_key g; models := ms; last_discovery := last_discovery g;
     discovery_interval := discovery_interval g;
     health_check_interval := health_check_interval g;
     circuit_breaker_threshold := circuit_breaker_threshold g;
     rate_limit_tracker := rate_limit_tracker g |}.

Definition set_tracker (tr : gmap string (list Py.datetime))
    (g : OpenRouterModelManager) : OpenRouterModelManager :=
  {| api_key := api_key g; models := models g;
     last_discovery := last_discovery g;
     discovery_interval := discovery_interval g;
     health_check_interval := health_check_interval g;
     circuit_breaker_threshold := circuit_breaker_threshold g;
     rate_limit_tracker := tr |}.

(** [self.last_discovery = ...], every other field kept *)
Definition set_last_discovery (ld : option Py.datetime)
    (g : OpenRouterModelManager) : OpenRouterModelManager :=
  {| api_key := api_key g; models := models g; last_discovery := ld;
     discovery_interval := discovery_interval g;
     health_check_interval := health_check_interval g;
     circuit_breaker_threshold := circuit_breaker_threshold g;
     rate_limit_tracker := rate_limit_tracker g |}.

(** [exclude_models] of [get_best_model]: [None] or a set of ids *)
Definition excluded (exclude_models : option (gset string)) (i : string) : Prop :=
  match exclude_models with
  | Some s => i ∈ s
  | None => False
  end.

(** the condition of the list comprehension of [get_best_model]:
    [model.status == AVAILABLE and (not exclude_models or model.id not in exclude_models)] *)
Definition selectable (exclude_models : option (gset string)) (m : FreeModel) : bool :=
  bool_decide (status m = AVAILABLE)
  && match exclude_models with
     | None => true
     | Some s => bool_decide (s = ∅) || negb (bool_decide (id m ∈ s))
     end.

Definition available_models (exclude_models : option (gset string))
    (g : OpenRouterModelManager) : list FreeModel :=
  List.filter (selectable exclude_models) (Dict.values (models g)).

(** the candidates of [max], each with its rank in the list *)
Definition timed (l : list FreeModel) : list (nat * FreeModel) :=
  List.combine (List.seq 0 (length l)) l.

(** the key [lambda m: m.health_score]: its evaluation on the candidate of
    rank [i] reads the clock at [score_time i] *)
Definition timed_score (score_time : nat → Py.datetime) (im : nat * FreeModel) : Q :=
  health_score (score_time (fst im)) (snd im).

Section Selection.

(** [discover_free_models] queries the network; its effect on the manager
    is a parameter here. *)
Variable discover_free_models : OpenRouterModelManager → OpenRouterModelManager.

Definition _refresh_if_needed (now : Py.datetime) (g : OpenRouterModelManager)
    : OpenRouterModelManager :=
  match last_discovery g with
  | None => discover_free_models g
  | Some ld =>
      if discovery_interval g <? now - ld then discover_free_models g else g
  end.

Definition get_best_model (now : Py.datetime) (score_time : nat → Py.datetime)
    (exclude_models : option (gset string)) (g : OpenRouterModelManager)
    : option FreeModel * OpenRouterModelManager :=
  let g' := _refresh_if_needed now g in
  match timed (available_models exclude_models g') with
  | [] => (None, g')
  | first :: rest =>
      (Some (snd (Py.max_by (timed_score score_time) first rest)), g')
  end.

Definition rotate_model (now : Py.datetime) (score_time : nat → Py.datetime)
    (current_model_id : string) (g : OpenRouterModelManager)
    : option FreeModel * OpenRouterModelManager :=
  get_best_model now score_time (Some {[ current_model_id ]}) g.

End Selection.

(** [check_rate_limits]: the returned flag and the manager afterwards. *)
Definition check_rate_limits (now : Py.datetime) (model_id : string)
    (g : OpenRouterModelManager) : bool * OpenRouterModelManager :=
  let tracker0 :=
    match rate_limit_tracker g !! model_id with
    | None => <[model_id := []]> (rate_limit_tracker g)
    | Some _ => rate_limit_tracker g
    end in
  let window :=
    List.filter (λ req_time, Py.Qltb (Py.total_seconds (now - req_time)) 60)
      (default [] (tracker0 !! model_id)) in
  let g1 := set_tracker (<[model_id := window]> tracker0) g in
  match Dict.get model_id (models g1) with
  | Some model =>
      match rate_limit_rpm model with
      | Some rpm =>
          if negb (rpm =? 0) && (rpm <=? Z.of_nat (length window)) then
            (false,
             set_models (Dict.alter (set_status RATE_LIMITED) model_id (models g1)) g1)
          else (true, g1)
      | None => (true, g1)
      end
  | None => (true, g1)
  end.

(** [record_request]: [now] is read by [record_request] itself, [now_m] by the
    metrics update it calls. *)
Definition record_request (now now_m : Py.datetime) (model_id : string)
    (success : bool) (response_time : option Q) (g : OpenRouterModelManager)
    : OpenRouterModelManager :=
  match Dict.get model_id (models g) with
  | None => g
  | Some _ =>
      let tracker0 :=
        match rate_limit_tracker g !! model_id with
        | None => <[model_id := []]> (rate_limit_tracker g)
        | Some _ => rate_limit_tracker g
        end in
      let g1 :=
        set_tracker
          (<[model_id := default [] (tracker0 !! model_id) ++ [now]]> tracker0) g in
      let on_model (model : FreeModel) : FreeModel :=
        match success, response_time with
        | true, Some rt =>
            let model1 := set_metrics (update_success now_m (metrics model) rt) model in
            if decide (status model1 = AVAILABLE) then model1
            else set_status AVAILABLE model1
        | _, _ =>
            let model1 := set_metrics (update_failure now_m (metrics model)) model in
            if circuit_breaker_threshold g <=? consecutive_failures (metrics model1)
            then set_status UNAVAILABLE model1
            else model1
        end in
      set_models (Dict.alter on_model model_id (models g1)) g1
  end.

(** ** error_handling_system.py *)

Module ErrorHandling.

Inductive ErrorSeverity : Set := LOW | MEDIUM | HIGH | CRITICAL.

Inductive CircuitState : Set := CLOSED | OPEN | HALF_OPEN.

#[global] Instance ErrorSeverity_eq_dec : EqDecision ErrorSeverity.
Proof. solve_decision. Defined.

#[global] Instance CircuitState_eq_dec : EqDecision CircuitState.
Proof. solve_decision. Defined.

#[global] Instance ErrorSeverity_countable : Countable ErrorSeverity.
Proof.
  refine (inj_countable'
    (λ s, match s with LOW => 0%nat | MEDIUM => 1%nat | HIGH => 2%nat
                  | CRITICAL => 3%nat end)
    (λ n, match n with 0%nat => LOW | 1%nat => MEDIUM | 2%nat => HIGH
                  | _ => CRITICAL end) _).
  intros []; reflexivity.
Defined.

(** *** Exceptions and awaited operations *)

(** A raised object: the name of its class, its message, and whether the
    class derives from [Exception] (what [except Exception] catches). *)
Record PyExc : Type := mkExc {
  exc_type : string;
  exc_msg : string;
  exc_is_Exception : bool
}.

Definition CircuitBreakerOpenError (msg : string) : PyExc :=
  {| exc_type := "CircuitBreakerOpenError"; exc_msg := msg;
     exc_is_Exception := true |}.

(** what [raise None] raises *)
Definition TypeError_raise_None : PyExc :=
  {| exc_type := "TypeError";
     exc_msg := "exceptions must derive from BaseException";
     exc_is_Exception := true |}.

(** what a float power outside the range of a double raises *)
Definition OverflowError : PyExc :=
  {| exc_type := "OverflowError";
     exc_msg := "(34, 'Numerical result out of range')";
     exc_is_Exception := true |}.

(** what [0.0] to a negative power raises *)
Definition ZeroDivisionError : PyExc :=
  {| exc_type := "ZeroDivisionError";
     exc_msg := "0.0 cannot be raised to a negative power";
     exc_is_Exception := true |}.

(** what reading [__name__] raises on a callable of type [obj] that has no
    such attribute (a [functools.partial], an instance with [__call__]) *)
Definition AttributeError_no_name (obj : string) : PyExc :=
  {| exc_type := "AttributeError";
     exc_msg := "'" +:+ obj +:+ "' object has no attribute '__name__'";
     exc_is_Exception := true |}.

Inductive outcome (V : Type) : Type :=
| Returned (v : V)
| Raised (e : PyExc).
Arguments Returned {V} v.
Arguments Raised {V} e.

(** [x ** n] for a float [x] and an int [n]: [ZeroDivisionError] for zero to
    a negative power, [OverflowError] when the result leaves the range of a
    double (a result that underflows is no error). *)
Definition float_pow (x : Q) (n : Z) : outcome Q :=
  if Qeq_bool x 0 && (n <? 0) then Raised ZeroDivisionError
  else if Py.float_overflows (x ^ n) then Raised OverflowError
  else Returned (x ^ n)%Q.

(** The world of a caller: the state [user] that the operation acts on, the
    number of times an operation was invoked, the arguments of the
    [asyncio.sleep] calls made so far (oldest first) and the number of
    [random.random()] draws made so far. *)
Record World (St : Type) : Type := mkWorld {
  user : St;
  invocations : nat;
  sleeps : list Q;
  draws : nat
}.
Arguments mkWorld {St}.
Arguments user {St}.
Arguments invocations {St}.
Arguments sleeps {St}.
Arguments draws {St}.

Definition Op (St V : Type) : Type := St → outcome V * St.

(** [await func(...)] *)
Definition invoke {St V : Type} (func : Op St V) (w : World St)
    : outcome V * World St :=
  let '(r, u) := func (user w) in
  (r, {| user := u; invocations := S (invocations w);
         sleeps := sleeps w; draws := draws w |}).

(** [await asyncio.sleep(delay)] *)
Definition asyncio_sleep {St : Type} (delay : Q) (w : World St) : World St :=
  {| user := user w; invocations := invocations w;
     sleeps := sleeps w ++ [delay]; draws := draws w |}.

(** one [random.random()] draw from the stream [rnd] *)
Definition random_random {St : Type} (rnd : nat → Q) (w : World St)
    : Q * World St :=
  (rnd (draws w),
   {| user := user w; invocations := invocations w;
      sleeps := sleeps w; draws := S (draws w) |}).

(** *** ErrorMetrics *)

Record ErrorMetrics : Type := mkErrorMetrics {
  total_errors : Z;
  errors_by_type : gmap string Z;
  errors_by_severity : gmap ErrorSeverity Z;
  last_error : option Py.datetime;
  consecutive_errors : Z;
  recovery_attempts : Z;
  successful_recoveries : Z
}.

Definition ErrorMetrics_default : ErrorMetrics :=
  {| total_errors := 0; errors_by_type := ∅; errors_by_severity := ∅;
     last_error := None; consecutive_errors := 0; recovery_attempts := 0;
     successful_recoveries := 0 |}.

Definition record_error (now : Py.datetime) (error_type : string)
    (severity : ErrorSeverity) (m : ErrorMetrics) : ErrorMetrics :=
  {| total_errors := total_errors m + 1;
     errors_by_type :=
       <[error_type := default 0 (errors_by_type m !! error_type) + 1]>
         (errors_by_type m);
     errors_by_severity :=
       <[severity := default 0 (errors_by_severity m !! severity) + 1]>
         (errors_by_severity m);
     last_error := Some now;
     consecutive_errors := consecutive_errors m + 1;
     recovery_attempts := recovery_attempts m;
     successful_recoveries := successful_recoveries m |}.

Definition record_success (m : ErrorMetrics) : ErrorMetrics :=
  {| total_errors := total_errors m;
     errors_by_type := errors_by_type m;
     errors_by_severity := errors_by_severity m;
     last_error := last_error m;
     consecutive_errors := 0;
     recovery_attempts := recovery_attempts m;
     successful_recoveries := successful_recoveries m + 1 |}.

(** *** CircuitBreaker *)

Record CircuitBreakerConfig : Type := mkConfig {
  failure_threshold : Z;
  recovery_timeout : Py.timedelta;
  success_threshold : Z;
  monitoring_period : Py.timedelta;
  half_open_max_calls : Z
}.

Definition CircuitBreakerConfig_default : CircuitBreakerConfig :=
  {| failure_threshold := 5; recovery_timeout := Py.seconds 60;
     success_threshold := 3; monitoring_period := Py.seconds 300;
     half_open_max_calls := 3 |}.

Record CircuitBreaker : Type := mkBreaker {
  name : string;
  config : CircuitBreakerConfig;
  state : CircuitState;
  failure_count : Z;
  success_count : Z;
  last_failure_time : option Py.datetime;
  half_open_calls : Z;
  metrics : ErrorMetrics
}.

(** [CircuitBreaker.__init__] *)
Definition CircuitBreaker_init (nm : string) (cfg : CircuitBreakerConfig)
    : CircuitBreaker :=
  {| name := nm; config := cfg; state := CLOSED; failure_count := 0;
     success_count := 0; last_failure_time := None; half_open_calls := 0;
     metrics := ErrorMetrics_default |}.

Definition _should_attempt_reset (now : Py.datetime) (cb : CircuitBreaker) : bool :=
  match last_failure_time cb with
  | None => false
  | Some lft => recovery_timeout (config cb) <=? now - lft
  end.

Definition _classify_error (error_type : string) : ErrorSeverity :=
  let critical_errors : gset string :=
    {[ "ConnectionError"; "TimeoutError"; "CircuitBreakerOpenError" ]} in
  let high_errors : gset string :=
    {[ "APIError"; "AuthenticationError"; "RateLimitError" ]} in
  let medium_errors : gset string :=
    {[ "ValidationError"; "NotFoundError" ]} in
  if decide (error_type ∈ critical_errors) then CRITICAL
  else if decide (error_type ∈ high_errors) then HIGH
  else if decide (error_type ∈ medium_errors) then MEDIUM
  else LOW.

Definition _on_success (cb : CircuitBreaker) : CircuitBreaker :=
  let cb1 :=
    match state cb with
    | HALF_OPEN =>
        let sc := success_count cb + 1 in
        if success_threshold (config cb) <=? sc then
          {| name := name cb; config := config cb; state := CLOSED;
             failure_count := 0; success_count := 0;
             last_failure_time := last_failure_time cb;
             half_open_calls := half_open_calls cb; metrics := metrics cb |}
        else
          {| name := name cb; config := config cb; state := state cb;
             failure_count := failure_count cb; success_count := sc;
             last_failure_time := last_failure_time cb;
             half_open_calls := half_open_calls cb; metrics := metrics cb |}
    | CLOSED =>
        {| name := name cb; config := config cb; state := state cb;
           failure_count := Z.max 0 (failure_count cb - 1);
           success_count := success_count cb;
           last_failure_time := last_failure_time cb;
           half_open_calls := half_open_calls cb; metrics := metrics cb |}
    | OPEN => cb
    end in
  {| name := name cb1; config := config cb1; state := state cb1;
     failure_count := failure_count cb1; success_count := success_count cb1;
     last_failure_time := last_failure_time cb1;
     half_open_calls := half_open_calls cb1;
     metrics := record_success (metrics cb1) |}.

(** [now] is read by [_on_failure], [now_m] by [record_error]. *)
Definition _on_failure (now now_m : Py.datetime) (error_type : string)
    (cb : CircuitBreaker) : CircuitBreaker :=
  let fc := failure_count cb + 1 in
  let severity := _classify_error error_type in
  let mt := record_error now_m error_type severity (metrics cb) in
  match state cb with
  | HALF_OPEN =>
      {| name := name cb; config := config cb; state := OPEN;
         failure_count := fc; success_count := 0;
         last_failure_time := Some now;
         half_open_calls := half_open_calls cb; metrics := mt |}
  | CLOSED =>
      {| name := name cb; config := config cb;
         state := if failure_threshold (config cb) <=? fc then OPEN else CLOSED;
         failure_count := fc; success_count := success_count cb;
         last_failure_time := Some now;
         half_open_calls := half_open_calls cb; metrics := mt |}
  | OPEN =>
      {| name := name cb; config := config cb; state := OPEN;
         failure_count := fc; success_count := success_count cb;
         last_failure_time := Some now;
         half_open_calls := half_open_calls cb; metrics := mt |}
  end.

(** The two guards at the head of [call]: the exception they raise, if any,
    and the breaker they leave. *)
Definition gate (now : Py.datetime) (cb : CircuitBreaker)
    : option PyExc * CircuitBreaker :=
  let step1 : option PyExc * CircuitBreaker :=
    match state cb with
    | OPEN =>
        if _should_attempt_reset now cb then
          (None,
           {| name := name cb; config := config cb; state := HALF_OPEN;
              failure_count := failure_count cb;
              success_count := success_count cb;
              last_failure_time := last_failure_time cb;
              half_open_calls := 0; metrics := metrics cb |})
        else
          (Some (CircuitBreakerOpenError
                   ("Circuit breaker " +:+ name cb +:+ " is OPEN")), cb)
    | _ => (None, cb)
    end in
  match step1 with
  | (Some e, cb1) => (Some e, cb1)
  | (None, cb1) =>
      match state cb1 with
      | HALF_OPEN =>
          if half_open_max_calls (config cb1) <=? half_open_calls cb1 then
            (Some (CircuitBreakerOpenError
                     ("Circuit breaker " +:+ name cb1
                      +:+ " half-open limit exceeded")), cb1)
          else
            (None,
             {| name := name cb1; config := config cb1; state := state cb1;
                failure_count := failure_count cb1;
                success_count := success_count cb1;
                last_failure_time := last_failure_time cb1;
                half_open_calls := half_open_calls cb1 + 1;
                metrics := metrics cb1 |})
      | _ => (None, cb1)
      end
  end.

(** the three clock reads a [call] can make *)
Record Clock : Type := mkClock {
  at_gate : Py.datetime;
  at_failure : Py.datetime;
  at_record : Py.datetime
}.

(** the [try] block of [call], entered once the guards have passed *)
Definition attempt {St V : Type} (clk : Clock) (func : Op St V)
    (cb : CircuitBreaker) (w : World St)
    : outcome V * CircuitBreaker * World St :=
  let '(r, w1) := invoke func w in
  match r with
  | Returned v => (Returned v, _on_success cb, w1)
  | Raised e =>
      if exc_is_Exception e then
        (Raised e,
         _on_failure (at_failure clk) (at_record clk) (exc_type e) cb, w1)
      else (Raised e, cb, w1)
  end.

Definition call {St V : Type} (clk : Clock) (func : Op St V)
    (cb : CircuitBreaker) (w : World St)
    : outcome V * CircuitBreaker * World St :=
  match gate (at_gate clk) cb with
  | (Some e, cb1) => (Raised e, cb1, w)
  | (None, cb1) => attempt clk func cb1 w
  end.

(** successive calls on one breaker, each with its clock reads and its
    operation *)
Fixpoint run_calls {St V : Type} (calls : list (Clock * Op St V))
    (cb : CircuitBreaker) (w : World St)
    : list (outcome V) * CircuitBreaker * World St :=
  match calls with
  | [] => ([], cb, w)
  | (clk, func) :: calls' =>
      let '(r, cb1, w1) := call clk func cb w in
      let '(rs, cb2, w2) := run_calls calls' cb1 w1 in
      (r :: rs, cb2, w2)
  end.

(** the operations, invoked one after the other from state [u], all raise an
    [Exception] *)
Fixpoint all_fail {St V : Type} (funcs : list (Op St V)) (u : St) : Prop :=
  match funcs with
  | [] => True
  | func :: funcs' =>
      ∃ e u', func u = (Raised e, u') ∧ exc_is_Exception e = true
              ∧ all_fail funcs' u'
  end.

(** *** RetryPolicy *)

Record RetryPolicy : Type := mkRetryPolicy {
  max_attempts : Z;
  base_delay : Q;
  max_delay : Q;
  backoff_factor : Q;
  jitter : bool
}.


(** The delay before jitter. The fields are floats, as annotated, and
    [attempt] an int, so the power is a float power and can raise. Its
    product with [base_delay] cannot: beyond the range of a double it is an
    infinity, which this model does not hold; the statements about the value
    of a delay keep to products within the range. *)
Definition backoff (p : RetryPolicy) (attempt : Z) : outcome Q :=
  match float_pow (backoff_factor p) (attempt - 1) with
  | Raised e => Raised e
  | Returned pw => Returned (Py.min (base_delay p * pw)%Q (max_delay p))
  end.

(** [get_delay]; [r] is the value of [random.random()], drawn only when
    [jitter] is set. *)
Definition get_delay (r : Q) (p : RetryPolicy) (attempt : Z) : outcome Q :=
  match backoff p attempt with
  | Raised e => Raised e
  | Returned delay =>
      Returned (if jitter p then (delay * ((5 # 10) + r * (5 # 10)))%Q
                else delay)
  end.


Section Execute.

Context {St V : Type}.
Variable rnd : nat → Q.
Variable p : RetryPolicy.
(** what evaluating [func.__name__] gives: the handler of [execute] reads it
    in both of its log lines *)
Variable func_name : outcome string.
Variable func : Op St V.

(** [self.get_delay(attempt)]: the power is computed, and can raise, before
    [random.random()] is drawn *)
Definition get_delay_io (attempt : Z) (w : World St)
    : outcome Q * World St :=
  match backoff p attempt with
  | Raised e => (Raised e, w)
  | Returned _ =>
      if jitter p then
        let '(r, w1) := random_random rnd w in (get_delay r p attempt, w1)
      else (get_delay 0 p attempt, w)
  end.

(** [raise last_exception] *)
Definition raise_last (last_exception : option PyExc) : outcome V :=
  match last_exception with
  | Some e => Raised e
  | None => Raised TypeError_raise_None
  end.

(** The [for attempt in ...] loop and the [raise] after it. What the handler
    raises itself (reading [func.__name__], computing the delay) leaves
    [execute] at once: the handler is outside the [try]. *)
Fixpoint execute_loop (attempts : list Z) (last_exception : option PyExc)
    (w : World St) : outcome V * World St :=
  match attempts with
  | [] => (raise_last last_exception, w)
  | attempt :: rest =>
      let '(r, w1) := invoke func w in
      match r with
      | Returned v => (Returned v, w1)
      | Raised e =>
          if exc_is_Exception e then
            if attempt =? max_attempts p then
              match func_name with
              | Raised a => (Raised a, w1)
              | Returned _ => (raise_last (Some e), w1)
              end
            else
              match get_delay_io attempt w1 with
              | (Raised a, w2) => (Raised a, w2)
              | (Returned delay, w2) =>
                  match func_name with
                  | Raised a => (Raised a, w2)
                  | Returned _ =>
                      execute_loop rest (Some e) (asyncio_sleep delay w2)
                  end
              end
          else (Raised e, w1)
      end
  end.

Definition execute (w : World St) : outcome V * World St :=
  execute_loop (Py.range 1 (max_attempts p + 1)) None w.

End Execute.

(** the outcomes of [n] successive invocations of [func] from state [u], and
    the state they leave *)
Fixpoint op_trace {St V : Type} (func : Op St V) (n : nat) (u : St)
    : list (outcome V) * St :=
  match n with
  | O => ([], u)
  | S n' =>
      let '(r, u1) := func u in
      let '(rs, u2) := op_trace func n' u1 in
      (r :: rs, u2)
  end.

End ErrorHandling.

(** [m] with its [consecutive_failures] replaced, every other field kept *)
Definition set_consecutive_failures (c : Z) (m : FreeModel) : FreeModel :=
  set_metrics
    {| total_requests := total_requests (metrics m);
       successful_requests := successful_requests (metrics m);
       failed_requests := failed_requests (metrics m);
       average_response_time := average_response_time (metrics m);
       last_success := last_success (metrics m);
       last_failure := last_failure (metrics m);
       consecutive_failures := c;
       error_rate := error_rate (metrics m) |} m.

(** the model stored under [model_id] after a request recorded as a failure *)
Definition after_failure (now_m : Py.datetime) (threshold : Z)
    (model : FreeModel) : FreeModel :=
  let model1 := set_metrics (update_failure now_m (metrics model)) model in
  if threshold <=? consecutive_failures (metrics model1)
  then set_status UNAVAILABLE model1 else model1.

(** *** Sequences of recorded outcomes *)

Inductive RequestOutcome : Type :=
| Succeeded (response_time : Q)
| Failed.

Definition record_outcome (now : Py.datetime) (m : ModelMetrics)
    (o : RequestOutcome) : ModelMetrics :=
  match o with
  | Succeeded rt => update_success now m rt
  | Failed => update_failure now m
  end.

Definition record_outcomes (now : Py.datetime) (os : list RequestOutcome)
    : ModelMetrics :=
  List.fold_left (record_outcome now) os ModelMetrics_default.

(** The specification's reading of [average_response_time]: the mean of the
    latencies observed so far, 0 when there is none. *)
Definition observed_latencies (os : list RequestOutcome) : list Q :=
  List.flat_map (λ o, match o with Succeeded rt => [rt] | Failed => [] end) os.

Definition Qsum (l : list Q) : Q := List.fold_right Qplus 0%Q l.

Definition running_mean (l : list Q) : Q :=
  match l with
  | [] => 0%Q
  | _ => (Qsum l / inject_Z (Z.of_nat (length l)))%Q
  end.

(** *** The rate limiter as the specification words it *)

(** the window [check_rate_limits] keeps: timestamps less than 60 s old *)
Definition pruned (now : Py.datetime) (model_id : string)
    (g : OpenRouterModelManager) : list Py.datetime :=
  List.filter (λ req_time, Py.Qltb (Py.total_seconds (now - req_time)) 60)
    (default [] (rate_limit_tracker g !! model_id)).

(** The specification's [check]: on an endpoint with capacity [rpm], at or
    above capacity the endpoint is marked and the answer is [false];
    otherwise the answer is [true] and [now] is appended to the window. *)
Definition check_as_specified (now : Py.datetime) (model_id : string)
    (g : OpenRouterModelManager) : Prop :=
  ∀ model rpm,
    Dict.get model_id (models g) = Some model →
    rate_limit_rpm model = Some rpm →
    let '(ok, g') := check_rate_limits now model_id g in
    if rpm <=? Z.of_nat (length (pruned now model_id g)) then
      ok = false
      ∧ status <$> Dict.get model_id (models g') = Some RATE_LIMITED
    else
      ok = true
      ∧ rate_limit_tracker g' !! model_id
        = Some (pruned now model_id g ++ [now]).

(** *** Sample data *)

Definition sample_model (i : string) (st : ModelStatus) (rpm : option Z)
    : FreeModel :=
  {| id := i; name := i; description := ""; context_length := 4096;
     pricing := ∅; status := st; metrics := ModelMetrics_default;
     last_checked := None; rate_limit_rpm := rpm |}.

Definition sample_manager (ms : list FreeModel) : OpenRouterModelManager :=
  set_models (List.map (λ m, (id m, m)) ms) (Manager_init "key").

(** a manager whose endpoint "m" has capacity 2 and three recorded requests,
    at 10 s, 70 s and 100 s *)
Definition sample_limited_manager : OpenRouterModelManager :=
  set_tracker {[ "m" := [10000000; 70000000; 100000000] ]}
    (sample_manager [sample_model "m" AVAILABLE (Some 2)]).

(** the breaker of the demonstration in [main]: threshold 3, timeout 10 s *)
Definition sample_config : ErrorHandling.CircuitBreakerConfig :=
  ErrorHandling.mkConfig 3 (Py.seconds 10) 3 (Py.seconds 300) 3.

Definition sample_breaker : ErrorHandling.CircuitBreaker :=
  ErrorHandling.CircuitBreaker_init "example_service" sample_config.

Definition sample_half_open_breaker : ErrorHandling.CircuitBreaker :=
  ErrorHandling.mkBreaker "example_service" sample_config
    ErrorHandling.HALF_OPEN 3 2 (Some 0) 1 ErrorHandling.ErrorMetrics_default.

Definition ConnectionError : ErrorHandling.PyExc :=
  ErrorHandling.mkExc "ConnectionError" "Service unavailable" true.

(** [example_failing_service(True)], acting on a counter of its runs *)
Definition failing_service : ErrorHandling.Op nat string :=
  λ u, (ErrorHandling.Raised ConnectionError, S u).

(** an operation that raises on its first two runs and returns afterwards *)
Definition flaky_service : ErrorHandling.Op nat string :=
  λ u, if (u <? 2)%nat then (ErrorHandling.Raised ConnectionError, S u)
       else (ErrorHandling.Returned "Success", S u).

Definition sample_world : ErrorHandling.World nat :=
  ErrorHandling.mkWorld O O [] O.

Definition sample_clock (t : Py.datetime) : ErrorHandling.Clock :=
  ErrorHandling.mkClock t (t + 1) (t + 2).

Definition sample_calls : list (ErrorHandling.Clock * ErrorHandling.Op nat string) :=
  [(sample_clock 0, failing_service); (sample_clock 10, failing_service);
   (sample_clock 20, failing_service)].

Definition sample_policy : ErrorHandling.RetryPolicy :=
  ErrorHandling.mkRetryPolicy 3 1 60 2 true.

(** a stream of draws of [random.random()] *)
Definition sample_rnd : nat → Q := λ n, (1 # 2)%Q.

(** the breaker of the demonstration with no room for half-open calls *)
Definition sample_breaker_no_probe : ErrorHandling.CircuitBreaker :=
  ErrorHandling.CircuitBreaker_init "example_service"
    (ErrorHandling.mkConfig 3 (Py.seconds 10) 3 (Py.seconds 300) 0).

(** a call is admitted in HALF_OPEN: it passes the guards of [call] with the
    breaker in HALF_OPEN and its operation is attempted *)
Definition let_through_half_open {St V : Type} (clk : ErrorHandling.Clock)
    (func : ErrorHandling.Op St V) (cb : ErrorHandling.CircuitBreaker)
    (w : ErrorHandling.World St) : Prop :=
  ∃ cbh,
    ErrorHandling.gate (ErrorHandling.at_gate clk) cb = (None, cbh)
    ∧ ErrorHandling.state cbh = ErrorHandling.HALF_OPEN
    ∧ ErrorHandling.call clk func cb w = ErrorHandling.attempt clk func cbh w.

(** ** Further operations of openrouter_model_manager.py *)

(** What the test request of [test_model_health] comes back with: a response
    with its HTTP status, received [response_time] seconds after the start;
    an [asyncio.TimeoutError]; or any other [Exception] (a connection error,
    or the [AttributeError] of a session that was never opened). *)
Inductive ProbeOutcome : Type :=
| Responded (http_status : Z) (response_time : Q)
| ProbeTimeout
| ProbeException.

(** what [test_model_health] does to the endpoint it probes *)
Definition probe_model (now_m : Py.datetime) (probe : ProbeOutcome)
    (model : FreeModel) : FreeModel :=
  let model0 := set_status TESTING model in
  match probe with
  | Responded http_status response_time =>
      if http_status =? 200 then
        set_status AVAILABLE
          (set_metrics (update_success now_m (metrics model0) response_time)
             model0)
      else
        set_status (if 500 <=? http_status then ERROR else RATE_LIMITED)
          (set_metrics (update_failure now_m (metrics model0)) model0)
  | ProbeTimeout =>
      set_status ERROR (set_metrics (update_failure now_m (metrics model0)) model0)
  | ProbeException =>
      set_status ERROR (set_metrics (update_failure now_m (metrics model0)) model0)
  end.

(** [test_model_health]: [now_m] is the clock read of the metrics update *)
Definition test_model_health (now_m : Py.datetime) (probe : ProbeOutcome)
    (model_id : string) (g : OpenRouterModelManager)
    : bool * OpenRouterModelManager :=
  match Dict.get model_id (models g) with
  | None => (false, g)
  | Some _ =>
      (match probe with
       | Responded http_status _ => http_status =? 200
       | _ => false
       end,
       set_models (Dict.alter (probe_model now_m probe) model_id (models g)) g)
  end.

(** The [for] loop of one round of [health_check_loop] over the keys listed
    at its start; [clock k] and [probes k] are the clock read and the outcome
    of the probe of endpoint [k]. A key that is no longer stored raises
    [KeyError], which ends the round. *)
Fixpoint health_check_keys (clock : string → Py.datetime)
    (probes : string → ProbeOutcome) (keys : list string)
    (g : OpenRouterModelManager) : OpenRouterModelManager :=
  match keys with
  | [] => g
  | model_id :: keys' =>
      match Dict.get model_id (models g) with
      | None => g
      | Some model =>
          health_check_keys clock probes keys'
            (if bool_decide (status model = AVAILABLE)
                || bool_decide (status model = ERROR)
             then snd (test_model_health (clock model_id) (probes model_id)
                         model_id g)
             else g)
      end
  end.

Definition health_check_round (clock : string → Py.datetime)
    (probes : string → ProbeOutcome) (g : OpenRouterModelManager)
    : OpenRouterModelManager :=
  health_check_keys clock probes (List.map fst (models g)) g.

(** the number of successes in a sequence of outcomes *)
Definition successes (os : list RequestOutcome) : Z :=
  Z.of_nat (length (observed_latencies os)).

(** the number of failures recorded since the last success *)
Fixpoint failures_since_success (os : list RequestOutcome) (acc : Z) : Z :=
  match os with
  | [] => acc
  | Succeeded _ :: os' => failures_since_success os' 0
  | Failed :: os' => failures_since_success os' (acc + 1)
  end.

(** ** Further notions for error_handling_system.py *)


(** what every breaker built by [CircuitBreaker.__init__] and driven by
    [call] satisfies *)
Definition breaker_invariant (cb : ErrorHandling.CircuitBreaker) : Prop :=
  0 <= ErrorHandling.failure_count cb
  ∧ 0 <= ErrorHandling.success_count cb
  ∧ 0 <= ErrorHandling.half_open_calls cb
  ∧ (ErrorHandling.state cb ≠ ErrorHandling.CLOSED →
     is_Some (ErrorHandling.last_failure_time cb))
  ∧ (ErrorHandling.state cb ≠ ErrorHandling.HALF_OPEN →
     ErrorHandling.success_count cb = 0)
  ∧ (ErrorHandling.state cb = ErrorHandling.CLOSED →
     ErrorHandling.failure_count cb
     < Z.max 1 (ErrorHandling.failure_threshold (ErrorHandling.config cb)))
  ∧ (ErrorHandling.state cb = ErrorHandling.HALF_OPEN →
     ErrorHandling.success_count cb
     < Z.max 1 (ErrorHandling.success_threshold (ErrorHandling.config cb))).

(** a sequence of [record_error] calls, each with its clock read, error type
    and severity, oldest first *)
Definition record_errors
    (errs : list (Py.datetime * string * ErrorHandling.ErrorSeverity))
    (m : ErrorHandling.ErrorMetrics) : ErrorHandling.ErrorMetrics :=
  List.fold_left
    (λ m e, ErrorHandling.record_error e.1.1 e.1.2 e.2 m) errs m.

(** the number of entries of [l] that satisfy [f] *)
Definition count_where {A : Type} (f : A → bool) (l : list A) : Z :=
  Z.of_nat (length (List.filter f l)).


(** ** ErrorRecoveryManager *)

Module Recovery.
Import ErrorHandling.

(** The registries of the manager. The [recovery_strategies] registry holds
    callables that only [attempt_recovery] reads; it is left out here, as is
    [attempt_recovery]. *)
Record ErrorRecoveryManager : Type := mkRecovery {
  circuit_breakers : gmap string CircuitBreaker;
  retry_policies : gmap string RetryPolicy;
  global_metrics : ErrorMetrics
}.

(** [ErrorRecoveryManager.__init__] *)
Definition ErrorRecoveryManager_init : ErrorRecoveryManager :=
  {| circuit_breakers := ∅; retry_policies := ∅;
     global_metrics := ErrorMetrics_default |}.

Definition register_circuit_breaker (nm : string) (cfg : CircuitBreakerConfig)
    (mgr : ErrorRecoveryManager) : CircuitBreaker * ErrorRecoveryManager :=
  let cb := CircuitBreaker_init nm cfg in
  (cb,
   {| circuit_breakers := <[nm := cb]> (circuit_breakers mgr);
      retry_policies := retry_policies mgr;
      global_metrics := global_metrics mgr |}).

Definition register_retry_policy (nm : string) (policy : RetryPolicy)
    (mgr : ErrorRecoveryManager) : ErrorRecoveryManager :=
  {| circuit_breakers := circuit_breakers mgr;
     retry_policies := <[nm := policy]> (retry_policies mgr);
     global_metrics := global_metrics mgr |}.

(** the breaker registered under [nm] after a [call] mutated it *)
Definition store_breaker (nm : string) (cb : CircuitBreaker)
    (mgr : ErrorRecoveryManager) : ErrorRecoveryManager :=
  {| circuit_breakers := <[nm := cb]> (circuit_breakers mgr);
     retry_policies := retry_policies mgr;
     global_metrics := global_metrics mgr |}.

(** [if name and name in registry]: the entry registered under a name that
    is given and not empty *)
Definition registered {A : Type} (nm : option string) (registry : gmap string A)
    : option (string * A) :=
  match nm with
  | Some n =>
      if bool_decide (n = "") then None
      else match registry !! n with
           | Some a => Some (n, a)
           | None => None
           end
  | None => None
  end.

Definition _execute_with_circuit_breaker {St V : Type} (clk : Clock)
    (func : Op St V) (circuit_breaker_name : option string)
    (mgr : ErrorRecoveryManager) (w : World St)
    : outcome V * ErrorRecoveryManager * World St :=
  match registered circuit_breaker_name (circuit_breakers mgr) with
  | Some (n, circuit_breaker) =>
      let '(r, cb', w') := call clk func circuit_breaker w in
      (r, store_breaker n cb' mgr, w')
  | None =>
      let '(r, w') := invoke func w in (r, mgr, w')
  end.

(** What a protected execution acts on: the manager, the world of the
    operation, and the number of times the breaker-gated unit has run, which
    selects the clock reads of the next run. *)
Record Protected (St : Type) : Type := mkProtected {
  manager : ErrorRecoveryManager;
  world : World St;
  gated_runs : nat
}.
Arguments mkProtected {St}.
Arguments manager {St}.
Arguments world {St}.
Arguments gated_runs {St}.

(** [lambda: self._execute_with_circuit_breaker(func, circuit_breaker_name)],
    the unit that [execute_with_protection] runs or retries *)
Definition func_to_call {St V : Type} (clock : nat → Clock) (func : Op St V)
    (circuit_breaker_name : option string) : Op (Protected St) V :=
  λ s,
    let '(r, mgr', w') :=
      _execute_with_circuit_breaker (clock (gated_runs s)) func
        circuit_breaker_name (manager s) (world s) in
    (r, {| manager := mgr'; world := w'; gated_runs := S (gated_runs s) |}).

Definition execute_with_protection {St V : Type} (rnd : nat → Q)
    (clock : nat → Clock) (func : Op St V)
    (circuit_breaker_name retry_policy_name : option string)
    (W : World (Protected St)) : outcome V * World (Protected St) :=
  match registered retry_policy_name (retry_policies (manager (user W))) with
  | Some (_, retry_policy) =>
      execute rnd retry_policy (Returned "<lambda>")
        (func_to_call clock func circuit_breaker_name) W
  | None => invoke (func_to_call clock func circuit_breaker_name) W
  end.

End Recovery.

(** the calls that [k] successive runs of the breaker-gated unit make on the
    breaker, the first of them reading the clock at [clock start] *)
Definition gated_calls {St V : Type} (clock : nat → ErrorHandling.Clock)
    (func : ErrorHandling.Op St V) (start k : nat)
    : list (ErrorHandling.Clock * ErrorHandling.Op St V) :=
  List.map (λ i, (clock i, func)) (List.seq start k).

(** * Properties *)

(** ** Comparisons, [min] and [max] *)

Lemma Qltb_spec (x y : Q) :
  (Py.Qltb x y = true ∧ (x < y)%Q) ∨ (Py.Qltb x y = false ∧ (y <= x)%Q).
Proof.
  unfold Py.Qltb. destruct (Qcompare_spec x y) as [H|H|H].
  - right. split; [reflexivity | rewrite H; apply Qle_refl].
  - left. split; [reflexivity | exact H].
  - right. split; [reflexivity | apply Qlt_le_weak, H].
Qed.

Lemma Qltb_true (x y : Q) : Py.Qltb x y = true ↔ (x < y)%Q.
Proof.
  destruct (Qltb_spec x y) as [[E H]|[E H]]; rewrite E; split; try done.
  intros H'. exfalso. apply (Qlt_irrefl x). eapply Qlt_le_trans; eauto.
Qed.

Lemma Qltb_false (x y : Q) : Py.Qltb x y = false ↔ (y <= x)%Q.
Proof.
  destruct (Qltb_spec x y) as [[E H]|[E H]]; rewrite E; split; try done.
  intros H'. exfalso. apply (Qlt_irrefl x). eapply Qlt_le_trans; eauto.
Qed.

Ltac py_cmp :=
  repeat match goal with
  | |- context [Py.Qltb ?x ?y] =>
      let E := fresh "E" in let H := fresh "H" in
      destruct (Qltb_spec x y) as [[E H]|[E H]]; rewrite E
  end.

Lemma py_min_spec (a b : Q) :
  (Py.min a b <= a)%Q ∧ (Py.min a b <= b)%Q ∧
  (Py.min a b == a ∨ Py.min a b == b)%Q.
Proof. unfold Py.min. py_cmp; repeat split; try lra; auto with qarith. Qed.

Lemma py_max_spec (a b : Q) :
  (a <= Py.max a b)%Q ∧ (b <= Py.max a b)%Q ∧
  (Py.max a b == a ∨ Py.max a b == b)%Q.
Proof. unfold Py.max. py_cmp; repeat split; try lra; auto with qarith. Qed.

Lemma py_min_mono_r (a b b' : Q) : (b <= b')%Q → (Py.min a b <= Py.min a b')%Q.
Proof. intros Hb. unfold Py.min. py_cmp; lra. Qed.

Lemma py_max_mono_r (a b b' : Q) : (b <= b')%Q → (Py.max a b <= Py.max a b')%Q.
Proof. intros Hb. unfold Py.max. py_cmp; lra. Qed.

Lemma py_clamp_bounds (x : Q) : (0 <= Py.max 0 (Py.min 1 x) <= 1)%Q.
Proof.
  destruct (py_max_spec 0 (Py.min 1 x)) as (A & B & [C|C]);
    destruct (py_min_spec 1 x) as (D & E & _); lra.
Qed.

(** ** Health score *)

Lemma health_score_unavailable now m :
  status m = UNAVAILABLE → health_score now m = 0%Q.
Proof. intros H. unfold health_score. rewrite decide_True; done. Qed.

Lemma health_score_bounds now m : (0 <= health_score now m <= 1)%Q.
Proof.
  unfold health_score. case_decide; [lra |]. cbv zeta. apply py_clamp_bounds.
Qed.

Lemma health_score_antitone now m (c1 c2 : Z) :
  c1 <= c2 →
  (health_score now (set_consecutive_failures c2 m)
   <= health_score now (set_consecutive_failures c1 m))%Q.
Proof.
  intros Hc. unfold health_score, set_consecutive_failures, set_metrics.
  cbn [status]. case_decide; [lra |]. cbv zeta.
  cbn [metrics error_rate consecutive_failures last_success average_response_time].
  apply py_max_mono_r, py_min_mono_r.
  assert (Hp : (Py.min (5 # 10) (inject_Z c1 * (1 # 10))
                <= Py.min (5 # 10) (inject_Z c2 * (1 # 10)))%Q).
  { apply py_min_mono_r. rewrite (Zle_Qle c1 c2) in Hc. lra. }
  lra.
Qed.

(** C8: [health_score] is exactly 0 for an UNAVAILABLE endpoint, always lies
    in [0, 1], and does not increase when [consecutive_failures] grows while
    the status, the clock and every other metric field are kept. *)
Theorem health_score_monotone_bounded :
  ∀ (now : Py.datetime) (m : FreeModel) (c1 c2 : Z),
    c1 <= c2 →
    (health_score now (set_consecutive_failures c2 m)
     <= health_score now (set_consecutive_failures c1 m))%Q
    ∧ (status m = UNAVAILABLE → health_score now m = 0%Q)
    ∧ (0 <= health_score now m <= 1)%Q.
Proof.
  intros now m c1 c2 Hc. split; [|split].
  - by apply health_score_antitone.
  - apply health_score_unavailable.
  - apply health_score_bounds.
Qed.

Lemma health_score_monotone_bounded_witness :
  1 <= 3
  ∧ (health_score 0 (set_consecutive_failures 3 (sample_model "m" AVAILABLE None))
     <= health_score 0 (set_consecutive_failures 1 (sample_model "m" AVAILABLE None)))%Q
  ∧ (status (sample_model "m" AVAILABLE None) = UNAVAILABLE →
     health_score 0 (sample_model "m" AVAILABLE None) = 0%Q)
  ∧ (0 <= health_score 0 (sample_model "m" AVAILABLE None) <= 1)%Q.
Proof.
  split; [lia |].
  apply (health_score_monotone_bounded 0 (sample_model "m" AVAILABLE None) 1 3).
  lia.
Defined.

(** ** Metrics *)

Lemma update_failure_average now m :
  average_response_time (update_failure now m) = average_response_time m.
Proof. unfold update_failure, _update_error_rate. by case_match. Qed.

Lemma update_success_total now m rt :
  total_requests (update_success now m rt) = total_requests m + 1.
Proof. unfold update_success, _update_error_rate. cbv zeta. by case_match. Qed.

Lemma update_success_average now m rt :
  average_response_time (update_success now m rt)
  = if total_requests m + 1 =? 1 then rt
    else ((average_response_time m * inject_Z (total_requests m + 1 - 1) + rt)
          / inject_Z (total_requests m + 1))%Q.
Proof. unfold update_success, _update_error_rate. cbv zeta. by case_match. Qed.

Lemma record_outcomes_snoc now os o :
  record_outcomes now (os ++ [o])
  = record_outcome now (record_outcomes now os) o.
Proof. unfold record_outcomes. by rewrite fold_left_app. Qed.

(** With no latency observed the average is the initial 0. *)
Lemma average_without_latency now os :
  observed_latencies os = [] →
  average_response_time (record_outcomes now os) = 0%Q.
Proof.
  induction os as [|o os IH] using rev_ind; [done |].
  unfold observed_latencies in *. rewrite flat_map_app. cbn [flat_map].
  rewrite app_nil_r. intros H. apply app_eq_nil in H as [H1 H2].
  rewrite record_outcomes_snoc. destruct o as [rt|]; [done |].
  cbn [record_outcome]. rewrite update_failure_average. by apply IH.
Qed.

Lemma Qsum_snoc (l : list Q) (x : Q) : (Qsum (l ++ [x]) == Qsum l + x)%Q.
Proof.
  induction l as [|y l IHl]; cbn [app Qsum fold_right].
  - lra.
  - fold (Qsum (l ++ [x])). fold (Qsum l). rewrite IHl. lra.
Qed.

Lemma running_mean_snoc (l : list Q) (x : Q) :
  (running_mean (l ++ [x])
   == (Qsum l + x) / (inject_Z (Z.of_nat (length l)) + 1))%Q.
Proof.
  assert (H : (running_mean (l ++ [x])
               == Qsum (l ++ [x]) / inject_Z (Z.of_nat (length (l ++ [x]))))%Q)
    by (destruct l; reflexivity).
  rewrite H, Qsum_snoc, length_app, Nat2Z.inj_add, inject_Z_plus. reflexivity.
Qed.

(** When every recorded outcome is a success the incremental update keeps
    the mean of the latencies. *)
Lemma average_of_successes now (rts : list Q) :
  let m := record_outcomes now (List.map Succeeded rts) in
  total_requests m = Z.of_nat (length rts)
  ∧ (average_response_time m == running_mean rts)%Q.
Proof.
  induction rts as [|rt rts IH] using rev_ind; [done |].
  cbv zeta in *. destruct IH as [Ht Ha].
  rewrite map_app. cbn [List.map]. rewrite record_outcomes_snoc.
  cbn [record_outcome]. rewrite update_success_total, update_success_average.
  rewrite Ht, length_app. cbn [length]. split; [lia |].
  rewrite running_mean_snoc.
  replace (Z.of_nat (length rts) + 1 - 1) with (Z.of_nat (length rts)) by lia.
  rewrite inject_Z_plus. change (inject_Z 1) with 1%Q.
  destruct rts as [|r0 rts'].
  - change (Z.of_nat (length []) + 1 =? 1) with true.
    change (inject_Z (Z.of_nat (length []))) with 0%Q.
    change (Qsum []) with 0%Q. cbv beta iota. field.
  - case_match eqn:E; [apply Z.eqb_eq in E; cbn [length] in E; lia |].
    rewrite Ha. unfold running_mean.
    assert (Hn : (0 < inject_Z (Z.of_nat (length (r0 :: rts'))))%Q).
    { rewrite <- (Zlt_Qlt 0). cbn [length]. lia. }
    remember (inject_Z (Z.of_nat (length (r0 :: rts')))) as q eqn:Eq. clear Eq.
    field. split; lra.
Qed.

(** C2: one failure followed by one success of latency 2 leaves
    [average_response_time] at 1, while the mean of the observed latencies
    is 2: the update divides by [total_requests], which also counts the
    failure. *)
Theorem average_response_time_counts_failures :
  let os := [Failed; Succeeded 2] in
  (average_response_time (record_outcomes 0%Z os) == 1)%Q
  ∧ (running_mean (observed_latencies os) == 2)%Q
  ∧ ¬ (average_response_time (record_outcomes 0%Z os)
       == running_mean (observed_latencies os))%Q.
Proof. cbv zeta. vm_compute. repeat split; intros; discriminate. Qed.

(** ** The endpoint store *)

Lemma dict_get_alter {V : Type} (f : V → V) (k k' : string) (d : Dict.t V) :
  Dict.get k' (Dict.alter f k d)
  = if decide (k = k') then f <$> Dict.get k' d else Dict.get k' d.
Proof.
  induction d as [|[k0 v] d IH]; cbn [Dict.get Dict.alter].
  - by case_decide.
  - destruct (decide (k0 = k)) as [->|Hk]; cbn [Dict.get].
    + by destruct (decide (k = k')).
    + rewrite IH. destruct (decide (k0 = k')) as [->|Hk0]; [|done].
      by rewrite decide_False.
Qed.

Lemma dict_get_alter_eq {V : Type} (f : V → V) (k : string) (d : Dict.t V) :
  Dict.get k (Dict.alter f k d) = f <$> Dict.get k d.
Proof. rewrite dict_get_alter. by rewrite decide_True. Qed.

Lemma dict_keys_alter {V : Type} (f : V → V) (k : string) (d : Dict.t V) :
  List.map fst (Dict.alter f k d) = List.map fst d.
Proof.
  induction d as [|[k0 v] d IH]; [done |]. cbn [Dict.alter].
  case_decide; cbn [List.map fst]; [done | by rewrite IH].
Qed.

(** ** Recording a request *)

Lemma update_failure_fields now m :
  let m' := update_failure now m in
  total_requests m' = total_requests m + 1
  ∧ successful_requests m' = successful_requests m
  ∧ failed_requests m' = failed_requests m + 1
  ∧ consecutive_failures m' = consecutive_failures m + 1
  ∧ last_failure m' = Some now
  ∧ last_success m' = last_success m
  ∧ average_response_time m' = average_response_time m.
Proof. cbv zeta. unfold update_failure, _update_error_rate. by case_match. Qed.

Lemma update_success_fields now m rt :
  let m' := update_success now m rt in
  total_requests m' = total_requests m + 1
  ∧ successful_requests m' = successful_requests m + 1
  ∧ failed_requests m' = failed_requests m
  ∧ consecutive_failures m' = 0
  ∧ last_success m' = Some now
  ∧ last_failure m' = last_failure m.
Proof. cbv zeta. unfold update_success, _update_error_rate. by case_match. Qed.

Lemma record_request_failure_branch now now_m model_id success g model :
  Dict.get model_id (models g) = Some model →
  Dict.get model_id (models (record_request now now_m model_id success None g))
  = Some (after_failure now_m (circuit_breaker_threshold g) model).
Proof.
  intros Hg. unfold record_request. rewrite Hg.
  cbn [models set_models set_tracker]. rewrite dict_get_alter_eq, Hg.
  by destruct success.
Qed.

(** C9: on a known endpoint, [record_request] with [success = true] and no
    [response_time] takes the failure path: [failed_requests] and
    [consecutive_failures] grow by one, [last_failure] is set, the success
    counters are untouched, and the status becomes UNAVAILABLE as soon as
    [consecutive_failures] reaches [circuit_breaker_threshold]. *)
Theorem record_request_success_without_time_is_failure :
  ∀ (now now_m : Py.datetime) (model_id : string)
    (g : OpenRouterModelManager) (model : FreeModel),
    Dict.get model_id (models g) = Some model →
    ∃ model',
      Dict.get model_id (models (record_request now now_m model_id true None g))
      = Some model'
      ∧ failed_requests (metrics model') = failed_requests (metrics model) + 1
      ∧ consecutive_failures (metrics model')
        = consecutive_failures (metrics model) + 1
      ∧ last_failure (metrics model') = Some now_m
      ∧ total_requests (metrics model') = total_requests (metrics model) + 1
      ∧ successful_requests (metrics model')
        = successful_requests (metrics model)
      ∧ last_success (metrics model') = last_success (metrics model)
      ∧ (circuit_breaker_threshold g <= consecutive_failures (metrics model) + 1
         → status model' = UNAVAILABLE)
      ∧ (consecutive_failures (metrics model) + 1 < circuit_breaker_threshold g
         → status model' = status model).
Proof.
  intros now now_m model_id g model Hg.
  eexists. split; [by apply record_request_failure_branch |].
  destruct (update_failure_fields now_m (metrics model))
    as (Ht & Hs & Hf & Hc & Hl & Hls & _).
  unfold after_failure. cbv zeta. cbn [metrics set_metrics].
  rewrite Hc.
  destruct (Z.leb_spec (circuit_breaker_threshold g)
              (consecutive_failures (metrics model) + 1)) as [Hle|Hlt];
    cbn [metrics status set_status set_metrics];
    repeat split; try done; try lia.
Qed.

Lemma record_request_success_without_time_is_failure_witness :
  let g := sample_manager [sample_model "m" AVAILABLE None] in
  let model := sample_model "m" AVAILABLE None in
  Dict.get "m" (models g) = Some model
  ∧ ∃ model',
      Dict.get "m" (models (record_request 5 6 "m" true None g)) = Some model'
      ∧ failed_requests (metrics model') = failed_requests (metrics model) + 1
      ∧ consecutive_failures (metrics model')
        = consecutive_failures (metrics model) + 1
      ∧ last_failure (metrics model') = Some 6
      ∧ total_requests (metrics model') = total_requests (metrics model) + 1
      ∧ successful_requests (metrics model')
        = successful_requests (metrics model)
      ∧ last_success (metrics model') = last_success (metrics model)
      ∧ (circuit_breaker_threshold g <= consecutive_failures (metrics model) + 1
         → status model' = UNAVAILABLE)
      ∧ (consecutive_failures (metrics model) + 1 < circuit_breaker_threshold g
         → status model' = status model).
Proof.
  cbv zeta. split; [reflexivity |].
  apply (record_request_success_without_time_is_failure 5 6 "m"
           (sample_manager [sample_model "m" AVAILABLE None])
           (sample_model "m" AVAILABLE None)).
  reflexivity.
Defined.

(** C10: on a known endpoint, [record_request] with [success = true] and a
    [response_time] leaves the endpoint AVAILABLE whatever its status was,
    UNAVAILABLE included, and resets [consecutive_failures]. *)
Theorem record_request_success_restores_available :
  ∀ (now now_m : Py.datetime) (model_id : string) (rt : Q)
    (g : OpenRouterModelManager) (model : FreeModel),
    Dict.get model_id (models g) = Some model →
    ∃ model',
      Dict.get model_id
        (models (record_request now now_m model_id true (Some rt) g))
      = Some model'
      ∧ status model' = AVAILABLE
      ∧ metrics model' = update_success now_m (metrics model) rt
      ∧ consecutive_failures (metrics model') = 0
      ∧ successful_requests (metrics model')
        = successful_requests (metrics model) + 1.
Proof.
  intros now now_m model_id rt g model Hg.
  unfold record_request. rewrite Hg. cbn [models set_models set_tracker].
  rewrite dict_get_alter_eq, Hg. cbn [fmap option_fmap option_map].
  eexists. split; [reflexivity |].
  destruct (update_success_fields now_m (metrics model) rt)
    as (_ & Hs & _ & Hc & _).
  cbv zeta. case_decide as Hst; cbn [status metrics set_status set_metrics] in *;
    repeat split; done.
Qed.

Lemma record_request_success_restores_available_witness :
  let g := sample_manager [sample_model "m" UNAVAILABLE None] in
  let model := sample_model "m" UNAVAILABLE None in
  Dict.get "m" (models g) = Some model
  ∧ ∃ model',
      Dict.get "m" (models (record_request 5 6 "m" true (Some (3 # 2)) g))
      = Some model'
      ∧ status model' = AVAILABLE
      ∧ metrics model' = update_success 6 (metrics model) (3 # 2)
      ∧ consecutive_failures (metrics model') = 0
      ∧ successful_requests (metrics model')
        = successful_requests (metrics model) + 1.
Proof.
  cbv zeta. split; [reflexivity |].
  apply (record_request_success_restores_available 5 6 "m" (3 # 2)
           (sample_manager [sample_model "m" UNAVAILABLE None])
           (sample_model "m" UNAVAILABLE None)).
  reflexivity.
Defined.

(** ** Rate limiter *)

Lemma total_seconds_lt (d s : Z) :
  (Py.total_seconds d < inject_Z s)%Q ↔ d < Py.seconds s.
Proof.
  unfold Py.total_seconds, Py.seconds, Qlt, Qdiv, Qmult, Qinv, inject_Z.
  cbn [Qnum Qden Z.mul Pos.mul]. lia.
Qed.

Lemma check_rate_limits_eq now model_id g :
  check_rate_limits now model_id g
  = let window := pruned now model_id g in
    let g1 := set_tracker (<[model_id := window]> (rate_limit_tracker g)) g in
    match Dict.get model_id (models g) with
    | Some model =>
        match rate_limit_rpm model with
        | Some rpm =>
            if negb (rpm =? 0) && (rpm <=? Z.of_nat (length window)) then
              (false,
               set_models
                 (Dict.alter (set_status RATE_LIMITED) model_id (models g)) g1)
            else (true, g1)
        | None => (true, g1)
        end
    | None => (true, g1)
    end.
Proof.
  unfold check_rate_limits, pruned.
  assert (Hw : ∀ w : list Z,
    <[model_id := w]>
      (match rate_limit_tracker g !! model_id with
       | None => <[model_id := []]> (rate_limit_tracker g)
       | Some _ => rate_limit_tracker g
       end) = <[model_id := w]> (rate_limit_tracker g)).
  { intros w. destruct (rate_limit_tracker g !! model_id); [done |].
    apply insert_insert_eq. }
  assert (Hd : default []
      (match rate_limit_tracker g !! model_id with
       | None => <[model_id := []]> (rate_limit_tracker g)
       | Some _ => rate_limit_tracker g
       end !! model_id) = default [] (rate_limit_tracker g !! model_id)).
  { destruct (rate_limit_tracker g !! model_id) eqn:E; [by rewrite E |].
    by rewrite lookup_insert_eq. }
  cbv zeta. rewrite Hd, Hw. reflexivity.
Qed.

Lemma check_rate_limits_tracker now model_id g :
  rate_limit_tracker (snd (check_rate_limits now model_id g))
  = <[model_id := pruned now model_id g]> (rate_limit_tracker g).
Proof.
  rewrite check_rate_limits_eq. cbv zeta. repeat case_match; reflexivity.
Qed.

Lemma record_request_tracker now now_m model_id success response_time g :
  is_Some (Dict.get model_id (models g)) →
  rate_limit_tracker (record_request now now_m model_id success response_time g)
  !! model_id
  = Some (default [] (rate_limit_tracker g !! model_id) ++ [now]).
Proof.
  intros [model Hg]. unfold record_request. rewrite Hg.
  cbn [rate_limit_tracker set_models set_tracker].
  rewrite lookup_insert_eq.
  destruct (rate_limit_tracker g !! model_id) eqn:E; [by rewrite E |].
  by rewrite lookup_insert_eq.
Qed.

(** C1, as worded, fails: on an endpoint with capacity 5 and an empty window
    [check_rate_limits] answers [true] and leaves the window empty. *)
Lemma check_rate_limits_records_nothing :
  ¬ check_as_specified 0 "m" (sample_manager [sample_model "m" AVAILABLE (Some 5)]).
Proof.
  intros H. specialize (H _ 5 eq_refl eq_refl).
  vm_compute in H. destruct H as [_ H]. discriminate H.
Qed.

(** C1, amended: on a known endpoint with a non-zero capacity,
    [check_rate_limits] replaces the window by its timestamps less than 60 s
    old; at or above capacity it marks the endpoint RATE_LIMITED and answers
    [false]; below capacity it answers [true] and changes neither the
    endpoints nor the pruned window. The current timestamp is appended by
    [record_request], on every known endpoint. *)
Theorem check_rate_limits_prunes_and_gates :
  ∀ (now now' now_m : Py.datetime) (model_id : string)
    (g : OpenRouterModelManager) (model : FreeModel) (rpm : Z)
    (success : bool) (response_time : option Q),
    Dict.get model_id (models g) = Some model →
    rate_limit_rpm model = Some rpm →
    rpm ≠ 0 →
    let window := pruned now model_id g in
    let '(ok, g') := check_rate_limits now model_id g in
    rate_limit_tracker g' = <[model_id := window]> (rate_limit_tracker g)
    ∧ (∀ t, t ∈ window ↔
            t ∈ default [] (rate_limit_tracker g !! model_id)
            ∧ now - t < Py.seconds 60)
    ∧ (rpm <= Z.of_nat (length window) →
       ok = false
       ∧ Dict.get model_id (models g') = Some (set_status RATE_LIMITED model))
    ∧ (Z.of_nat (length window) < rpm →
       ok = true ∧ models g' = models g)
    ∧ rate_limit_tracker
        (record_request now' now_m model_id success response_time g')
      !! model_id = Some (window ++ [now']).
Proof.
  intros now now' now_m model_id g model rpm success response_time Hg Hr Hz.
  cbv zeta.
  pose proof (check_rate_limits_tracker now model_id g) as Ht.
  destruct (check_rate_limits now model_id g) as [ok g'] eqn:Hc.
  cbn [snd] in Ht. split; [exact Ht |]. split.
  { intros t. unfold pruned. rewrite list_elem_of_In, filter_In.
    rewrite <- list_elem_of_In, Qltb_true. unfold Py.total_seconds, Py.seconds.
    apply and_iff_compat_l, total_seconds_lt. }
  assert (Hkeys : Dict.get model_id (models g') = Dict.get model_id (models g)
                  ∨ Dict.get model_id (models g')
                    = Some (set_status RATE_LIMITED model)) .
  { rewrite check_rate_limits_eq in Hc. cbv zeta in Hc. rewrite Hg, Hr in Hc.
    case_match; inversion Hc; subst; cbn [models set_models set_tracker].
    - right. by rewrite dict_get_alter_eq, Hg.
    - by left. }
  split; [|split].
  - intros Hle. rewrite check_rate_limits_eq in Hc. cbv zeta in Hc.
    rewrite Hg, Hr in Hc.
    rewrite (proj2 (Z.leb_le _ _) Hle), (proj2 (Z.eqb_neq _ _) Hz) in Hc.
    cbn [negb andb] in Hc. inversion Hc; subst.
    cbn [models set_models]. by rewrite dict_get_alter_eq, Hg.
  - intros Hlt. rewrite check_rate_limits_eq in Hc. cbv zeta in Hc.
    rewrite Hg, Hr in Hc.
    rewrite (proj2 (Z.leb_gt _ _) Hlt), andb_false_r in Hc.
    by inversion Hc.
  - assert (Hk : is_Some (Dict.get model_id (models g'))).
    { destruct Hkeys as [-> | ->]; [by rewrite Hg | done]. }
    rewrite (record_request_tracker _ _ _ _ _ _ Hk), Ht.
    by rewrite lookup_insert_eq.
Qed.

Lemma check_rate_limits_prunes_and_gates_witness :
  let g := sample_limited_manager in
  let model := sample_model "m" AVAILABLE (Some 2) in
  Dict.get "m" (models g) = Some model
  ∧ rate_limit_rpm model = Some 2
  ∧ 2 ≠ 0
  ∧ let window := pruned 120000000 "m" g in
    let '(ok, g') := check_rate_limits 120000000 "m" g in
    rate_limit_tracker g' = <["m" := window]> (rate_limit_tracker g)
    ∧ (∀ t, t ∈ window ↔
            t ∈ default [] (rate_limit_tracker g !! "m")
            ∧ 120000000 - t < Py.seconds 60)
    ∧ (2 <= Z.of_nat (length window) →
       ok = false
       ∧ Dict.get "m" (models g') = Some (set_status RATE_LIMITED model))
    ∧ (Z.of_nat (length window) < 2 → ok = true ∧ models g' = models g)
    ∧ rate_limit_tracker (record_request 121000000 121000001 "m" true None g')
      !! "m" = Some (window ++ [121000000]).
Proof.
  cbv zeta. split; [reflexivity |]. split; [reflexivity |]. split; [lia |].
  apply (check_rate_limits_prunes_and_gates 120000000 121000000 121000001 "m"
           sample_limited_manager (sample_model "m" AVAILABLE (Some 2)) 2
           true None); [reflexivity | reflexivity | lia].
Defined.

(** ** Selection *)

Section MaxBy.

Context {A : Type}.
Variable key : A → Q.

(** [max(..., key=key)] splits its input around the element it returns:
    strictly smaller keys before it, no larger key after it. *)
Lemma max_by_split (best : A) (rest : list A) :
  ∃ pre post,
    best :: rest = pre ++ Py.max_by key best rest :: post
    ∧ Forall (λ x, (key x < key (Py.max_by key best rest))%Q) pre
    ∧ Forall (λ x, (key x <= key (Py.max_by key best rest))%Q) post.
Proof.
  revert best. induction rest as [|x rest IH]; intros best; cbn [Py.max_by].
  - exists [], []. repeat split; constructor.
  - destruct (Qltb_spec (key best) (key x)) as [[E H]|[E H]]; rewrite E.
    + destruct (IH x) as (pre & post & Hs & Hpre & Hpost).
      exists (best :: pre), post. split; [by rewrite Hs at 1 |].
      split; [|done]. constructor; [|done].
      eapply Qlt_le_trans; [exact H |].
      assert (Hx : x ∈ pre ++ Py.max_by key x rest :: post)
        by (rewrite <- Hs; left).
      apply elem_of_app in Hx as [Hx | Hx].
      * apply Qlt_le_weak. by eapply (proj1 (Forall_forall _ _) Hpre).
      * apply elem_of_cons in Hx as [Hx | Hx];
          [rewrite <- Hx; apply Qle_refl |].
        by eapply (proj1 (Forall_forall _ _) Hpost).
    + destruct (IH best) as (pre & post & Hs & Hpre & Hpost).
      destruct pre as [|b pre].
      * cbn [app] in Hs. injection Hs as Hb Hr.
        exists [], (x :: post). cbn [app].
        split; [by rewrite <- Hb, Hr |]. split; [constructor |].
        constructor; [by rewrite <- Hb | done].
      * cbn [app] in Hs. injection Hs as Hb Hr. subst b.
        exists (best :: x :: pre), post. cbn [app].
        split; [by rewrite <- Hr |]. split; [|done].
        inversion Hpre as [|? ? Hbest Hpre']; subst.
        constructor; [done |]. constructor; [|done].
        eapply Qle_lt_trans; eauto.
Qed.

End MaxBy.

Lemma timed_lookup (l : list FreeModel) (i : nat) (im : nat * FreeModel) :
  timed l !! i = Some im ↔ fst im = i ∧ l !! i = Some (snd im).
Proof.
  unfold timed. destruct im as [j m]. cbn [fst snd].
  assert (H : ∀ (s : nat) (l : list FreeModel) i,
    List.combine (List.seq s (length l)) l !! i = Some (j, m)
    ↔ j = (s + i)%nat ∧ l !! i = Some m).
  { clear. intros s l. revert s. induction l as [|x l IH]; intros s i.
    - cbn. split; [done | by intros [_ ?]].
    - cbn [length List.seq List.combine]. destruct i as [|i]; cbn [lookup list_lookup].
      + rewrite Nat.add_0_r. split; [by intros [= -> ->] | by intros [-> [= ->]]].
      + change (list_lookup i ?x) with (x !! i). rewrite IH.
        replace (S s + i)%nat with (s + S i)%nat by lia. done. }
  rewrite H. cbn. done.
Qed.

Lemma available_models_elem exclude_models g m :
  m ∈ available_models exclude_models g
  ↔ m ∈ Dict.values (models g)
    ∧ status m = AVAILABLE ∧ ¬ excluded exclude_models (id m).
Proof.
  unfold available_models. rewrite list_elem_of_In, filter_In, <- list_elem_of_In.
  apply and_iff_compat_l. unfold selectable, excluded.
  rewrite andb_true_iff, bool_decide_eq_true.
  apply and_iff_compat_l. destruct exclude_models as [s|]; [|naive_solver].
  rewrite orb_true_iff, bool_decide_eq_true, negb_true_iff, bool_decide_eq_false.
  split; [|by right]. intros [-> | H]; [set_solver | done].
Qed.

Lemma available_models_sublist exclude_models g :
  sublist (available_models exclude_models g) (Dict.values (models g)).
Proof.
  unfold available_models. induction (Dict.values (models g)) as [|m l IH];
    cbn [List.filter]; [done |].
  case_match; by constructor.
Qed.

(** C7: after the refresh, [get_best_model] answers [None] exactly when no
    stored endpoint is AVAILABLE and outside the exclusion set; otherwise it
    answers such an endpoint, whose health score is maximal among them and
    strictly above the score of every such endpoint stored before it (the
    first-seen one wins a tie). *)
Theorem get_best_model_selects_first_maximum :
  ∀ (discover : OpenRouterModelManager → OpenRouterModelManager)
    (now : Py.datetime) (score_time : nat → Py.datetime)
    (exclude_models : option (gset string)) (g : OpenRouterModelManager),
    let g' := _refresh_if_needed discover now g in
    let eligible := available_models exclude_models g' in
    snd (get_best_model discover now score_time exclude_models g) = g'
    ∧ sublist eligible (Dict.values (models g'))
    ∧ (∀ m, m ∈ eligible ↔
            m ∈ Dict.values (models g')
            ∧ status m = AVAILABLE ∧ ¬ excluded exclude_models (id m))
    ∧ match fst (get_best_model discover now score_time exclude_models g) with
      | None => eligible = []
      | Some best =>
          status best = AVAILABLE
          ∧ ¬ excluded exclude_models (id best)
          ∧ best ∈ Dict.values (models g')
          ∧ ∃ j : nat,
              eligible !! j = Some best
              ∧ (∀ i m, eligible !! i = Some m →
                   (health_score (score_time i) m
                    <= health_score (score_time j) best)%Q)
              ∧ (∀ i m, (i < j)%nat → eligible !! i = Some m →
                   (health_score (score_time i) m
                    < health_score (score_time j) best)%Q)
      end.
Proof.
  intros discover now score_time exclude_models g g' eligible.
  split; [|split; [|split]].
  - unfold get_best_model. fold g'. by destruct (timed _).
  - apply available_models_sublist.
  - apply available_models_elem.
  - unfold get_best_model. fold g'. fold eligible.
    destruct (timed eligible) as [|first rest] eqn:Ht; cbn [fst].
    + destruct eligible as [|m l]; [done | discriminate Ht].
    + destruct (max_by_split (timed_score score_time) first rest)
        as (pre & post & Hs & Hpre & Hpost).
      set (r := Py.max_by (timed_score score_time) first rest) in *.
      rewrite <- Ht in Hs.
      assert (Hr : timed eligible !! length pre = Some r)
        by (rewrite Hs; apply list_lookup_middle; reflexivity).
      apply timed_lookup in Hr as [Hj Hr].
      assert (Hin : snd r ∈ eligible) by (eapply list_elem_of_lookup_2; eauto).
      apply available_models_elem in Hin as (Hv & Hst & Hex).
      repeat split; try done.
      exists (length pre). split; [done |].
      assert (Hkey : timed_score score_time r
                     = health_score (score_time (length pre)) (snd r))
        by (unfold timed_score; by rewrite Hj).
      rewrite <- Hkey. split.
      * intros i m Hi.
        assert (Him : timed eligible !! i = Some (i, m))
          by (by apply timed_lookup).
        change (health_score (score_time i) m)
          with (timed_score score_time (i, m)).
        apply list_elem_of_lookup_2 in Him. rewrite Hs in Him.
        apply elem_of_app in Him as [Him | Him].
        -- apply Qlt_le_weak.
           by apply (proj1 (Forall_forall _ _) Hpre).
        -- apply elem_of_cons in Him as [<- | Him]; [apply Qle_refl |].
           by apply (proj1 (Forall_forall _ _) Hpost).
      * intros i m Hlt Hi.
        assert (Him : timed eligible !! i = Some (i, m))
          by (by apply timed_lookup).
        change (health_score (score_time i) m)
          with (timed_score score_time (i, m)).
        rewrite Hs, lookup_app_l in Him by done.
        apply list_elem_of_lookup_2 in Him.
        by apply (proj1 (Forall_forall _ _) Hpre).
Qed.

(** ** Circuit breaker *)

Module BreakerFacts.
Import ErrorHandling.

Lemma gate_closed now cb : state cb = CLOSED → gate now cb = (None, cb).
Proof.
  intros H. unfold gate. rewrite H. cbv beta iota zeta. by rewrite H.
Qed.

Lemma gate_open_early now cb lft :
  state cb = OPEN →
  last_failure_time cb = Some lft →
  now - lft < recovery_timeout (config cb) →
  gate now cb
  = (Some (CircuitBreakerOpenError
             ("Circuit breaker " +:+ name cb +:+ " is OPEN")), cb).
Proof.
  intros Hs Hl Ht. unfold gate, _should_attempt_reset. rewrite Hs, Hl.
  by rewrite (proj2 (Z.leb_gt _ _) Ht).
Qed.

Lemma gate_open_elapsed now cb lft :
  state cb = OPEN →
  last_failure_time cb = Some lft →
  recovery_timeout (config cb) <= now - lft →
  0 < half_open_max_calls (config cb) →
  gate now cb
  = (None,
     {| name := name cb; config := config cb; state := HALF_OPEN;
        failure_count := failure_count cb; success_count := success_count cb;
        last_failure_time := last_failure_time cb;
        half_open_calls := 1; metrics := metrics cb |}).
Proof.
  intros Hs Hl Ht Hm. unfold gate, _should_attempt_reset. rewrite Hs, Hl.
  rewrite (proj2 (Z.leb_le _ _) Ht). cbv beta iota zeta.
  cbn [state config half_open_calls name failure_count success_count
       last_failure_time metrics].
  by rewrite (proj2 (Z.leb_gt _ _) Hm).
Qed.

Lemma gate_open_elapsed_no_room now cb lft :
  state cb = OPEN →
  last_failure_time cb = Some lft →
  recovery_timeout (config cb) <= now - lft →
  half_open_max_calls (config cb) <= 0 →
  gate now cb
  = (Some (CircuitBreakerOpenError
             ("Circuit breaker " +:+ name cb +:+ " half-open limit exceeded")),
     {| name := name cb; config := config cb; state := HALF_OPEN;
        failure_count := failure_count cb; success_count := success_count cb;
        last_failure_time := last_failure_time cb;
        half_open_calls := 0; metrics := metrics cb |}).
Proof.
  intros Hs Hl Ht Hm. unfold gate, _should_attempt_reset. rewrite Hs, Hl.
  rewrite (proj2 (Z.leb_le _ _) Ht). cbv beta iota zeta.
  cbn [state config half_open_calls name failure_count success_count
       last_failure_time metrics].
  by rewrite (proj2 (Z.leb_le _ _) Hm).
Qed.

Lemma gate_half_open now cb :
  state cb = HALF_OPEN →
  half_open_calls cb < half_open_max_calls (config cb) →
  gate now cb
  = (None,
     {| name := name cb; config := config cb; state := HALF_OPEN;
        failure_count := failure_count cb; success_count := success_count cb;
        last_failure_time := last_failure_time cb;
        half_open_calls := half_open_calls cb + 1; metrics := metrics cb |}).
Proof.
  intros Hs Hlt. unfold gate. rewrite Hs. cbv beta iota zeta. rewrite Hs.
  by rewrite (proj2 (Z.leb_gt _ _) Hlt).
Qed.

Lemma on_failure_half_open now now_m error_type cb :
  state cb = HALF_OPEN →
  state (_on_failure now now_m error_type cb) = OPEN
  ∧ success_count (_on_failure now now_m error_type cb) = 0
  ∧ last_failure_time (_on_failure now now_m error_type cb) = Some now
  ∧ failure_count (_on_failure now now_m error_type cb) = failure_count cb + 1.
Proof. intros H. unfold _on_failure. by rewrite H. Qed.

Lemma on_failure_closed now now_m error_type cb :
  state cb = CLOSED →
  let cb' := _on_failure now now_m error_type cb in
  state cb'
  = (if failure_threshold (config cb) <=? failure_count cb + 1
     then OPEN else CLOSED)
  ∧ failure_count cb' = failure_count cb + 1
  ∧ last_failure_time cb' = Some now
  ∧ config cb' = config cb ∧ name cb' = name cb.
Proof. intros H. cbv zeta. unfold _on_failure. by rewrite H. Qed.

Lemma attempt_failure {St V : Type} clk (func : Op St V) cb w e u :
  func (user w) = (Raised e, u) →
  exc_is_Exception e = true →
  attempt clk func cb w
  = (Raised e, _on_failure (at_failure clk) (at_record clk) (exc_type e) cb,
     {| user := u; invocations := S (invocations w); sleeps := sleeps w;
        draws := draws w |}).
Proof. intros Hf He. unfold attempt, invoke. by rewrite Hf, He. Qed.

Lemma attempt_invokes_once {St V : Type} clk (func : Op St V) cb w :
  invocations (snd (attempt clk func cb w)) = S (invocations w).
Proof.
  unfold attempt, invoke. destruct (func (user w)) as [[v|e] u]; [done |].
  by destruct (exc_is_Exception e).
Qed.

Lemma gate_half_open_full now cb :
  state cb = HALF_OPEN →
  half_open_max_calls (config cb) <= half_open_calls cb →
  gate now cb
  = (Some (CircuitBreakerOpenError
             ("Circuit breaker " +:+ name cb +:+ " half-open limit exceeded")),
     cb).
Proof.
  intros Hs Hle. unfold gate. rewrite Hs. cbv beta iota zeta. rewrite Hs.
  by rewrite (proj2 (Z.leb_le _ _) Hle).
Qed.

(** C4: a failure in HALF_OPEN reopens the breaker and clears
    [success_count], whatever [success_count] was: this is what [_on_failure]
    does, and so does every [call] on a HALF_OPEN breaker that invokes its
    operation and sees it raise an [Exception]. *)
Theorem half_open_failure_reopens :
  ∀ (now now_m : Py.datetime) (error_type : string) (cb : CircuitBreaker),
    state cb = HALF_OPEN →
    (state (_on_failure now now_m error_type cb) = OPEN
     ∧ success_count (_on_failure now now_m error_type cb) = 0)
    ∧ ∀ (St V : Type) (clk : Clock) (func : Op St V) (w : World St),
        let '(r, cb', w') := call clk func cb w in
        invocations w' = S (invocations w) →
        (∃ e, r = Raised e ∧ exc_is_Exception e = true) →
        state cb' = OPEN ∧ success_count cb' = 0.
Proof.
  intros now now_m error_type cb Hs. split.
  - by destruct (on_failure_half_open now now_m error_type cb Hs) as (? & ? & _).
  - intros St V clk func w. unfold call.
    destruct (Z.leb_spec (half_open_max_calls (config cb)) (half_open_calls cb))
      as [Hle | Hlt].
    + rewrite (gate_half_open_full _ _ Hs Hle). intros Hinv. lia.
    + rewrite (gate_half_open _ _ Hs Hlt). unfold attempt, invoke.
      destruct (func (user w)) as [[v | e] u].
      * intros _ (e & He & _). discriminate He.
      * destruct (exc_is_Exception e) eqn:Hexc.
        -- intros _ _. done.
        -- intros _ (e' & He' & Hexc'). congruence.
Qed.

Lemma half_open_failure_reopens_witness :
  let cb := sample_half_open_breaker in
  state cb = HALF_OPEN
  ∧ success_count cb = 2
  ∧ (state (_on_failure 7 8 "ConnectionError" cb) = OPEN
     ∧ success_count (_on_failure 7 8 "ConnectionError" cb) = 0)
  ∧ let '(r, cb', w') :=
      call (sample_clock 5) failing_service cb sample_world in
    r = Raised ConnectionError
    ∧ invocations w' = 1%nat
    ∧ state cb' = OPEN ∧ success_count cb' = 0.
Proof.
  cbv zeta. split; [reflexivity |]. split; [reflexivity |].
  destruct (half_open_failure_reopens 7 8 "ConnectionError"
              sample_half_open_breaker eq_refl) as [Hf Hc].
  split; [exact Hf |].
  specialize (Hc nat string (sample_clock 5) failing_service sample_world).
  destruct (call (sample_clock 5) failing_service sample_half_open_breaker
              sample_world) as [[r cb'] w'] eqn:Hcall.
  vm_compute in Hcall.
  assert (Hr : r = Raised ConnectionError)
    by (injection Hcall as <- _ _; reflexivity).
  assert (Hi : invocations w' = 1%nat)
    by (injection Hcall as _ _ <-; reflexivity).
  split; [exact Hr |]. split; [exact Hi |].
  apply Hc; [exact Hi |]. exists ConnectionError. split; [exact Hr | reflexivity].
Defined.

Lemma run_calls_rejected {St V : Type} (calls : list (Clock * Op St V))
    cb (w : World St) lft :
  state cb = OPEN →
  last_failure_time cb = Some lft →
  Forall (λ c, at_gate (fst c) - lft < recovery_timeout (config cb)) calls →
  run_calls calls cb w
  = (List.map (λ _, Raised (CircuitBreakerOpenError
                              ("Circuit breaker " +:+ name cb +:+ " is OPEN")))
       calls, cb, w).
Proof.
  intros Hs Hl. induction 1 as [|[clk func] calls Hc _ IH]; [done |].
  cbn [run_calls List.map fst] in *. unfold call.
  rewrite (gate_open_early _ _ _ Hs Hl Hc). by rewrite IH.
Qed.

Lemma run_calls_failures {St V : Type} (calls : list (Clock * Op St V)) :
  ∀ cb (w : World St),
    state cb = CLOSED →
    calls ≠ [] →
    failure_count cb + Z.of_nat (length calls) = failure_threshold (config cb) →
    all_fail (List.map snd calls) (user w) →
    ∃ rs cb' w' lft,
      run_calls calls cb w = (rs, cb', w')
      ∧ state cb' = OPEN
      ∧ last_failure_time cb' = Some lft
      ∧ config cb' = config cb ∧ name cb' = name cb
      ∧ failure_count cb' = failure_threshold (config cb)
      ∧ invocations w' = (invocations w + length calls)%nat
      ∧ Forall (λ r, ∃ e, r = Raised e ∧ exc_is_Exception e = true) rs.
Proof.
  induction calls as [|[clk func] calls IH]; intros cb w Hs Hne Hfc Hall;
    [done |].
  cbn [List.map snd all_fail] in Hall.
  destruct Hall as (e & u & Hf & He & Hall).
  cbn [run_calls]. unfold call. rewrite (gate_closed _ _ Hs).
  rewrite (attempt_failure _ _ _ _ _ _ Hf He).
  destruct (on_failure_closed (at_failure clk) (at_record clk) (exc_type e) cb Hs)
    as (Hst & Hcnt & Hlft & Hcfg & Hnm).
  set (cb1 := _on_failure (at_failure clk) (at_record clk) (exc_type e) cb) in *.
  cbn [length] in Hfc.
  destruct calls as [|c calls'].
  - cbn [run_calls]. eexists _, _, _, _. split; [reflexivity |].
    rewrite Hst. cbn [length] in *.
    rewrite (proj2 (Z.leb_le _ _)) by lia.
    repeat split; try done; try lia.
    + cbn [invocations]. lia.
    + repeat constructor. eauto.
  - set (w1 := {| user := u; invocations := S (invocations w);
                  sleeps := sleeps w; draws := draws w |}).
    destruct (IH cb1 w1) as (rs & cb' & w' & lft & Hrun & H1 & H2 & H3 & H4 & H5 & H6 & H7).
    + rewrite Hst. rewrite (proj2 (Z.leb_gt _ _)); [done |].
      cbn [length] in Hfc. lia.
    + done.
    + rewrite Hcnt, Hcfg. cbn [length] in *. lia.
    + exact Hall.
    + rewrite Hrun. eexists _, _, _, _. split; [reflexivity |].
      repeat split; try done; try congruence.
      * cbn [invocations w1 length] in *. lia.
      * constructor; eauto.
Qed.

Lemma all_fail_take {St V : Type} (funcs : list (Op St V)) (k : nat) (u : St) :
  all_fail funcs u → all_fail (take k funcs) u.
Proof.
  revert k u. induction funcs as [|f funcs IH]; intros [|k] u H; try done.
  cbn [take all_fail] in *. destruct H as (e & u' & Hf & He & H).
  exists e, u'. eauto.
Qed.

Lemma run_calls_below_threshold {St V : Type} (calls : list (Clock * Op St V)) :
  ∀ cb (w : World St),
    state cb = CLOSED →
    failure_count cb + Z.of_nat (length calls) < failure_threshold (config cb) →
    all_fail (List.map snd calls) (user w) →
    state (snd (fst (run_calls calls cb w))) = CLOSED.
Proof.
  induction calls as [|[clk func] calls IH]; intros cb w Hs Hfc Hall; [done |].
  cbn [List.map snd all_fail] in Hall.
  destruct Hall as (e & u & Hf & He & Hall).
  cbn [run_calls]. unfold call. rewrite (gate_closed _ _ Hs).
  rewrite (attempt_failure _ _ _ _ _ _ Hf He).
  destruct (on_failure_closed (at_failure clk) (at_record clk) (exc_type e) cb Hs)
    as (Hst & Hcnt & Hlft & Hcfg & Hnm).
  set (cb1 := _on_failure (at_failure clk) (at_record clk) (exc_type e) cb) in *.
  set (w1 := {| user := u; invocations := S (invocations w);
                sleeps := sleeps w; draws := draws w |}).
  cbn [length] in Hfc.
  specialize (IH cb1 w1).
  destruct (run_calls calls cb1 w1) as [[rs cb2] w2]. cbn [fst snd] in *.
  apply IH.
  - rewrite Hst. by rewrite (proj2 (Z.leb_gt _ _)) by lia.
  - rewrite Hcnt, Hcfg. lia.
  - exact Hall.
Qed.

(** C3, as worded, fails when [half_open_max_calls] is 0: the breaker opens
    after three failures, and the call made once the timeout has elapsed
    moves it to HALF_OPEN but is refused there, the operation not invoked. *)
Lemma elapsed_call_refused_without_half_open_room :
  let '(rs, cb', w') :=
    run_calls sample_calls sample_breaker_no_probe sample_world in
  state cb' = OPEN
  ∧ last_failure_time cb' = Some 21
  ∧ recovery_timeout (config cb') <= 10000021 - 21
  ∧ ¬ let_through_half_open (sample_clock 10000021) failing_service cb' w'
  ∧ ∃ cb'',
      call (sample_clock 10000021) failing_service cb' w'
      = (Raised (CircuitBreakerOpenError
                   "Circuit breaker example_service half-open limit exceeded"),
         cb'', w')
      ∧ state cb'' = HALF_OPEN.
Proof.
  destruct (run_calls sample_calls sample_breaker_no_probe sample_world)
    as [[rs cb'] w'] eqn:Hrun.
  vm_compute in Hrun. injection Hrun as <- <- <-.
  split; [reflexivity |]. split; [reflexivity |]. split; [by vm_compute |].
  split.
  - intros (cbh & Hg & _). vm_compute in Hg. discriminate Hg.
  - eexists. split; [vm_compute; reflexivity | reflexivity].
Qed.

(** C3, amended: a CLOSED breaker with [failure_count = 0] and a threshold of
    at least one is OPEN after [failure_threshold] calls whose operations all
    raise, and still CLOSED after fewer; from then on every call whose gate
    is reached before [recovery_timeout] has elapsed since
    [last_failure_time] raises [CircuitBreakerOpenError] and touches neither
    the breaker nor the world (the operation is not invoked); a call whose
    gate is reached once the timeout has elapsed moves the breaker to
    HALF_OPEN, whatever the configuration; when [half_open_max_calls] is at
    least one it passes the gate there and invokes its operation, and
    otherwise it is refused in HALF_OPEN with [CircuitBreakerOpenError] and
    its operation is not invoked. *)
Theorem breaker_opens_after_threshold :
  ∀ (St V : Type) (calls : list (Clock * Op St V)) (cb : CircuitBreaker)
    (w : World St),
    state cb = CLOSED →
    failure_count cb = 0 →
    1 <= failure_threshold (config cb) →
    Z.of_nat (length calls) = failure_threshold (config cb) →
    all_fail (List.map snd calls) (user w) →
    ∃ rs cb' w' lft,
      run_calls calls cb w = (rs, cb', w')
      ∧ state cb' = OPEN
      ∧ last_failure_time cb' = Some lft
      ∧ invocations w' = (invocations w + length calls)%nat
      ∧ (∀ k : nat, (k < length calls)%nat →
           state (snd (fst (run_calls (take k calls) cb w))) = CLOSED)
      ∧ (∀ further : list (Clock * Op St V),
           Forall (λ c, at_gate (fst c) - lft < recovery_timeout (config cb))
             further →
           run_calls further cb' w'
           = (List.map
                (λ _, Raised (CircuitBreakerOpenError
                                ("Circuit breaker " +:+ name cb +:+ " is OPEN")))
                further, cb', w'))
      ∧ (∀ (clk : Clock) (func : Op St V),
           recovery_timeout (config cb) <= at_gate clk - lft →
           state (snd (gate (at_gate clk) cb')) = HALF_OPEN
           ∧ (0 < half_open_max_calls (config cb) →
              ∃ cbh,
                gate (at_gate clk) cb' = (None, cbh)
                ∧ state cbh = HALF_OPEN
                ∧ half_open_calls cbh = 1
                ∧ call clk func cb' w' = attempt clk func cbh w'
                ∧ invocations (snd (call clk func cb' w'))
                  = S (invocations w'))
           ∧ (half_open_max_calls (config cb) <= 0 →
              ∃ cbh,
                call clk func cb' w'
                = (Raised (CircuitBreakerOpenError
                             ("Circuit breaker " +:+ name cb
                              +:+ " half-open limit exceeded")), cbh, w')
                ∧ state cbh = HALF_OPEN)).
Proof.
  intros St V calls cb w Hs Hfc Hth Hlen Hall.
  destruct (run_calls_failures calls cb w Hs) as
    (rs & cb' & w' & lft & Hrun & Ho & Hl & Hcfg & Hnm & _ & Hinv & _).
  { intros ->. cbn [length] in Hlen. lia. }
  { lia. }
  { exact Hall. }
  exists rs, cb', w', lft.
  split; [done |]. split; [done |]. split; [done |]. split; [done |].
  split; [|split].
  - intros k Hk. apply run_calls_below_threshold; [done | |].
    + rewrite length_take. lia.
    + rewrite <- (firstn_map snd). by apply all_fail_take.
  - intros further Hf. rewrite <- Hcfg in Hf. rewrite <- Hnm.
    by apply (run_calls_rejected further cb' w' lft).
  - intros clk func Ht. rewrite <- Hcfg in Ht. split; [|split].
    + destruct (Z.lt_ge_cases 0 (half_open_max_calls (config cb')))
        as [Hm|Hm].
      * by rewrite (gate_open_elapsed _ _ _ Ho Hl Ht Hm).
      * by rewrite (gate_open_elapsed_no_room _ _ _ Ho Hl Ht Hm).
    + intros Hm. rewrite <- Hcfg in Hm.
      pose proof (gate_open_elapsed _ _ _ Ho Hl Ht Hm) as Hg.
      eexists. split; [exact Hg |].
      assert (Hcall : call clk func cb' w' = attempt clk func _ w')
        by (unfold call; rewrite Hg; reflexivity).
      split; [done |]. split; [done |]. split; [done |].
      rewrite Hcall. apply attempt_invokes_once.
    + intros Hm. rewrite <- Hcfg in Hm.
      pose proof (gate_open_elapsed_no_room _ _ _ Ho Hl Ht Hm) as Hg.
      eexists. unfold call. rewrite Hg, Hnm. split; reflexivity.
Qed.

Lemma breaker_opens_after_threshold_witness :
  let cb := sample_breaker in
  let w := sample_world in
  let rejected : outcome string :=
    Raised (CircuitBreakerOpenError
              "Circuit breaker example_service is OPEN") in
  state cb = CLOSED
  ∧ failure_count cb = 0
  ∧ 1 <= failure_threshold (config cb)
  ∧ Z.of_nat (length sample_calls) = failure_threshold (config cb)
  ∧ all_fail (List.map snd sample_calls) (user w)
  ∧ ∃ rs cb' w',
      run_calls sample_calls cb w = (rs, cb', w')
      ∧ state cb' = OPEN
      ∧ last_failure_time cb' = Some 21
      ∧ invocations w' = 3%nat
      ∧ state (snd (fst (run_calls (take 2 sample_calls) cb w))) = CLOSED
      ∧ run_calls [(sample_clock 25, failing_service);
                   (sample_clock 9000000, failing_service)] cb' w'
        = ([rejected; rejected], cb', w')
      ∧ state (snd (gate 10000021 cb')) = HALF_OPEN
      ∧ ∃ cbh,
          gate 10000021 cb' = (None, cbh)
          ∧ state cbh = HALF_OPEN
          ∧ half_open_calls cbh = 1
          ∧ call (sample_clock 10000021) failing_service cb' w'
            = attempt (sample_clock 10000021) failing_service cbh w'
          ∧ invocations
              (snd (call (sample_clock 10000021) failing_service cb' w'))
            = S (invocations w').
Proof.
  cbv zeta.
  assert (Hall : all_fail (List.map snd sample_calls) (user sample_world)).
  { cbn. repeat (eexists _, _; split; [reflexivity |]; split; [reflexivity |]).
    exact I. }
  split; [reflexivity |]. split; [reflexivity |]. split; [cbn; lia |].
  split; [reflexivity |]. split; [exact Hall |].
  destruct (breaker_opens_after_threshold nat string sample_calls sample_breaker
              sample_world eq_refl eq_refl ltac:(cbn; lia) eq_refl Hall)
    as (rs & cb' & w' & lft & Hrun & Ho & Hl & Hinv & Hpre & Hrej & Hadm).
  assert (Hlft : lft = 21).
  { assert (H := Hrun). vm_compute in H. injection H as _ Hcb _.
    rewrite <- Hcb in Hl. vm_compute in Hl. by injection Hl. }
  subst lft.
  exists rs, cb', w'. split; [exact Hrun |]. split; [exact Ho |].
  split; [exact Hl |]. split; [exact Hinv |].
  split; [apply (Hpre 2%nat); cbn; lia |].
  split.
  - apply (Hrej [(sample_clock 25, failing_service);
                 (sample_clock 9000000, failing_service)]).
    repeat constructor; cbn; lia.
  - destruct (Hadm (sample_clock 10000021) failing_service)
      as (Hmove & Hroom & _); [by vm_compute |].
    split; [exact Hmove |]. apply Hroom. by vm_compute.
Defined.

End BreakerFacts.

(** ** Retry policy *)

Module RetryFacts.
Import ErrorHandling.



Lemma float_overflows_finite (x : Q) :
  Py.float_finite x → Py.float_overflows x = false.
Proof.
  unfold Py.float_finite, Py.float_overflows. intros H.
  by rewrite (proj2 (Qltb_true _ _) H).
Qed.


(** a float power that stays within the range of a double is the power *)
Lemma float_pow_finite (x : Q) (n : Z) :
  (n < 0 → ¬ (x == 0)%Q) →
  Py.float_finite (x ^ n) →
  float_pow x n = Returned (x ^ n)%Q.
Proof.
  intros Hz Hfin. unfold float_pow.
  rewrite (float_overflows_finite _ Hfin).
  destruct (Qeq_bool x 0) eqn:E; [|done].
  destruct (Z.ltb_spec n 0) as [Hn|Hn]; [|done].
  apply Qeq_bool_iff in E. by destruct (Hz Hn).
Qed.


Lemma backoff_finite (p : RetryPolicy) (k : Z) :
  (k < 1 → ¬ (backoff_factor p == 0)%Q) →
  Py.float_finite (backoff_factor p ^ (k - 1)) →
  backoff p k
  = Returned (Py.min (base_delay p * backoff_factor p ^ (k - 1))%Q
                (max_delay p)).
Proof.
  intros Hz Hfin. unfold backoff.
  rewrite float_pow_finite; [done | | done]. intros ?. apply Hz. lia.
Qed.

Lemma get_delay_finite (r : Q) (p : RetryPolicy) (k : Z) :
  (k < 1 → ¬ (backoff_factor p == 0)%Q) →
  Py.float_finite (backoff_factor p ^ (k - 1)) →
  get_delay r p k
  = Returned
      (let delay := Py.min (base_delay p * backoff_factor p ^ (k - 1))%Q
                      (max_delay p) in
       if jitter p then (delay * ((5 # 10) + r * (5 # 10)))%Q else delay).
Proof. intros Hz Hfin. unfold get_delay. by rewrite backoff_finite. Qed.




Lemma range_nil (lo hi : Z) : hi <= lo → Py.range lo hi = [].
Proof. intros H. unfold Py.range. by replace (Z.to_nat (hi - lo)) with O by lia. Qed.

Lemma range_cons (lo hi : Z) : lo < hi → Py.range lo hi = lo :: Py.range (lo + 1) hi.
Proof.
  intros H. unfold Py.range.
  replace (Z.to_nat (hi - lo)) with (S (Z.to_nat (hi - (lo + 1)))) by lia.
  cbn [List.seq List.map]. f_equal; [lia |].
  rewrite <- seq_shift, List.map_map. apply List.map_ext. intros i. lia.
Qed.


Section ExecuteFacts.

Context {St V : Type}.
Variable rnd : nat → Q.
Variable p : RetryPolicy.
Variable func_name : outcome string.
Variable func : Op St V.

Lemma get_delay_io_world (attempt : Z) (w : World St) :
  user (snd (get_delay_io rnd p attempt w)) = user w
  ∧ invocations (snd (get_delay_io rnd p attempt w)) = invocations w
  ∧ sleeps (snd (get_delay_io rnd p attempt w)) = sleeps w.
Proof.
  unfold get_delay_io, random_random.
  destruct (backoff p attempt); [|done]. by destruct (jitter p).
Qed.

(** within the range of a double the delay is computed *)
Lemma get_delay_io_finite (attempt : Z) (w : World St) :
  1 <= attempt →
  Py.float_finite (backoff_factor p ^ (attempt - 1)) →
  ∃ delay, fst (get_delay_io rnd p attempt w) = Returned delay.
Proof.
  intros Ha Hfin. unfold get_delay_io, random_random.
  rewrite backoff_finite by (done || lia).
  destruct (jitter p); cbn [fst]; rewrite get_delay_finite by (done || lia);
    by eexists.
Qed.

(** one caught failure that is not the last attempt: wait, then go on *)
Lemma execute_loop_retry (attempt : Z) (rest : list Z) last (w : World St) e u
    nm :
  func (user w) = (Raised e, u) →
  exc_is_Exception e = true →
  attempt ≠ max_attempts p →
  func_name = Returned nm →
  1 <= attempt →
  Py.float_finite (backoff_factor p ^ (attempt - 1)) →
  ∃ w1,
    execute_loop rnd p func_name func (attempt :: rest) last w
    = execute_loop rnd p func_name func rest (Some e) w1
    ∧ user w1 = u
    ∧ invocations w1 = S (invocations w)
    ∧ length (sleeps w1) = S (length (sleeps w)).
Proof.
  intros Hf He Hne Hnm Ha Hfin. cbn [execute_loop]. unfold invoke.
  rewrite Hf, He. rewrite (proj2 (Z.eqb_neq _ _) Hne).
  set (w0 := {| user := u; invocations := S (invocations w);
                sleeps := sleeps w; draws := draws w |}).
  destruct (get_delay_io_world attempt w0) as (Hu & Hi & Hs).
  destruct (get_delay_io_finite attempt w0 Ha Hfin) as [delay Hd].
  destruct (get_delay_io rnd p attempt w0) as [d w2]. cbn [fst snd] in *.
  subst d. rewrite Hnm.
  eexists. split; [reflexivity |]. unfold asyncio_sleep. subst w0.
  cbn [user invocations sleeps] in *.
  repeat split; [by rewrite Hu | by rewrite Hi |].
  rewrite Hs, length_app. cbn [length]. lia.
Qed.

(** a run of caught failures, none of them on the last attempt *)
Lemma execute_loop_failures (es : list PyExc) nm :
  func_name = Returned nm →
  ∀ (lo : Z) last (w : World St) u,
    1 <= lo →
    (∀ k, lo <= k < lo + Z.of_nat (length es) →
          Py.float_finite (backoff_factor p ^ (k - 1))) →
    op_trace func (length es) (user w) = (List.map Raised es, u) →
    Forall (λ e, exc_is_Exception e = true) es →
    lo + Z.of_nat (length es) <= max_attempts p →
    ∃ w1 last',
      execute_loop rnd p func_name func (Py.range lo (max_attempts p + 1))
        last w
      = execute_loop rnd p func_name func
          (Py.range (lo + Z.of_nat (length es)) (max_attempts p + 1)) last' w1
      ∧ user w1 = u
      ∧ invocations w1 = (invocations w + length es)%nat
      ∧ length (sleeps w1) = (length (sleeps w) + length es)%nat.
Proof.
  intros Hnm.
  induction es as [|e es IH]; intros lo last w u Hlo1 Hfin Ht Hall Hlo.
  - cbn in Ht. injection Ht as <-. exists w, last. cbn [length].
    rewrite Z.add_0_r, !Nat.add_0_r. done.
  - cbn [length op_trace List.map] in Ht.
    destruct (func (user w)) as [r u1] eqn:Hf.
    destruct (op_trace func (length es) u1) as [rs u2] eqn:Hrs.
    injection Ht as -> -> ->.
    pose proof (Forall_inv Hall) as He. cbn beta in He.
    pose proof (Forall_inv_tail Hall) as Hall'.
    cbn [length] in Hlo, Hfin.
    rewrite range_cons by lia.
    destruct (execute_loop_retry lo (Py.range (lo + 1) (max_attempts p + 1))
                last w e u1 nm Hf He) as (w1 & Hrun & Hu1 & Hi1 & Hs1);
      [lia | done | done | apply Hfin; lia |].
    rewrite Hrun.
    destruct (IH (lo + 1) (Some e) w1 u)
      as (w2 & last' & Hrun2 & Hu2 & Hi2 & Hs2).
    + lia.
    + intros k Hk. apply Hfin. lia.
    + by rewrite Hu1.
    + done.
    + lia.
    + exists w2, last'. rewrite Hrun2. cbn [length].
      replace (lo + 1 + Z.of_nat (length es))
        with (lo + Z.of_nat (S (length es))) by lia.
      repeat split; [done | lia | lia].
Qed.


End ExecuteFacts.




End RetryFacts.

(** ** Scenarios *)

(** 10 requests, 2 of them failed, no consecutive failure, average latency
    1.0 and no success on record: the score is 0.8. *)
Example health_score_scenario :
  (health_score 0
     (set_metrics
        {| total_requests := 10; successful_requests := 8;
           failed_requests := 2; average_response_time := 1;
           last_success := None; last_failure := None;
           consecutive_failures := 0; error_rate := 2 # 10 |}
        (sample_model "m" AVAILABLE None)) == 8 # 10)%Q.
Proof. reflexivity. Qed.

(** Equal scores: the endpoint stored first is chosen; excluded and
    non-AVAILABLE endpoints are passed over. *)
Example get_best_model_tie :
  let g := sample_manager [sample_model "a" RATE_LIMITED None;
                           sample_model "b" AVAILABLE None;
                           sample_model "c" AVAILABLE None] in
  id <$> fst (get_best_model (λ g, g) 0 (λ _, 0) None g) = Some "b"
  ∧ id <$> fst (get_best_model (λ g, g) 0 (λ _, 0) (Some {[ "b" ]}) g) = Some "c"
  ∧ fst (get_best_model (λ g, g) 0 (λ _, 0) (Some {[ "b"; "c" ]}) g) = None.
Proof. by vm_compute. Qed.

(** Two requests in the last minute against a capacity of 2: refused and
    marked; a capacity of 0 never refuses. *)
Example check_rate_limits_scenario :
  fst (check_rate_limits 120000000 "m" sample_limited_manager) = false
  ∧ status <$> Dict.get "m"
      (models (snd (check_rate_limits 120000000 "m" sample_limited_manager)))
    = Some RATE_LIMITED
  ∧ rate_limit_tracker
      (snd (check_rate_limits 120000000 "m" sample_limited_manager)) !! "m"
    = Some [70000000; 100000000]
  ∧ fst (check_rate_limits 120000000 "m"
           (set_tracker {[ "m" := [70000000; 100000000] ]}
              (sample_manager [sample_model "m" AVAILABLE (Some 0)]))) = true.
Proof. by vm_compute. Qed.

(** Five recorded failures trip the coarse breaker; one recorded success
    restores the endpoint. *)
Example record_request_scenario :
  let fail := record_request 1 1 "m" true None in
  let g5 := fail (fail (fail (fail (fail
              (sample_manager [sample_model "m" AVAILABLE None]))))) in
  status <$> Dict.get "m" (models g5) = Some UNAVAILABLE
  ∧ status <$> Dict.get "m"
      (models (record_request 2 2 "m" true (Some (1 # 2)) g5))
    = Some AVAILABLE.
Proof. by vm_compute. Qed.

(** Threshold 3: three failed calls open the breaker, a fourth call within
    the timeout is refused and the operation has run three times only. *)
Example breaker_scenario :
  let '(rs, cb', w') :=
    ErrorHandling.run_calls
      (sample_calls ++ [(sample_clock 30, failing_service)])
      sample_breaker sample_world in
  rs = [ErrorHandling.Raised ConnectionError;
        ErrorHandling.Raised ConnectionError;
        ErrorHandling.Raised ConnectionError;
        ErrorHandling.Raised
          (ErrorHandling.CircuitBreakerOpenError
             "Circuit breaker example_service is OPEN")]
  ∧ ErrorHandling.state cb' = ErrorHandling.OPEN
  ∧ ErrorHandling.invocations w' = 3%nat.
Proof. by vm_compute. Qed.

(** Without jitter the waits between three attempts are 1 s and 2 s. *)
Example execute_scenario :
  let p := ErrorHandling.mkRetryPolicy 3 1 60 2 false in
  let '(r, w') :=
    ErrorHandling.execute sample_rnd p
      (ErrorHandling.Returned "example_failing_service") flaky_service
      sample_world in
  r = ErrorHandling.Returned "Success"
  ∧ ErrorHandling.invocations w' = 3%nat
  ∧ ErrorHandling.sleeps w' = [1%Q; 2%Q].
Proof. by vm_compute. Qed.

(** * Further properties *)

(** ** Metrics over sequences of outcomes *)

Lemma record_outcome_counters now m o :
  let m' := record_outcome now m o in
  total_requests m' = total_requests m + 1
  ∧ successful_requests m'
    = successful_requests m + (if o is Succeeded _ then 1 else 0)
  ∧ failed_requests m' = failed_requests m + (if o is Failed then 1 else 0)
  ∧ consecutive_failures m'
    = (if o is Failed then consecutive_failures m + 1 else 0).
Proof.
  cbv zeta. destruct o as [rt|]; cbn [record_outcome].
  - destruct (update_success_fields now m rt) as (? & ? & ? & ? & _).
    repeat split; lia.
  - destruct (update_failure_fields now m) as (? & ? & ? & ? & _).
    repeat split; lia.
Qed.

Lemma record_outcome_error_rate now m o :
  0 <= total_requests m →
  error_rate (record_outcome now m o)
  = (inject_Z (failed_requests (record_outcome now m o))
     / inject_Z (total_requests (record_outcome now m o)))%Q.
Proof.
  intros Ht.
  destruct o as [rt|]; cbn [record_outcome];
    unfold update_success, update_failure, _update_error_rate; cbv zeta;
    cbn [total_requests failed_requests];
    rewrite (proj2 (Z.ltb_lt 0 (total_requests m + 1))) by lia;
    reflexivity.
Qed.

Lemma successes_snoc os o :
  successes (os ++ [o]) = successes os + (if o is Succeeded _ then 1 else 0).
Proof.
  unfold successes, observed_latencies. rewrite flat_map_app, length_app.
  destruct o; cbn [flat_map app length]; lia.
Qed.

Lemma successes_bounds os : 0 <= successes os <= Z.of_nat (length os).
Proof.
  induction os as [|o os IH] using rev_ind; [by vm_compute |].
  rewrite successes_snoc, length_app. cbn [length]. destruct o; lia.
Qed.

Lemma record_outcomes_counters_aux now os :
  let m := record_outcomes now os in
  total_requests m = Z.of_nat (length os)
  ∧ successful_requests m = successes os
  ∧ failed_requests m = Z.of_nat (length os) - successes os.
Proof.
  induction os as [|o os IH] using rev_ind; [done |].
  cbv zeta in *. destruct IH as (Ht & Hs & Hf).
  rewrite record_outcomes_snoc, successes_snoc, length_app.
  destruct (record_outcome_counters now (record_outcomes now os) o)
    as (Ht' & Hs' & Hf' & _).
  rewrite Ht', Hs', Hf', Ht, Hs, Hf. cbn [length].
  destruct o; repeat split; lia.
Qed.

(** X1: after any sequence of recorded outcomes on fresh metrics the three
    counters are consistent: [total_requests] is the number of outcomes,
    [successful_requests] the number of successes, and
    [successful_requests + failed_requests = total_requests], none of them
    negative. *)
Theorem metrics_counters_consistent :
  ∀ (now : Py.datetime) (os : list RequestOutcome),
    let m := record_outcomes now os in
    total_requests m = Z.of_nat (length os)
    ∧ successful_requests m = successes os
    ∧ successful_requests m + failed_requests m = total_requests m
    ∧ 0 <= successful_requests m ∧ 0 <= failed_requests m.
Proof.
  intros now os. cbv zeta.
  destruct (record_outcomes_counters_aux now os) as (Ht & Hs & Hf).
  pose proof (successes_bounds os). rewrite Ht, Hs, Hf. repeat split; lia.
Qed.

(** X2: after any non-empty sequence of recorded outcomes on fresh metrics,
    [error_rate] is [failed_requests / total_requests] and lies in [0, 1]. *)
Theorem error_rate_is_failure_ratio :
  ∀ (now : Py.datetime) (os : list RequestOutcome),
    os ≠ [] →
    let m := record_outcomes now os in
    error_rate m
    = (inject_Z (failed_requests m) / inject_Z (total_requests m))%Q
    ∧ (0 <= error_rate m <= 1)%Q.
Proof.
  intros now os Hne. cbv zeta.
  destruct os as [|o os] using rev_ind; [done |]. clear IHos Hne.
  assert (He : error_rate (record_outcomes now (os ++ [o]))
    = (inject_Z (failed_requests (record_outcomes now (os ++ [o])))
       / inject_Z (total_requests (record_outcomes now (os ++ [o]))))%Q).
  { rewrite record_outcomes_snoc. apply record_outcome_error_rate.
    destruct (record_outcomes_counters_aux now os) as (-> & _). lia. }
  split; [exact He |]. rewrite He.
  destruct (record_outcomes_counters_aux now (os ++ [o])) as (Ht & Hs & Hf).
  pose proof (successes_bounds (os ++ [o])) as Hb.
  rewrite Ht, Hf. rewrite length_app in *. cbn [length] in *.
  set (n := Z.of_nat (length os + 1)) in *.
  assert (Hn : 0 < n) by (subst n; lia).
  assert (Hq : (0 < inject_Z n)%Q) by (by rewrite <- (Zlt_Qlt 0)).
  split.
  - apply Qle_shift_div_l; [exact Hq |]. rewrite Qmult_0_l.
    rewrite <- (Zle_Qle 0). lia.
  - apply Qle_shift_div_r; [exact Hq |]. rewrite Qmult_1_l.
    rewrite <- Zle_Qle. lia.
Qed.

Lemma error_rate_is_failure_ratio_witness :
  let os := [Failed; Succeeded 2; Failed] in
  os ≠ []
  ∧ error_rate (record_outcomes 0 os)
    = (inject_Z (failed_requests (record_outcomes 0 os))
       / inject_Z (total_requests (record_outcomes 0 os)))%Q
  ∧ (0 <= error_rate (record_outcomes 0 os) <= 1)%Q.
Proof.
  cbv zeta. split; [discriminate |].
  apply (error_rate_is_failure_ratio 0 [Failed; Succeeded 2; Failed]).
  discriminate.
Defined.

Lemma failures_since_success_snoc os acc o :
  failures_since_success (os ++ [o]) acc
  = (if o is Failed then failures_since_success os acc + 1 else 0).
Proof.
  revert acc. induction os as [|o' os IH]; intros acc.
  - by destruct o.
  - destruct o'; cbn [app failures_since_success]; apply IH.
Qed.

(** X3: after any sequence of recorded outcomes on fresh metrics,
    [consecutive_failures] is the number of failures recorded since the last
    success (or since the start when there was none). *)
Theorem consecutive_failures_counts_trailing_run :
  ∀ (now : Py.datetime) (os : list RequestOutcome),
    consecutive_failures (record_outcomes now os)
    = failures_since_success os 0.
Proof.
  intros now os. induction os as [|o os IH] using rev_ind; [done |].
  rewrite record_outcomes_snoc, failures_since_success_snoc.
  destruct (record_outcome_counters now (record_outcomes now os) o)
    as (_ & _ & _ & ->).
  destruct o; [done | by rewrite IH].
Qed.

(** ** Health score and time *)

Lemma total_seconds_mono (d1 d2 : Z) :
  d1 <= d2 → (Py.total_seconds d1 <= Py.total_seconds d2)%Q.
Proof.
  intros H. unfold Py.total_seconds. apply Qmult_le_compat_r; [|done].
  by rewrite <- Zle_Qle.
Qed.

(** X4: with every field of the endpoint kept, the health score never grows
    as the clock advances: the bonus for a recent success only decays. *)
Theorem health_score_decays_with_time :
  ∀ (now1 now2 : Py.datetime) (m : FreeModel),
    now1 <= now2 →
    (health_score now2 m <= health_score now1 m)%Q.
Proof.
  intros now1 now2 m Hn. unfold health_score.
  case_decide; [lra |]. cbv zeta.
  apply py_max_mono_r, py_min_mono_r.
  destruct (last_success (metrics m)) as [ls|]; [|lra].
  assert (Hb : (Py.max 0 ((2 # 10) * (1 - Py.total_seconds (now2 - ls) / 3600))
                <= Py.max 0 ((2 # 10) * (1 - Py.total_seconds (now1 - ls) / 3600)))%Q).
  { apply py_max_mono_r.
    pose proof (total_seconds_mono (now1 - ls) (now2 - ls) ltac:(lia)) as Ht.
    unfold Qdiv. change (/ 3600)%Q with (1 # 3600)%Q. lra. }
  lra.
Qed.

Lemma health_score_decays_with_time_witness :
  let m := set_metrics (update_success 0 ModelMetrics_default 1)
             (sample_model "m" AVAILABLE None) in
  0 <= 1800000000
  ∧ (health_score 1800000000 m <= health_score 0 m)%Q
  ∧ (health_score 0 m == 1)%Q
  ∧ (health_score 1800000000 m == 1)%Q
  ∧ (health_score 1800000000 (set_consecutive_failures 2 m) == 9 # 10)%Q
  ∧ (health_score 0 (set_consecutive_failures 2 m) == 1)%Q.
Proof.
  cbv zeta. split; [lia |]. split.
  - apply (health_score_decays_with_time 0 1800000000). lia.
  - repeat split; reflexivity.
Defined.

(** ** Rotation *)

Lemma get_best_model_available discover now score_time exclude_models g best :
  fst (get_best_model discover now score_time exclude_models g) = Some best →
  best ∈ available_models exclude_models (_refresh_if_needed discover now g).
Proof.
  unfold get_best_model.
  set (eligible := available_models _ _).
  destruct (timed eligible) as [|first rest] eqn:Ht; cbn [fst]; [done |].
  intros [= <-].
  destruct (max_by_split (timed_score score_time) first rest)
    as (pre & post & Hs & _).
  rewrite <- Ht in Hs.
  assert (Hr : timed eligible !! length pre
               = Some (Py.max_by (timed_score score_time) first rest))
    by (rewrite Hs; apply list_lookup_middle; reflexivity).
  apply timed_lookup in Hr as [_ Hr].
  by eapply list_elem_of_lookup_2.
Qed.

(** X5: [rotate_model] never answers the endpoint it rotates away from: the
    endpoint it returns is AVAILABLE, stored, and its id differs from
    [current_model_id]. *)
Theorem rotate_model_leaves_current :
  ∀ (discover : OpenRouterModelManager → OpenRouterModelManager)
    (now : Py.datetime) (score_time : nat → Py.datetime)
    (current_model_id : string) (g : OpenRouterModelManager) (best : FreeModel),
    fst (rotate_model discover now score_time current_model_id g) = Some best →
    id best ≠ current_model_id
    ∧ status best = AVAILABLE
    ∧ best ∈ Dict.values (models (_refresh_if_needed discover now g)).
Proof.
  intros discover now score_time cur g best H.
  apply get_best_model_available, available_models_elem in H
    as (Hv & Hs & Hex).
  repeat split; try done. intros Heq. apply Hex. cbn. set_solver.
Qed.

Lemma rotate_model_leaves_current_witness :
  let g := sample_manager [sample_model "a" AVAILABLE None;
                           sample_model "b" AVAILABLE None] in
  fst (rotate_model (λ g, g) 0 (λ _, 0) "a" g)
  = Some (sample_model "b" AVAILABLE None)
  ∧ id (sample_model "b" AVAILABLE None) ≠ "a"
  ∧ status (sample_model "b" AVAILABLE None) = AVAILABLE
  ∧ sample_model "b" AVAILABLE None
    ∈ Dict.values (models (_refresh_if_needed (λ g, g) 0 g)).
Proof.
  cbv zeta.
  assert (H : fst (rotate_model (λ g, g) 0 (λ _, 0) "a"
                     (sample_manager [sample_model "a" AVAILABLE None;
                                      sample_model "b" AVAILABLE None]))
              = Some (sample_model "b" AVAILABLE None)) by (by vm_compute).
  split; [exact H |].
  exact (rotate_model_leaves_current (λ g, g) 0 (λ _, 0) "a" _ _ H).
Defined.

(** ** The rate limiter and the endpoint store *)

Lemma set_status_same (m : FreeModel) : set_status (status m) m = m.
Proof. by destruct m. Qed.

Lemma dict_alter_alter {V : Type} (f h : V → V) (k : string) (d : Dict.t V) :
  Dict.alter f k (Dict.alter h k d) = Dict.alter (f ∘ h) k d.
Proof.
  induction d as [|[k0 v] d IH]; [done |]. cbn [Dict.alter].
  destruct (decide (k0 = k)) as [->|Hk]; cbn [Dict.alter].
  - by rewrite decide_True.
  - rewrite decide_False by done. by rewrite IH.
Qed.

Lemma dict_alter_ext {V : Type} (f h : V → V) (k : string) (d : Dict.t V) :
  (∀ v, f v = h v) → Dict.alter f k d = Dict.alter h k d.
Proof.
  intros Hfh. induction d as [|[k0 v] d IH]; [done |]. cbn [Dict.alter].
  case_decide; [by rewrite Hfh | by rewrite IH].
Qed.

Lemma dict_get_is_Some {V : Type} (k : string) (d : Dict.t V) :
  is_Some (Dict.get k d) ↔ k ∈ List.map fst d.
Proof.
  induction d as [|[k0 v] d IH]; cbn [Dict.get List.map fst].
  - split; [by intros [? ?] | by intros ?%elem_of_nil].
  - rewrite elem_of_cons. case_decide as Hk.
    + split; [by left | by eauto].
    + rewrite IH. split; [by right |]. by intros [Heq | Hin].
Qed.

Lemma filter_filter_same {A : Type} (f : A → bool) (l : list A) :
  List.filter f (List.filter f l) = List.filter f l.
Proof.
  induction l as [|x l IH]; [done |]. cbn [List.filter].
  destruct (f x) eqn:E; [|exact IH]. cbn [List.filter]. by rewrite E, IH.
Qed.

Lemma pruned_idempotent now model_id g tr :
  tr !! model_id = Some (pruned now model_id g) →
  pruned now model_id (set_tracker tr g) = pruned now model_id g.
Proof.
  intros Htr. unfold pruned at 1. cbn [rate_limit_tracker set_tracker].
  rewrite Htr. cbn [default]. unfold pruned. apply filter_filter_same.
Qed.

(** X6: [check_rate_limits] touches one endpoint only. It keeps the stored
    ids and their order, the windows and the endpoints under every other id,
    and of the endpoint it checks it can change nothing but the status, to
    RATE_LIMITED. *)
Theorem check_rate_limits_frame :
  ∀ (now : Py.datetime) (model_id : string) (g : OpenRouterModelManager),
    let g' := snd (check_rate_limits now model_id g) in
    List.map fst (models g') = List.map fst (models g)
    ∧ circuit_breaker_threshold g' = circuit_breaker_threshold g
    ∧ last_discovery g' = last_discovery g
    ∧ (∀ k, k ≠ model_id →
         rate_limit_tracker g' !! k = rate_limit_tracker g !! k
         ∧ Dict.get k (models g') = Dict.get k (models g))
    ∧ (∀ m, Dict.get model_id (models g) = Some m →
         Dict.get model_id (models g') = Some m
         ∨ Dict.get model_id (models g') = Some (set_status RATE_LIMITED m)).
Proof.
  intros now model_id g. cbv zeta. rewrite check_rate_limits_eq. cbv zeta.
  assert (Hframe : ∀ ms,
    (∀ k, k ≠ model_id → Dict.get k ms = Dict.get k (models g)) →
    ∀ k, k ≠ model_id →
      <[model_id := pruned now model_id g]> (rate_limit_tracker g) !! k
      = rate_limit_tracker g !! k
      ∧ Dict.get k ms = Dict.get k (models g)).
  { intros ms Hms k Hk. split; [by rewrite lookup_insert_ne | by apply Hms]. }
  destruct (Dict.get model_id (models g)) as [model|] eqn:Hg;
    [destruct (rate_limit_rpm model) as [rpm|];
       [destruct (negb (rpm =? 0) && _) |] |];
    cbn [snd models set_models set_tracker rate_limit_tracker
         circuit_breaker_threshold last_discovery];
    rewrite ?dict_keys_alter;
    (split; [done |]); (split; [done |]); (split; [done |]); split.
  - apply Hframe. intros k Hk. by rewrite dict_get_alter, decide_False.
  - intros m [= <-]. right. by rewrite dict_get_alter_eq, Hg.
  - by apply Hframe.
  - intros m [= <-]. by left.
  - by apply Hframe.
  - intros m [= <-]. by left.
  - by apply Hframe.
  - done.
Qed.

(** X7: [check_rate_limits] refuses nothing without a capacity to enforce:
    on an unknown endpoint, on one with no [rate_limit_rpm] and on one whose
    [rate_limit_rpm] is 0 it answers [true] and leaves every endpoint as it
    is, however many requests the window holds. *)
Theorem check_rate_limits_without_capacity :
  ∀ (now : Py.datetime) (model_id : string) (g : OpenRouterModelManager),
    (∀ m, Dict.get model_id (models g) = Some m →
          rate_limit_rpm m = None ∨ rate_limit_rpm m = Some 0) →
    fst (check_rate_limits now model_id g) = true
    ∧ models (snd (check_rate_limits now model_id g)) = models g.
Proof.
  intros now model_id g H. rewrite check_rate_limits_eq. cbv zeta.
  destruct (Dict.get model_id (models g)) as [model|]; [|done].
  destruct (H model eq_refl) as [-> | ->]; done.
Qed.

Lemma check_rate_limits_without_capacity_witness :
  let g := set_tracker {[ "m" := [70000000; 100000000; 110000000] ]}
             (sample_manager [sample_model "m" AVAILABLE (Some 0)]) in
  (∀ m, Dict.get "m" (models g) = Some m →
        rate_limit_rpm m = None ∨ rate_limit_rpm m = Some 0)
  ∧ fst (check_rate_limits 120000000 "m" g) = true
  ∧ models (snd (check_rate_limits 120000000 "m" g)) = models g.
Proof.
  cbv zeta.
  assert (H : ∀ m,
    Dict.get "m" (models (set_tracker {[ "m" := [70000000; 100000000; 110000000] ]}
                            (sample_manager [sample_model "m" AVAILABLE (Some 0)])))
    = Some m → rate_limit_rpm m = None ∨ rate_limit_rpm m = Some 0).
  { intros m Hm. vm_compute in Hm. injection Hm as <-. by right. }
  split; [exact H |].
  exact (check_rate_limits_without_capacity 120000000 "m" _ H).
Defined.

(** X8: a request recorded after [check_rate_limits] answered [true] keeps
    the window within the capacity: on an endpoint with a non-zero
    [rate_limit_rpm], the window after check-then-record holds at most
    [rate_limit_rpm] timestamps. *)
Theorem check_then_record_within_capacity :
  ∀ (now now' now_m : Py.datetime) (model_id : string)
    (g : OpenRouterModelManager) (model : FreeModel) (rpm : Z)
    (success : bool) (response_time : option Q),
    Dict.get model_id (models g) = Some model →
    rate_limit_rpm model = Some rpm →
    rpm ≠ 0 →
    fst (check_rate_limits now model_id g) = true →
    ∃ window,
      rate_limit_tracker
        (record_request now' now_m model_id success response_time
           (snd (check_rate_limits now model_id g))) !! model_id
      = Some window
      ∧ Z.of_nat (length window) <= rpm.
Proof.
  intros now now' now_m model_id g model rpm success response_time
    Hg Hr Hz Hok.
  pose proof (check_rate_limits_tracker now model_id g) as Ht.
  rewrite check_rate_limits_eq in Hok, Ht |- *. cbv zeta in *.
  rewrite Hg, Hr in *. rewrite (proj2 (Z.eqb_neq _ _) Hz) in *.
  cbn [negb andb] in *.
  destruct (Z.leb_spec rpm (Z.of_nat (length (pruned now model_id g))))
    as [Hle | Hlt]; [discriminate Hok |].
  cbn [snd] in *.
  rewrite record_request_tracker
    by (cbn [models set_tracker]; rewrite Hg; eauto).
  rewrite Ht, lookup_insert_eq. cbn [default].
  eexists. split; [reflexivity |]. unfold Datatypes.id.
  rewrite length_app. cbn [length]. lia.
Qed.

Lemma check_then_record_within_capacity_witness :
  let g := set_tracker {[ "m" := [10000000; 70000000] ]}
             (sample_manager [sample_model "m" AVAILABLE (Some 2)]) in
  Dict.get "m" (models g) = Some (sample_model "m" AVAILABLE (Some 2))
  ∧ rate_limit_rpm (sample_model "m" AVAILABLE (Some 2)) = Some 2
  ∧ 2 ≠ 0
  ∧ fst (check_rate_limits 120000000 "m" g) = true
  ∧ ∃ window,
      rate_limit_tracker
        (record_request 120000001 120000002 "m" true (Some 1%Q)
           (snd (check_rate_limits 120000000 "m" g))) !! "m"
      = Some window
      ∧ Z.of_nat (length window) <= 2.
Proof.
  cbv zeta. split; [reflexivity |]. split; [reflexivity |]. split; [lia |].
  split; [reflexivity |].
  apply (check_then_record_within_capacity 120000000 120000001 120000002 "m"
           _ (sample_model "m" AVAILABLE (Some 2)) 2 true (Some 1%Q));
    [reflexivity | reflexivity | lia | reflexivity].
Defined.

(** X9: checking again at the same instant changes nothing more: the second
    [check_rate_limits] gives the same answer and leaves the manager the
    first one left. *)
Theorem check_rate_limits_idempotent :
  ∀ (now : Py.datetime) (model_id : string) (g : OpenRouterModelManager),
    check_rate_limits now model_id (snd (check_rate_limits now model_id g))
    = check_rate_limits now model_id g.
Proof.
  intros now model_id g.
  rewrite (check_rate_limits_eq now model_id g). cbv zeta.
  set (window := pruned now model_id g).
  set (g1 := set_tracker (<[model_id := window]> (rate_limit_tracker g)) g).
  assert (Hp : ∀ ms, pruned now model_id (set_models ms g1) = window).
  { intros ms. unfold pruned at 1. cbn [rate_limit_tracker set_models set_tracker g1].
    rewrite lookup_insert_eq. cbn [default].
    pose proof (pruned_idempotent now model_id g
                  (<[model_id := window]> (rate_limit_tracker g))
                  (lookup_insert_eq _ _ _)) as H.
    unfold pruned at 1 in H. cbn [rate_limit_tracker set_tracker] in H.
    rewrite lookup_insert_eq in H. exact H. }
  assert (Hp1 : pruned now model_id g1 = window).
  { specialize (Hp (models g1)). by destruct g. }
  destruct (Dict.get model_id (models g)) as [model|] eqn:Hg.
  - destruct (rate_limit_rpm model) as [rpm|] eqn:Hr.
    + destruct (negb (rpm =? 0) && (rpm <=? Z.of_nat (length window))) eqn:Hc;
        cbn [snd].
      * rewrite check_rate_limits_eq. cbv zeta. rewrite Hp.
        cbn [models set_models rate_limit_tracker set_tracker g1].
        rewrite dict_get_alter_eq, Hg. cbn [fmap option_fmap option_map].
        cbn [rate_limit_rpm set_status]. rewrite Hr, Hc.
        rewrite insert_insert_eq, dict_alter_alter.
        by rewrite (dict_alter_ext _ (set_status RATE_LIMITED)).
      * rewrite check_rate_limits_eq. cbv zeta. rewrite Hp1.
        cbn [models set_tracker g1]. rewrite Hg, Hr, Hc.
        cbn [rate_limit_tracker set_tracker g1].
        by rewrite insert_insert_eq.
    + cbn [snd]. rewrite check_rate_limits_eq. cbv zeta. rewrite Hp1.
      cbn [models set_tracker g1]. rewrite Hg, Hr.
      cbn [rate_limit_tracker set_tracker g1]. by rewrite insert_insert_eq.
  - cbn [snd]. rewrite check_rate_limits_eq. cbv zeta. rewrite Hp1.
    cbn [models set_tracker g1]. rewrite Hg.
    cbn [rate_limit_tracker set_tracker g1]. by rewrite insert_insert_eq.
Qed.

(** ** Status changes and selection *)

Lemma dict_values_get {V : Type} (d : Dict.t V) (v : V) :
  NoDup (List.map fst d) → v ∈ Dict.values d → ∃ k, Dict.get k d = Some v.
Proof.
  unfold Dict.values.
  induction d as [|[k' v'] d IH]; cbn [List.map fst snd Dict.get];
    intros Hnd Hin.
  - by apply elem_of_nil in Hin.
  - apply NoDup_cons in Hnd as [Hk Hnd]. apply elem_of_cons in Hin as [->|Hin].
    + exists k'. by rewrite decide_True.
    + destruct (IH Hnd Hin) as [k Hget]. exists k.
      rewrite decide_False; [done |]. intros ->. apply Hk.
      apply dict_get_is_Some. by rewrite Hget.
Qed.

(** while no rediscovery is due, [_refresh_if_needed] leaves the manager *)
Lemma refresh_not_due discover now g ld :
  last_discovery g = Some ld →
  now - ld <= discovery_interval g →
  _refresh_if_needed discover now g = g.
Proof.
  intros Hld Hdue. unfold _refresh_if_needed. rewrite Hld.
  by rewrite (proj2 (Z.ltb_ge _ _)) by lia.
Qed.

(** while no rediscovery is due, [get_best_model] leaves the manager and
    passes over the endpoint stored under an id whose status is not
    AVAILABLE: what it returns is stored under another id *)
Lemma get_best_model_passes_over discover now score_time exclude_models g
    model_id m ld :
  NoDup (List.map fst (models g)) →
  last_discovery g = Some ld →
  now - ld <= discovery_interval g →
  Dict.get model_id (models g) = Some m →
  status m ≠ AVAILABLE →
  snd (get_best_model discover now score_time exclude_models g) = g
  ∧ ∀ best,
      fst (get_best_model discover now score_time exclude_models g) = Some best →
      status best = AVAILABLE
      ∧ ∃ k, k ≠ model_id ∧ Dict.get k (models g) = Some best.
Proof.
  intros Hnd Hld Hdue Hget Hst. split.
  - unfold get_best_model. rewrite (refresh_not_due _ _ _ _ Hld Hdue).
    by destruct (timed _).
  - intros best Hbest. apply get_best_model_available in Hbest.
    rewrite (refresh_not_due _ _ _ _ Hld Hdue) in Hbest.
    apply available_models_elem in Hbest as (Hin & Hav & _).
    split; [exact Hav |].
    destruct (dict_values_get _ _ Hnd Hin) as [k Hk]. exists k.
    split; [|exact Hk]. intros ->. rewrite Hget in Hk.
    injection Hk as ->. by rewrite Hav in Hst.
Qed.

(** X10: an endpoint that [check_rate_limits] refuses is left RATE_LIMITED,
    and a [get_best_model] that follows while no rediscovery is due
    ([last_discovery] at most [discovery_interval] old) does not return it,
    whatever the exclusion set: it leaves the manager as it is and what it
    returns is AVAILABLE and stored under another id. *)
Theorem refused_endpoint_not_selectable :
  ∀ (discover : OpenRouterModelManager → OpenRouterModelManager)
    (now now' : Py.datetime) (score_time : nat → Py.datetime)
    (exclude_models : option (gset string)) (model_id : string)
    (g : OpenRouterModelManager) (ld : Py.datetime),
    NoDup (List.map fst (models g)) →
    fst (check_rate_limits now model_id g) = false →
    last_discovery g = Some ld →
    now' - ld <= discovery_interval g →
    let g' := snd (check_rate_limits now model_id g) in
    ∃ m,
      Dict.get model_id (models g') = Some m
      ∧ status m = RATE_LIMITED
      ∧ snd (get_best_model discover now' score_time exclude_models g') = g'
      ∧ ∀ best,
          fst (get_best_model discover now' score_time exclude_models g')
          = Some best →
          status best = AVAILABLE
          ∧ ∃ k, k ≠ model_id ∧ Dict.get k (models g') = Some best.
Proof.
  intros discover now now' score_time exclude_models model_id g ld
    Hnd Hrefused Hld Hdue. cbv zeta.
  rewrite check_rate_limits_eq in *. cbv zeta in *.
  destruct (Dict.get model_id (models g)) as [model|] eqn:Hg; [|done].
  destruct (rate_limit_rpm model) as [rpm|]; [|done].
  destruct (negb (rpm =? 0) && _); [|done].
  cbn [snd].
  match goal with |- context [models ?G] => set (g' := G) end.
  exists (set_status RATE_LIMITED model).
  assert (Hm : Dict.get model_id (models g')
               = Some (set_status RATE_LIMITED model))
    by (subst g'; cbn [models set_models]; by rewrite dict_get_alter_eq, Hg).
  split; [exact Hm |]. split; [reflexivity |].
  apply (get_best_model_passes_over discover now' score_time exclude_models
           g' model_id (set_status RATE_LIMITED model) ld);
    [subst g'; cbn [models set_models]; by rewrite dict_keys_alter
    | exact Hld | exact Hdue | exact Hm | done].
Qed.

Lemma refused_endpoint_not_selectable_witness :
  let g :=
    set_last_discovery (Some 100000000)
      (set_tracker {[ "m" := [70000000; 100000000] ]}
         (sample_manager [sample_model "m" AVAILABLE (Some 2);
                          sample_model "n" AVAILABLE None])) in
  let g' := snd (check_rate_limits 120000000 "m" g) in
  let discover := λ g0 : OpenRouterModelManager,
    set_models [("m", sample_model "m" AVAILABLE (Some 2))] g0 in
  NoDup (List.map fst (models g))
  ∧ fst (check_rate_limits 120000000 "m" g) = false
  ∧ last_discovery g = Some 100000000
  ∧ 130000000 - 100000000 <= discovery_interval g
  ∧ id <$> fst (get_best_model discover 130000000 (λ _, 130000000) None g')
    = Some "n"
  ∧ ∃ m,
      Dict.get "m" (models g') = Some m
      ∧ status m = RATE_LIMITED
      ∧ snd (get_best_model discover 130000000 (λ _, 130000000) None g') = g'
      ∧ ∀ best,
          fst (get_best_model discover 130000000 (λ _, 130000000) None g')
          = Some best →
          status best = AVAILABLE
          ∧ ∃ k, k ≠ "m" ∧ Dict.get k (models g') = Some best.
Proof.
  cbv zeta.
  assert (Hnd : NoDup (List.map fst (models
    (set_last_discovery (Some 100000000)
       (set_tracker {[ "m" := [70000000; 100000000] ]}
          (sample_manager [sample_model "m" AVAILABLE (Some 2);
                           sample_model "n" AVAILABLE None]))))))
    by (apply (bool_decide_unpack _); by vm_compute).
  split; [exact Hnd |]. split; [by vm_compute |]. split; [reflexivity |].
  split; [by vm_compute |]. split; [by vm_compute |].
  apply (refused_endpoint_not_selectable
           (λ g0, set_models [("m", sample_model "m" AVAILABLE (Some 2))] g0)
           120000000 130000000 (λ _, 130000000) None "m" _ 100000000);
    [exact Hnd | by vm_compute | reflexivity | by vm_compute].
Defined.

(** X11: once a recorded failure brings [consecutive_failures] to
    [circuit_breaker_threshold], the endpoint is UNAVAILABLE and its health
    score is 0 at any time; a [get_best_model] that follows while no
    rediscovery is due ([last_discovery] at most [discovery_interval] old)
    does not return it: it leaves the manager as it is and what it returns is
    AVAILABLE and stored under another id. *)
Theorem tripped_endpoint_not_selectable :
  ∀ (discover : OpenRouterModelManager → OpenRouterModelManager)
    (now now_m now' : Py.datetime) (score_time : nat → Py.datetime)
    (exclude_models : option (gset string)) (model_id : string)
    (success : bool) (g : OpenRouterModelManager) (model : FreeModel)
    (ld : Py.datetime),
    NoDup (List.map fst (models g)) →
    Dict.get model_id (models g) = Some model →
    circuit_breaker_threshold g <= consecutive_failures (metrics model) + 1 →
    last_discovery g = Some ld →
    now' - ld <= discovery_interval g →
    let g' := record_request now now_m model_id success None g in
    ∃ m,
      Dict.get model_id (models g') = Some m
      ∧ status m = UNAVAILABLE
      ∧ (∀ t, health_score t m = 0%Q)
      ∧ snd (get_best_model discover now' score_time exclude_models g') = g'
      ∧ ∀ best,
          fst (get_best_model discover now' score_time exclude_models g')
          = Some best →
          status best = AVAILABLE
          ∧ ∃ k, k ≠ model_id ∧ Dict.get k (models g') = Some best.
Proof.
  intros discover now now_m now' score_time exclude_models model_id success
    g model ld Hnd Hg Hth Hld Hdue. cbv zeta.
  pose proof (record_request_failure_branch now now_m model_id success g model
                Hg) as Hm.
  exists (after_failure now_m (circuit_breaker_threshold g) model).
  split; [exact Hm |].
  assert (Hs : status (after_failure now_m (circuit_breaker_threshold g) model)
               = UNAVAILABLE).
  { unfold after_failure. cbv zeta. cbn [metrics set_metrics].
    destruct (update_failure_fields now_m (metrics model))
      as (_ & _ & _ & -> & _).
    by rewrite (proj2 (Z.leb_le _ _) Hth). }
  split; [exact Hs |]. split; [intros t; by apply health_score_unavailable |].
  apply (get_best_model_passes_over discover now' score_time exclude_models
           (record_request now now_m model_id success None g) model_id
           (after_failure now_m (circuit_breaker_threshold g) model) ld);
    [| | | exact Hm | by rewrite Hs].
  - unfold record_request. rewrite Hg. cbn [models set_models set_tracker].
    by rewrite dict_keys_alter.
  - unfold record_request. by rewrite Hg.
  - unfold record_request. by rewrite Hg.
Qed.

Lemma tripped_endpoint_not_selectable_witness :
  let model := set_consecutive_failures 4 (sample_model "m" AVAILABLE None) in
  let g :=
    set_last_discovery (Some 0)
      (sample_manager [model; sample_model "n" AVAILABLE None]) in
  let g' := record_request 5 6 "m" false None g in
  let discover := λ g0 : OpenRouterModelManager,
    set_models [("m", sample_model "m" AVAILABLE None)] g0 in
  NoDup (List.map fst (models g))
  ∧ Dict.get "m" (models g) = Some model
  ∧ circuit_breaker_threshold g <= consecutive_failures (metrics model) + 1
  ∧ last_discovery g = Some 0
  ∧ 7 - 0 <= discovery_interval g
  ∧ id <$> fst (get_best_model discover 7 (λ _, 7) None g') = Some "n"
  ∧ ∃ m,
      Dict.get "m" (models g') = Some m
      ∧ status m = UNAVAILABLE
      ∧ (∀ t, health_score t m = 0%Q)
      ∧ snd (get_best_model discover 7 (λ _, 7) None g') = g'
      ∧ ∀ best,
          fst (get_best_model discover 7 (λ _, 7) None g') = Some best →
          status best = AVAILABLE
          ∧ ∃ k, k ≠ "m" ∧ Dict.get k (models g') = Some best.
Proof.
  cbv zeta.
  assert (Hnd : NoDup (List.map fst (models
    (set_last_discovery (Some 0)
       (sample_manager
          [set_consecutive_failures 4 (sample_model "m" AVAILABLE None);
           sample_model "n" AVAILABLE None])))))
    by (apply (bool_decide_unpack _); by vm_compute).
  split; [exact Hnd |]. split; [reflexivity |]. split; [by vm_compute |].
  split; [reflexivity |]. split; [by vm_compute |]. split; [by vm_compute |].
  apply (tripped_endpoint_not_selectable
           (λ g0, set_models [("m", sample_model "m" AVAILABLE None)] g0)
           5 6 7 (λ _, 7) None "m" false _
           (set_consecutive_failures 4 (sample_model "m" AVAILABLE None)) 0);
    [exact Hnd | reflexivity | by vm_compute | reflexivity | by vm_compute].
Defined.

(** X12: [record_request] touches one endpoint only. On an id that is not
    stored it changes nothing at all; on a stored id it keeps the stored ids
    and their order and keeps the window and the endpoint of every other id;
    of the endpoint itself it changes only the metrics and the status. *)
Theorem record_request_frame :
  ∀ (now now_m : Py.datetime) (model_id : string) (success : bool)
    (response_time : option Q) (g : OpenRouterModelManager),
    let g' := record_request now now_m model_id success response_time g in
    (Dict.get model_id (models g) = None → g' = g)
    ∧ List.map fst (models g') = List.map fst (models g)
    ∧ circuit_breaker_threshold g' = circuit_breaker_threshold g
    ∧ (∀ k, k ≠ model_id →
         rate_limit_tracker g' !! k = rate_limit_tracker g !! k
         ∧ Dict.get k (models g') = Dict.get k (models g))
    ∧ (∀ m, Dict.get model_id (models g) = Some m →
         ∃ m', Dict.get model_id (models g') = Some m'
               ∧ id m' = id m ∧ name m' = name m
               ∧ pricing m' = pricing m
               ∧ rate_limit_rpm m' = rate_limit_rpm m).
Proof.
  intros now now_m model_id success response_time g. cbv zeta.
  unfold record_request.
  destruct (Dict.get model_id (models g)) as [model|] eqn:Hg; [|done].
  cbn [models set_models set_tracker rate_limit_tracker
       circuit_breaker_threshold].
  rewrite dict_keys_alter.
  split; [done |]. split; [done |]. split; [done |]. split.
  - intros k Hk. rewrite lookup_insert_ne by done.
    rewrite dict_get_alter, decide_False by done. split; [|done].
    destruct (rate_limit_tracker g !! model_id); [done |].
    by rewrite lookup_insert_ne.
  - intros m [= <-]. rewrite dict_get_alter_eq, Hg.
    eexists. split; [reflexivity |].
    destruct success, response_time; cbv zeta;
      repeat case_match; done.
Qed.

(** ** Health probes *)

Lemma probe_model_spec now_m probe m :
  let m' := probe_model now_m probe m in
  let ok := match probe with
            | Responded http_status _ => http_status =? 200
            | _ => false
            end in
  (ok = true ↔ status m' = AVAILABLE)
  ∧ (status m' = AVAILABLE ∨ status m' = ERROR ∨ status m' = RATE_LIMITED)
  ∧ total_requests (metrics m') = total_requests (metrics m) + 1
  ∧ consecutive_failures (metrics m')
    = (if ok then 0 else consecutive_failures (metrics m) + 1)
  ∧ id m' = id m ∧ rate_limit_rpm m' = rate_limit_rpm m.
Proof.
  cbv zeta. unfold probe_model. cbv zeta.
  destruct (update_failure_fields now_m (metrics (set_status TESTING m)))
    as (Hft & _ & _ & Hfc & _).
  cbn [metrics set_status] in Hft, Hfc.
  destruct probe as [http_status rt| |].
  - destruct (update_success_fields now_m (metrics (set_status TESTING m)) rt)
      as (Hst & _ & _ & Hsc & _).
    cbn [metrics set_status] in Hst, Hsc.
    destruct (http_status =? 200);
      [|destruct (500 <=? http_status)];
      cbn [status metrics id rate_limit_rpm set_status set_metrics];
      repeat split; auto; try done.
  - cbn [status metrics id rate_limit_rpm set_status set_metrics].
    repeat split; auto; try done.
  - cbn [status metrics id rate_limit_rpm set_status set_metrics].
    repeat split; auto; try done.
Qed.

(** X13: [test_model_health] on a stored endpoint counts one request and
    answers [true] exactly when it leaves the endpoint AVAILABLE, which
    happens exactly on an HTTP 200 response; it never leaves the endpoint
    TESTING or UNAVAILABLE, whatever the status was before, and a failed probe
    adds one to [consecutive_failures]. On an id that is not stored it answers
    [false] and changes nothing. *)
Theorem test_model_health_outcome :
  ∀ (now_m : Py.datetime) (probe : ProbeOutcome) (model_id : string)
    (g : OpenRouterModelManager),
    let '(ok, g') := test_model_health now_m probe model_id g in
    (Dict.get model_id (models g) = None → ok = false ∧ g' = g)
    ∧ ∀ m, Dict.get model_id (models g) = Some m →
        ∃ m',
          Dict.get model_id (models g') = Some m'
          ∧ (ok = true ↔ status m' = AVAILABLE)
          ∧ (ok = true ↔ ∃ rt, probe = Responded 200 rt)
          ∧ status m' ≠ TESTING ∧ status m' ≠ UNAVAILABLE
          ∧ total_requests (metrics m') = total_requests (metrics m) + 1
          ∧ consecutive_failures (metrics m')
            = (if ok then 0 else consecutive_failures (metrics m) + 1).
Proof.
  intros now_m probe model_id g. unfold test_model_health.
  destruct (Dict.get model_id (models g)) as [model|] eqn:Hg; [|done].
  split; [done |]. intros m [= <-]. cbn [models set_models].
  rewrite dict_get_alter_eq, Hg. eexists. split; [reflexivity |].
  destruct (probe_model_spec now_m probe model)
    as (Hok & Hst & Ht & Hc & _).
  split; [exact Hok |]. split.
  - destruct probe as [http_status rt| |].
    + destruct (Z.eqb_spec http_status 200) as [-> | Hne].
      * split; [eauto | done].
      * split; [done |]. intros [rt' [= ? _]]. done.
    + split; [done | by intros [? ?]].
    + split; [done | by intros [? ?]].
  - repeat split; try done.
    + destruct Hst as [-> | [-> | ->]]; done.
    + destruct Hst as [-> | [-> | ->]]; done.
Qed.

Lemma health_check_keys_spec clock probes (keys : list string) :
  ∀ g,
    NoDup keys →
    (∀ k, k ∈ keys → is_Some (Dict.get k (models g))) →
    let g' := health_check_keys clock probes keys g in
    List.map fst (models g') = List.map fst (models g)
    ∧ rate_limit_tracker g' = rate_limit_tracker g
    ∧ ∀ k,
        Dict.get k (models g')
        = (if decide (k ∈ keys) then
             (λ m, if bool_decide (status m = AVAILABLE)
                      || bool_decide (status m = ERROR)
                   then probe_model (clock k) (probes k) m else m)
             <$> Dict.get k (models g)
           else Dict.get k (models g)).
Proof.
  induction keys as [|k0 keys IH]; intros g Hnd Hin; cbv zeta.
  - cbn [health_check_keys]. repeat split; done.
  - apply NoDup_cons in Hnd as [Hk0 Hnd].
    destruct (Hin k0 ltac:(left)) as [m0 Hm0].
    cbn [health_check_keys]. rewrite Hm0.
    set (g1 := if bool_decide (status m0 = AVAILABLE)
                  || bool_decide (status m0 = ERROR)
               then snd (test_model_health (clock k0) (probes k0) k0 g)
               else g).
    assert (Hg1 : List.map fst (models g1) = List.map fst (models g)
                  ∧ rate_limit_tracker g1 = rate_limit_tracker g
                  ∧ ∀ k, Dict.get k (models g1)
                         = if decide (k0 = k) then
                             (λ m, if bool_decide (status m = AVAILABLE)
                                      || bool_decide (status m = ERROR)
                                   then probe_model (clock k0) (probes k0) m
                                   else m) <$> Dict.get k (models g)
                           else Dict.get k (models g)).
    { subst g1. destruct (bool_decide (status m0 = AVAILABLE)
                          || bool_decide (status m0 = ERROR)) eqn:Hst.
      - unfold test_model_health. rewrite Hm0. cbn [snd models set_models
          rate_limit_tracker]. rewrite dict_keys_alter.
        split; [done |]. split; [done |]. intros k. rewrite dict_get_alter.
        destruct (decide (k0 = k)) as [<- | Hk]; [|done]. rewrite Hm0.
        cbn [fmap option_fmap option_map]. by rewrite Hst.
      - split; [done |]. split; [done |]. intros k.
        destruct (decide (k0 = k)) as [<- | Hk]; [|done]. rewrite Hm0.
        cbn [fmap option_fmap option_map]. by rewrite Hst. }
    destruct Hg1 as (Hkeys1 & Htr1 & Hget1).
    destruct (IH g1 Hnd) as (Hkeys & Htr & Hget).
    { intros k Hk. apply dict_get_is_Some. rewrite Hkeys1.
      apply dict_get_is_Some, Hin. by right. }
    cbv zeta in *. split; [congruence |]. split; [congruence |].
    intros k. rewrite Hget, Hget1.
    destruct (decide (k0 = k)) as [<- | Hne].
    + rewrite decide_False by done. by rewrite decide_True by left.
    + destruct (decide (k ∈ keys)) as [Hk | Hk].
      * by rewrite decide_True by (by right).
      * rewrite decide_False; [done |]. by intros [? | ?]%elem_of_cons.
Qed.

(** X14: one round of the health check loop over a store with distinct ids
    probes every endpoint that is AVAILABLE or ERROR exactly once, and leaves
    every RATE_LIMITED, UNAVAILABLE or TESTING endpoint exactly as it was: the
    loop restores none of them. It adds and removes no endpoint and touches no
    window. *)
Theorem health_check_round_probes_available_and_error :
  ∀ (clock : string → Py.datetime) (probes : string → ProbeOutcome)
    (g : OpenRouterModelManager),
    NoDup (List.map fst (models g)) →
    let g' := health_check_round clock probes g in
    List.map fst (models g') = List.map fst (models g)
    ∧ rate_limit_tracker g' = rate_limit_tracker g
    ∧ ∀ k m,
        Dict.get k (models g) = Some m →
        Dict.get k (models g')
        = Some (if bool_decide (status m = AVAILABLE)
                   || bool_decide (status m = ERROR)
                then probe_model (clock k) (probes k) m else m).
Proof.
  intros clock probes g Hnd. cbv zeta. unfold health_check_round.
  destruct (health_check_keys_spec clock probes (List.map fst (models g)) g Hnd)
    as (Hkeys & Htr & Hget).
  { intros k Hk. by apply dict_get_is_Some. }
  cbv zeta in *. split; [done |]. split; [done |].
  intros k m Hm. rewrite Hget, Hm.
  rewrite decide_True; [done |]. apply dict_get_is_Some. by rewrite Hm.
Qed.

Lemma health_check_round_probes_available_and_error_witness :
  let g := sample_manager [sample_model "a" AVAILABLE None;
                           sample_model "b" UNAVAILABLE None;
                           sample_model "c" ERROR None] in
  let clock := λ _ : string, 9 in
  let probes := λ _ : string, Responded 200 1 in
  let g' := health_check_round clock probes g in
  NoDup (List.map fst (models g))
  ∧ List.map fst (models g') = List.map fst (models g)
  ∧ rate_limit_tracker g' = rate_limit_tracker g
  ∧ (∀ k m,
        Dict.get k (models g) = Some m →
        Dict.get k (models g')
        = Some (if bool_decide (status m = AVAILABLE)
                   || bool_decide (status m = ERROR)
                then probe_model (clock k) (probes k) m else m))
  ∧ status <$> Dict.get "b" (models g') = Some UNAVAILABLE
  ∧ status <$> Dict.get "c" (models g') = Some AVAILABLE.
Proof.
  cbv zeta.
  assert (Hnd : NoDup (List.map fst (models (sample_manager
            [sample_model "a" AVAILABLE None;
             sample_model "b" UNAVAILABLE None;
             sample_model "c" ERROR None])))).
  { apply (bool_decide_unpack _). by vm_compute. }
  split; [exact Hnd |].
  destruct (health_check_round_probes_available_and_error
              (λ _ : string, 9) (λ _ : string, Responded 200 1) _ Hnd)
    as (H1 & H2 & H3).
  split; [exact H1 |]. split; [exact H2 |]. split; [exact H3 |].
  split; by vm_compute.
Defined.

(** ** Further properties of the circuit breaker *)

Module BreakerMore.
Import ErrorHandling BreakerFacts.





Lemma breaker_invariant_init nm cfg :
  breaker_invariant (CircuitBreaker_init nm cfg).
Proof. unfold breaker_invariant. cbn. repeat split; try done; lia. Qed.

Ltac breaker_fields :=
  cbn [name config state failure_count success_count last_failure_time
       half_open_calls metrics fst snd] in *.

Ltac breaker_inv_solve :=
  breaker_fields;
  repeat match goal with
         | |- _ ∧ _ => split
         | |- _ → _ => intro
         end;
  try done; try lia; eauto;
  try (match goal with
       | H : ?st ≠ HALF_OPEN → success_count ?cb = 0 |- _ =>
           rewrite H by congruence; lia
       end);
  try (match goal with
       | H : ?P → ?x < ?y |- _ => specialize (H ltac:(congruence)); lia
       end);
  try (match goal with
       | H : ?P → is_Some ?x |- is_Some ?x => apply H; congruence
       end).

Lemma breaker_invariant_gate now cb :
  breaker_invariant cb → breaker_invariant (snd (gate now cb)).
Proof.
  unfold breaker_invariant. intros (H1 & H2 & H3 & H4 & H5 & H6 & H7).
  unfold gate. destruct (state cb) eqn:Hs; cbv beta iota zeta.
  - rewrite Hs. breaker_inv_solve.
  - destruct (_should_attempt_reset now cb); cbv beta iota zeta.
    + breaker_fields.
      destruct (half_open_max_calls (config cb) <=? 0); breaker_inv_solve.
    + breaker_inv_solve.
  - rewrite Hs.
    destruct (half_open_max_calls (config cb) <=? half_open_calls cb);
      breaker_inv_solve.
Qed.

Lemma breaker_invariant_on_success cb :
  breaker_invariant cb → breaker_invariant (_on_success cb).
Proof.
  unfold breaker_invariant. intros (H1 & H2 & H3 & H4 & H5 & H6 & H7).
  unfold _on_success. destruct (state cb) eqn:Hs; cbv beta iota zeta.
  - breaker_fields. rewrite ?Hs. breaker_inv_solve.
  - breaker_fields. rewrite ?Hs. breaker_inv_solve.
  - destruct (Z.leb_spec (success_threshold (config cb)) (success_count cb + 1));
      breaker_fields; rewrite ?Hs; breaker_inv_solve.
Qed.

Lemma breaker_invariant_on_failure now now_m error_type cb :
  breaker_invariant cb →
  breaker_invariant (_on_failure now now_m error_type cb).
Proof.
  unfold breaker_invariant. intros (H1 & H2 & H3 & H4 & H5 & H6 & H7).
  unfold _on_failure. destruct (state cb) eqn:Hs; cbv beta iota zeta.
  - destruct (Z.leb_spec (failure_threshold (config cb)) (failure_count cb + 1));
      breaker_inv_solve.
  - breaker_inv_solve.
  - breaker_inv_solve.
Qed.

Lemma breaker_invariant_call {St V : Type} clk (func : Op St V) cb w :
  breaker_invariant cb →
  breaker_invariant (snd (fst (call clk func cb w))).
Proof.
  intros Hinv. unfold call.
  pose proof (breaker_invariant_gate (at_gate clk) cb Hinv) as Hg.
  destruct (gate (at_gate clk) cb) as [[e|] cb1]; cbn [snd] in Hg; [done |].
  unfold attempt. destruct (invoke func w) as [[v|e] w1]; cbn [fst snd].
  - by apply breaker_invariant_on_success.
  - destruct (exc_is_Exception e); cbn [fst snd];
      [by apply breaker_invariant_on_failure | done].
Qed.

Lemma gate_config now cb :
  config (snd (gate now cb)) = config cb ∧ name (snd (gate now cb)) = name cb.
Proof.
  unfold gate. destruct (state cb) eqn:Hs; cbn; rewrite ?Hs; cbn.
  - done.
  - destruct (_should_attempt_reset now cb); cbn; [|done].
    by destruct (half_open_max_calls (config cb) <=? 0).
  - by destruct (half_open_max_calls (config cb) <=? half_open_calls cb).
Qed.

Lemma call_config {St V : Type} clk (func : Op St V) cb w :
  config (snd (fst (call clk func cb w))) = config cb
  ∧ name (snd (fst (call clk func cb w))) = name cb.
Proof.
  unfold call. destruct (gate_config (at_gate clk) cb) as [Hc Hn].
  destruct (gate (at_gate clk) cb) as [[e|] cb1]; cbn [fst snd] in *; [done |].
  unfold attempt. destruct (invoke func w) as [[v|e] w1]; cbn [fst snd].
  - rewrite <- Hc, <- Hn. unfold _on_success.
    destruct (state cb1); cbn; [done | done |].
    by destruct (success_threshold (config cb1) <=? success_count cb1 + 1).
  - destruct (exc_is_Exception e); cbn [fst snd]; [|done].
    rewrite <- Hc, <- Hn. unfold _on_failure. by destruct (state cb1).
Qed.

(** X16: every breaker built by [__init__] and driven by any sequence of
    [call]s keeps its counters non-negative, its name and its configuration;
    it has a [last_failure_time] whenever it is not CLOSED, a [success_count]
    of 0 whenever it is not HALF_OPEN, a [failure_count] below the threshold
    whenever it is CLOSED, and a [success_count] below the success threshold
    whenever it is HALF_OPEN (thresholds below 1 counting as 1). *)
Theorem breaker_invariant_reachable :
  ∀ (St V : Type) (calls : list (Clock * Op St V)) (nm : string)
    (cfg : CircuitBreakerConfig) (w : World St),
    let cb' := snd (fst (run_calls calls (CircuitBreaker_init nm cfg) w)) in
    breaker_invariant cb' ∧ config cb' = cfg ∧ name cb' = nm.
Proof.
  intros St V calls nm cfg w. cbv zeta.
  assert (H : ∀ cb (w : World St),
    breaker_invariant cb →
    breaker_invariant (snd (fst (run_calls calls cb w)))
    ∧ config (snd (fst (run_calls calls cb w))) = config cb
    ∧ name (snd (fst (run_calls calls cb w))) = name cb).
  { clear. induction calls as [|[clk func] calls IH]; intros cb w Hinv;
      [done |].
    cbn [run_calls].
    pose proof (breaker_invariant_call clk func cb w Hinv) as Hc.
    destruct (call_config clk func cb w) as [Hcfg Hnm].
    destruct (call clk func cb w) as [[r cb1] w1]. cbn [fst snd] in *.
    destruct (IH cb1 w1 Hc) as (Hi & Hcfg' & Hnm').
    destruct (run_calls calls cb1 w1) as [[rs cb2] w2]. cbn [fst snd] in *.
    split; [done |]. split; congruence. }
  apply (H (CircuitBreaker_init nm cfg) w), breaker_invariant_init.
Qed.

Lemma run_calls_half_open_full {St V : Type} (calls : list (Clock * Op St V))
    cb (w : World St) :
  state cb = HALF_OPEN →
  half_open_max_calls (config cb) <= half_open_calls cb →
  run_calls calls cb w
  = (List.map
       (λ _, Raised (CircuitBreakerOpenError
                       ("Circuit breaker " +:+ name cb
                        +:+ " half-open limit exceeded")))
       calls, cb, w).
Proof.
  intros Hs Hle. induction calls as [|[clk func] calls IH]; [done |].
  cbn [run_calls List.map]. unfold call.
  rewrite (gate_half_open_full _ _ Hs Hle). by rewrite IH.
Qed.

(** X17: a HALF_OPEN breaker that has used up its [half_open_max_calls]
    stays as it is for ever: every later call, at whatever time and with
    whatever operation, is refused with [CircuitBreakerOpenError] without
    invoking the operation and without changing the breaker, so the breaker
    neither closes nor reopens. *)
Theorem half_open_breaker_out_of_calls_is_stuck :
  ∀ (St V : Type) (calls : list (Clock * Op St V)) (cb : CircuitBreaker)
    (w : World St),
    state cb = HALF_OPEN →
    half_open_max_calls (config cb) <= half_open_calls cb →
    run_calls calls cb w
    = (List.map
         (λ _, Raised (CircuitBreakerOpenError
                         ("Circuit breaker " +:+ name cb
                          +:+ " half-open limit exceeded")))
         calls, cb, w).
Proof. intros. by apply run_calls_half_open_full. Qed.

(** a breaker with [success_threshold = 3] and [half_open_max_calls = 2]
    that was opened, waited out its timeout and saw two successes *)
Lemma half_open_breaker_out_of_calls_is_stuck_witness :
  let cfg := mkConfig 1 (Py.seconds 10) 3 (Py.seconds 300) 2 in
  let ok : Op nat string := λ u, (Returned "Success", S u) in
  let cb := snd (fst (run_calls
                        [(sample_clock 0, failing_service);
                         (sample_clock 20000000, ok);
                         (sample_clock 20000010, ok)]
                        (CircuitBreaker_init "example_service" cfg)
                        sample_world)) in
  let further := [(sample_clock 90000000, ok); (sample_clock 99000000, ok)] in
  state cb = HALF_OPEN
  ∧ half_open_max_calls (config cb) <= half_open_calls cb
  ∧ success_count cb = 2
  ∧ run_calls further cb sample_world
    = ([Raised (CircuitBreakerOpenError
                  "Circuit breaker example_service half-open limit exceeded");
        Raised (CircuitBreakerOpenError
                  "Circuit breaker example_service half-open limit exceeded")],
       cb, sample_world).
Proof.
  cbv zeta. split; [by vm_compute |]. split; [by vm_compute |].
  split; [by vm_compute |].
  rewrite (half_open_breaker_out_of_calls_is_stuck nat string);
    [reflexivity | by vm_compute | by vm_compute].
Defined.





(** X19: an operation that raises something that is not an [Exception] is
    counted neither as a success nor as a failure: the error goes to the
    caller and the breaker is left as the guards of [call] left it, with its
    state, [failure_count], [success_count], [last_failure_time] and metrics
    unchanged; in HALF_OPEN the call has still used one of the
    [half_open_max_calls]. *)
Theorem call_passes_non_exception_through :
  ∀ (St V : Type) (clk : Clock) (func : Op St V) (cb : CircuitBreaker)
    (w : World St) (e : PyExc) (u : St),
    func (user w) = (Raised e, u) →
    exc_is_Exception e = false →
    fst (gate (at_gate clk) cb) = None →
    ∃ w',
      call clk func cb w = (Raised e, snd (gate (at_gate clk) cb), w')
      ∧ invocations w' = S (invocations w)
      ∧ failure_count (snd (gate (at_gate clk) cb)) = failure_count cb
      ∧ success_count (snd (gate (at_gate clk) cb)) = success_count cb
      ∧ last_failure_time (snd (gate (at_gate clk) cb)) = last_failure_time cb
      ∧ metrics (snd (gate (at_gate clk) cb)) = metrics cb
      ∧ (state cb = HALF_OPEN →
         state (snd (gate (at_gate clk) cb)) = HALF_OPEN
         ∧ half_open_calls (snd (gate (at_gate clk) cb))
           = half_open_calls cb + 1)
      ∧ (state cb = CLOSED → snd (gate (at_gate clk) cb) = cb).
Proof.
  intros St V clk func cb w e u Hf He Hg. unfold call.
  destruct (gate (at_gate clk) cb) as [[e'|] cb1] eqn:Hgate; [done |].
  unfold attempt, invoke. rewrite Hf, He. eexists. split; [reflexivity |].
  cbn [snd invocations]. split; [done |].
  unfold gate in Hgate. destruct (state cb) eqn:Hs.
  - cbv beta iota zeta in Hgate. rewrite Hs in Hgate. injection Hgate as <-.
    repeat split; done.
  - destruct (_should_attempt_reset (at_gate clk) cb);
      cbv beta iota zeta in Hgate; [|done].
    cbn [state config half_open_calls] in Hgate.
    destruct (half_open_max_calls (config cb) <=? 0); [done |].
    injection Hgate as <-. cbn. repeat split; done.
  - cbv beta iota zeta in Hgate. rewrite Hs in Hgate.
    destruct (half_open_max_calls (config cb) <=? half_open_calls cb);
      [done |].
    injection Hgate as <-. cbn. repeat split; done.
Qed.

Lemma call_passes_non_exception_through_witness :
  let cancelled := mkExc "CancelledError" "" false in
  let func : Op nat string := λ u, (Raised cancelled, S u) in
  let cb := sample_half_open_breaker in
  func (user sample_world) = (Raised cancelled, 1%nat)
  ∧ exc_is_Exception cancelled = false
  ∧ fst (gate (at_gate (sample_clock 5)) cb) = None
  ∧ ∃ w',
      call (sample_clock 5) func cb sample_world
      = (Raised cancelled, snd (gate (at_gate (sample_clock 5)) cb), w')
      ∧ invocations w' = S (invocations sample_world)
      ∧ failure_count (snd (gate (at_gate (sample_clock 5)) cb))
        = failure_count cb
      ∧ success_count (snd (gate (at_gate (sample_clock 5)) cb))
        = success_count cb
      ∧ last_failure_time (snd (gate (at_gate (sample_clock 5)) cb))
        = last_failure_time cb
      ∧ metrics (snd (gate (at_gate (sample_clock 5)) cb)) = metrics cb
      ∧ (state cb = HALF_OPEN →
         state (snd (gate (at_gate (sample_clock 5)) cb)) = HALF_OPEN
         ∧ half_open_calls (snd (gate (at_gate (sample_clock 5)) cb))
           = half_open_calls cb + 1)
      ∧ (state cb = CLOSED → snd (gate (at_gate (sample_clock 5)) cb) = cb).
Proof.
  cbv zeta. split; [reflexivity |]. split; [reflexivity |].
  split; [reflexivity |].
  apply (call_passes_non_exception_through nat string (sample_clock 5)
           (λ u, (Raised (mkExc "CancelledError" "" false), S u))
           sample_half_open_breaker sample_world
           (mkExc "CancelledError" "" false) 1%nat);
    reflexivity.
Defined.

End BreakerMore.

(** ** Further properties of the retry policy *)

Module RetryMore.
Import ErrorHandling RetryFacts.

Section ExecuteMore.

Context {St V : Type}.
Variable rnd : nat → Q.
Variable p : RetryPolicy.
Variable func_name : outcome string.
Variable func : Op St V.



End ExecuteMore.

(** X20: with [max_attempts] of 0 or less, [execute] never invokes the
    operation and never waits: the loop is empty and [raise last_exception]
    raises the [TypeError] of raising [None]. *)
Theorem execute_without_attempts :
  ∀ (St V : Type) (rnd : nat → Q) (p : RetryPolicy)
    (func_name : outcome string) (func : Op St V) (w : World St),
    max_attempts p <= 0 →
    execute rnd p func_name func w = (Raised TypeError_raise_None, w).
Proof.
  intros St V rnd p func_name func w Hm. unfold execute.
  by rewrite range_nil by lia.
Qed.

Lemma execute_without_attempts_witness :
  let p := mkRetryPolicy 0 1 60 2 true in
  max_attempts p <= 0
  ∧ execute sample_rnd p (Returned "example_failing_service") failing_service
      sample_world
    = (Raised TypeError_raise_None, sample_world).
Proof.
  cbv zeta. split; [by vm_compute |].
  apply (execute_without_attempts nat string sample_rnd
           (mkRetryPolicy 0 1 60 2 true) (Returned "example_failing_service")
           failing_service sample_world).
  by vm_compute.
Defined.





Lemma py_min_mono_l (a a' b : Q) : (a <= a')%Q → (Py.min a b <= Py.min a' b)%Q.
Proof. intros Hb. unfold Py.min. py_cmp; lra. Qed.

Lemma get_delay_Returned_inv (r : Q) (p : RetryPolicy) (k : Z) (d : Q) :
  get_delay r p k = Returned d →
  d = (let delay := Py.min (base_delay p * backoff_factor p ^ (k - 1))%Q
                      (max_delay p) in
       if jitter p then (delay * ((5 # 10) + r * (5 # 10)))%Q else delay).
Proof.
  unfold get_delay, backoff, float_pow.
  destruct (Qeq_bool (backoff_factor p) 0 && (k - 1 <? 0)); [done |].
  destruct (Py.float_overflows (backoff_factor p ^ (k - 1))); [done |].
  by intros [= <-].
Qed.

(** X23: with [base_delay], [backoff_factor] and [max_delay] not negative
    and a draw in [0, 1), a delay that [get_delay] returns lies between 0 and
    [max_delay], for any attempt number, with or without jitter; and
    [get_delay] returns whenever the power [backoff_factor^(k-1)] is within
    the range of a double (and is not a negative power of zero). *)
Theorem get_delay_within_cap :
  ∀ (p : RetryPolicy) (k : Z) (r : Q),
    (0 <= base_delay p)%Q →
    (0 <= backoff_factor p)%Q →
    (0 <= max_delay p)%Q →
    (0 <= r < 1)%Q →
    (∀ d, get_delay r p k = Returned d → (0 <= d <= max_delay p)%Q)
    ∧ ((k < 1 → ¬ (backoff_factor p == 0)%Q) →
       Py.float_finite (backoff_factor p ^ (k - 1)) →
       ∃ d, get_delay r p k = Returned d ∧ (0 <= d <= max_delay p)%Q).
Proof.
  intros p k r Hb Hf Hm Hr.
  assert (Hcap : ∀ d, get_delay r p k = Returned d → (0 <= d <= max_delay p)%Q).
  { intros d ->%get_delay_Returned_inv. cbv zeta.
    pose proof (Qpower_0_le (backoff_factor p) (k - 1) Hf) as Hpow.
    assert (Hx : (0 <= base_delay p * backoff_factor p ^ (k - 1))%Q)
      by (by apply Qmult_le_0_compat).
    destruct (py_min_spec (base_delay p * backoff_factor p ^ (k - 1))
                (max_delay p)) as (H1 & H2 & [H3 | H3]);
      destruct (jitter p); rewrite ?H3; try (split; [done | lra]); nra. }
  split; [exact Hcap |]. intros Hz Hfin.
  eexists. split; [by apply get_delay_finite |].
  apply Hcap. by apply get_delay_finite.
Qed.

Lemma get_delay_within_cap_witness :
  (0 <= base_delay sample_policy)%Q
  ∧ (0 <= backoff_factor sample_policy)%Q
  ∧ (0 <= max_delay sample_policy)%Q
  ∧ (0 <= 3 # 4 < 1)%Q
  ∧ Py.float_finite (backoff_factor sample_policy ^ (9 - 1))
  ∧ (∃ d, get_delay (3 # 4) sample_policy 9 = Returned d ∧ (d == 105 # 2)%Q)
  ∧ (∀ d, get_delay (3 # 4) sample_policy 9 = Returned d →
          (0 <= d <= max_delay sample_policy)%Q)
  ∧ ((9 < 1 → ¬ (backoff_factor sample_policy == 0)%Q) →
     Py.float_finite (backoff_factor sample_policy ^ (9 - 1)) →
     ∃ d, get_delay (3 # 4) sample_policy 9 = Returned d
          ∧ (0 <= d <= max_delay sample_policy)%Q).
Proof.
  split; [discriminate |]. split; [discriminate |]. split; [discriminate |].
  split; [split; [discriminate | reflexivity] |].
  split; [by vm_compute |].
  split; [eexists; split; by vm_compute |].
  apply (get_delay_within_cap sample_policy 9 (3 # 4));
    try discriminate. split; [discriminate | reflexivity].
Defined.

(** X24: without jitter, with [base_delay >= 0] and [backoff_factor >= 1],
    the delay never shrinks from one attempt to a later one: when the power
    of the later attempt is within the range of a double, [get_delay] returns
    for both attempts and the earlier delay is at most the later one. *)
Theorem get_delay_non_decreasing :
  ∀ (p : RetryPolicy) (k1 k2 : Z) (r1 r2 : Q),
    jitter p = false →
    (0 <= base_delay p)%Q →
    (1 <= backoff_factor p)%Q →
    k1 <= k2 →
    Py.float_finite (backoff_factor p ^ (k2 - 1)) →
    ∃ d1 d2,
      get_delay r1 p k1 = Returned d1
      ∧ get_delay r2 p k2 = Returned d2
      ∧ (d1 <= d2)%Q.
Proof.
  intros p k1 k2 r1 r2 Hj Hb Hf Hk Hfin2.
  pose proof (Qpower_le_compat_l (backoff_factor p) (k1 - 1) (k2 - 1)
                ltac:(lia) Hf) as Hpow.
  assert (Hnz : ¬ (backoff_factor p == 0)%Q) by lra.
  assert (Hpos1 : (0 <= backoff_factor p ^ (k1 - 1))%Q)
    by (apply Qpower_0_le; lra).
  assert (Hpos2 : (0 <= backoff_factor p ^ (k2 - 1))%Q)
    by (apply Qpower_0_le; lra).
  assert (Hfin1 : Py.float_finite (backoff_factor p ^ (k1 - 1))).
  { unfold Py.float_finite in *. rewrite Qabs_pos in * by done. lra. }
  rewrite !get_delay_finite by done. rewrite Hj. cbv zeta.
  eexists _, _. split; [reflexivity |]. split; [reflexivity |].
  apply py_min_mono_l. nra.
Qed.

Lemma get_delay_non_decreasing_witness :
  let p := mkRetryPolicy 3 1 60 2 false in
  jitter p = false
  ∧ (0 <= base_delay p)%Q
  ∧ (1 <= backoff_factor p)%Q
  ∧ 2 <= 7
  ∧ Py.float_finite (backoff_factor p ^ (7 - 1))
  ∧ get_delay 0 p 2 = Returned 2%Q
  ∧ get_delay 0 p 7 = Returned 60%Q
  ∧ ∃ d1 d2,
      get_delay 0 p 2 = Returned d1
      ∧ get_delay 0 p 7 = Returned d2
      ∧ (d1 <= d2)%Q.
Proof.
  cbv zeta. split; [reflexivity |]. split; [discriminate |].
  split; [discriminate |]. split; [lia |]. split; [by vm_compute |].
  split; [by vm_compute |]. split; [by vm_compute |].
  apply (get_delay_non_decreasing (mkRetryPolicy 3 1 60 2 false) 2 7 0 0);
    [reflexivity | discriminate | discriminate | lia | by vm_compute].
Defined.

(** X28: an operation without a [__name__] loses its first caught error:
    with [max_attempts >= 1], when the first invocation raises an
    [Exception] and reading [func.__name__] raises [a], [execute] raises [a]
    after that single invocation, without any wait and whatever the number
    of attempts allowed. *)
Theorem execute_raises_for_nameless_operation :
  ∀ (St V : Type) (rnd : nat → Q) (p : RetryPolicy)
    (func_name : outcome string) (func : Op St V) (w : World St)
    (e a : PyExc) (u : St),
    1 <= max_attempts p →
    func (user w) = (Raised e, u) →
    exc_is_Exception e = true →
    func_name = Raised a →
    ∃ w',
      execute rnd p func_name func w = (Raised a, w')
      ∧ user w' = u
      ∧ invocations w' = S (invocations w)
      ∧ sleeps w' = sleeps w.
Proof.
  intros St V rnd p func_name func w e a u Hm Hf He Hnm. unfold execute.
  rewrite range_cons by lia. cbn [execute_loop]. unfold invoke.
  rewrite Hf, He, Hnm.
  destruct (1 =? max_attempts p); [by eexists |].
  set (w0 := {| user := u; invocations := S (invocations w);
                sleeps := sleeps w; draws := draws w |}).
  destruct (get_delay_io_world rnd p 1 w0) as (Hu & Hi & Hs).
  destruct (get_delay_io_finite (St := St) rnd p 1 w0) as [delay Hd];
    [lia | by vm_compute |].
  destruct (get_delay_io rnd p 1 w0) as [d w2]. cbn [fst snd] in *. subst d.
  by eexists.
Qed.

Lemma execute_raises_for_nameless_operation_witness :
  let a := AttributeError_no_name "functools.partial" in
  1 <= max_attempts sample_policy
  ∧ failing_service (user sample_world) = (Raised ConnectionError, 1%nat)
  ∧ exc_is_Exception ConnectionError = true
  ∧ ∃ w',
      execute sample_rnd sample_policy (Raised a) failing_service sample_world
      = (Raised a, w')
      ∧ user w' = 1%nat
      ∧ invocations w' = S (invocations sample_world)
      ∧ sleeps w' = sleeps sample_world.
Proof.
  cbv zeta. split; [by vm_compute |]. split; [reflexivity |].
  split; [reflexivity |].
  apply (execute_raises_for_nameless_operation nat string sample_rnd
           sample_policy
           (Raised (AttributeError_no_name "functools.partial"))
           failing_service sample_world ConnectionError
           (AttributeError_no_name "functools.partial") 1%nat);
    [by vm_compute | reflexivity | reflexivity | reflexivity].
Defined.



End RetryMore.

(** ** Error metrics *)

Module MetricsMore.
Import ErrorHandling.

Lemma record_errors_cons e errs m :
  record_errors (e :: errs) m
  = record_errors errs (record_error e.1.1 e.1.2 e.2 m).
Proof. reflexivity. Qed.

Lemma count_where_cons {A : Type} (f : A → bool) (x : A) (l : list A) :
  count_where f (x :: l) = (if f x then 1 else 0) + count_where f l.
Proof.
  unfold count_where. cbn [List.filter]. destruct (f x); cbn [length]; lia.
Qed.

Lemma record_errors_counts errs :
  ∀ m,
    let m' := record_errors errs m in
    total_errors m' = total_errors m + Z.of_nat (length errs)
    ∧ consecutive_errors m' = consecutive_errors m + Z.of_nat (length errs)
    ∧ successful_recoveries m' = successful_recoveries m
    ∧ (∀ t, default 0 (errors_by_type m' !! t)
            = default 0 (errors_by_type m !! t)
              + count_where (λ e, bool_decide (e.1.2 = t)) errs)
    ∧ (∀ sv, default 0 (errors_by_severity m' !! sv)
             = default 0 (errors_by_severity m !! sv)
               + count_where (λ e, bool_decide (e.2 = sv)) errs).
Proof.
  induction errs as [|e errs IH]; intros m; cbv zeta.
  - unfold record_errors, count_where. cbn [fold_left length List.filter].
    change (Z.of_nat 0) with 0. repeat split; intros; lia.
  - rewrite record_errors_cons.
    destruct (IH (record_error e.1.1 e.1.2 e.2 m)) as (H1 & H2 & H3 & H4 & H5).
    cbv zeta in *. cbn [length].
    split; [rewrite H1; cbn [total_errors record_error]; lia |].
    split; [rewrite H2; cbn [consecutive_errors record_error]; lia |].
    split; [by rewrite H3 |]. split.
    + intros t. rewrite H4, count_where_cons.
      cbn [errors_by_type record_error]. rewrite lookup_insert.
      destruct (decide (e.1.2 = t)) as [<- | Hne].
      * rewrite bool_decide_eq_true_2 by done.
        unfold default. cbn [from_option]. unfold Datatypes.id. lia.
      * rewrite bool_decide_eq_false_2 by done. lia.
    + intros sv. rewrite H5, count_where_cons.
      cbn [errors_by_severity record_error]. rewrite lookup_insert.
      destruct (decide (e.2 = sv)) as [<- | Hne].
      * rewrite bool_decide_eq_true_2 by done.
        unfold default. cbn [from_option]. unfold Datatypes.id. lia.
      * rewrite bool_decide_eq_false_2 by done. lia.
Qed.

(** X25: after any sequence of [record_error] calls on fresh metrics,
    [total_errors] and [consecutive_errors] are the number of calls, the entry
    of [errors_by_type] for a type is the number of calls with that type, and
    the entry of [errors_by_severity] for a severity is the number of calls
    with that severity (an absent entry counting as 0). *)
Theorem error_metrics_count_by_type_and_severity :
  ∀ (errs : list (Py.datetime * string * ErrorSeverity)),
    let m := record_errors errs ErrorMetrics_default in
    total_errors m = Z.of_nat (length errs)
    ∧ consecutive_errors m = Z.of_nat (length errs)
    ∧ (∀ t, default 0 (errors_by_type m !! t)
            = count_where (λ e, bool_decide (e.1.2 = t)) errs)
    ∧ (∀ sv, default 0 (errors_by_severity m !! sv)
             = count_where (λ e, bool_decide (e.2 = sv)) errs).
Proof.
  intros errs. cbv zeta.
  destruct (record_errors_counts errs ErrorMetrics_default)
    as (H1 & H2 & _ & H4 & H5).
  cbv zeta in *. split; [exact H1 |]. split; [exact H2 |]. split.
  - intros t. by rewrite H4.
  - intros sv. by rewrite H5.
Qed.

End MetricsMore.

(** ** Protected execution *)

Module RecoveryFacts.
Import ErrorHandling BreakerFacts RetryFacts Recovery.

Lemma registered_Some {A : Type} (nm : option string) (registry : gmap string A)
    n a :
  registered nm registry = Some (n, a)
  ↔ nm = Some n ∧ n ≠ "" ∧ registry !! n = Some a.
Proof.
  unfold registered. destruct nm as [n'|].
  - case_bool_decide as Hn.
    + split; [done |]. intros ([= ->] & Hne & _). done.
    + destruct (registry !! n') as [a'|] eqn:Hr.
      * split; [by intros [= -> ->] |].
        intros ([= ->] & _ & Ha). rewrite Hr in Ha. by injection Ha as ->.
      * split; [done |]. intros ([= ->] & _ & Ha). by rewrite Hr in Ha.
  - split; [done | by intros [? _]].
Qed.

Lemma store_breaker_same n cb mgr :
  circuit_breakers mgr !! n = Some cb → store_breaker n cb mgr = mgr.
Proof.
  intros H. unfold store_breaker. rewrite insert_id by done. by destruct mgr.
Qed.

Lemma store_breaker_twice n cb1 cb2 mgr :
  store_breaker n cb2 (store_breaker n cb1 mgr) = store_breaker n cb2 mgr.
Proof.
  unfold store_breaker. cbn [circuit_breakers retry_policies global_metrics].
  by rewrite insert_insert_eq.
Qed.

(** Running the breaker-gated unit [k] times is making [k] successive calls
    on the registered breaker and storing the breaker they leave. *)
Lemma op_trace_func_to_call {St V : Type} (clock : nat → Clock)
    (func : Op St V) (nm : option string) (n : string) (k : nat) :
  ∀ (s : Protected St) (cb : CircuitBreaker),
    registered nm (circuit_breakers (manager s)) = Some (n, cb) →
    op_trace (func_to_call clock func nm) k s
    = let '(rs, cb', w') :=
        run_calls (gated_calls clock func (gated_runs s) k) cb (world s) in
      (rs, {| manager := store_breaker n cb' (manager s); world := w';
              gated_runs := (gated_runs s + k)%nat |}).
Proof.
  induction k as [|k IH]; intros s cb Hreg.
  - cbn [op_trace gated_calls List.seq List.map run_calls].
    apply registered_Some in Hreg as (_ & _ & Hcb).
    rewrite store_breaker_same by done. rewrite Nat.add_0_r. by destruct s.
  - cbn [op_trace gated_calls List.seq List.map run_calls].
    unfold func_to_call at 1. unfold _execute_with_circuit_breaker.
    rewrite Hreg.
    destruct (call (clock (gated_runs s)) func cb (world s))
      as [[r cb1] w1] eqn:Hcall.
    apply registered_Some in Hreg as (Hnm & Hne & Hcb).
    rewrite (IH _ cb1).
    2: { apply registered_Some. cbn [manager store_breaker circuit_breakers].
         by rewrite lookup_insert_eq. }
    cbn [manager world gated_runs]. fold (gated_calls clock func (S (gated_runs s)) k).
    destruct (run_calls (gated_calls clock func (S (gated_runs s)) k) cb1 w1)
      as [[rs cb2] w2].
    rewrite store_breaker_twice.
    by replace (S (gated_runs s) + k)%nat with (gated_runs s + S k)%nat by lia.
Qed.

Lemma map_const_Raised {A V : Type} (e : PyExc) (l : list A) :
  List.map (λ _, @Raised V e) l = List.map Raised (replicate (length l) e).
Proof. induction l as [|x l IH]; [done |]. cbn. by rewrite IH. Qed.

Lemma gated_calls_length {St V : Type} clock (func : Op St V) start k :
  length (gated_calls clock func start k) = k.
Proof. unfold gated_calls. by rewrite length_map, length_seq. Qed.


Section ProtectedRetries.

Context {St V : Type}.
Variable clock : nat → Clock.
Variable func : Op St V.
Variable cb_name : string.
Variable e : PyExc.
Hypothesis cb_name_given : cb_name ≠ "".
Hypothesis func_raises : ∀ u, ∃ u', func u = (Raised e, u').
Hypothesis e_is_Exception : exc_is_Exception e = true.

Abbreviation unit_of_work := (func_to_call clock func (Some cb_name)).





End ProtectedRetries.

(** X26: retrying through the manager re-enters the breaker on every attempt:
    with a registered breaker that is OPEN and a registered retry policy
    whose power [backoff_factor^(k-1)] is within the range of a double for
    every attempt [k < max_attempts], as long as every attempt reaches the
    gate before [recovery_timeout] has elapsed, [execute_with_protection]
    makes [max_attempts] attempts and
    [max_attempts - 1] waits, each attempt is refused with
    [CircuitBreakerOpenError], that error is what the caller gets, and the
    operation is never invoked: its world and the manager are untouched. *)
Theorem protected_retries_fail_fast_on_open_breaker :
  ∀ (St V : Type) (rnd : nat → Q) (clock : nat → Clock) (func : Op St V)
    (cb_name retry_name : string) (W : World (Protected St))
    (cb : CircuitBreaker) (policy : RetryPolicy) (lft : Py.datetime),
    cb_name ≠ "" →
    retry_name ≠ "" →
    circuit_breakers (manager (user W)) !! cb_name = Some cb →
    retry_policies (manager (user W)) !! retry_name = Some policy →
    1 <= max_attempts policy →
    (∀ k, 1 <= k < max_attempts policy →
          Py.float_finite (backoff_factor policy ^ (k - 1))) →
    state cb = OPEN →
    last_failure_time cb = Some lft →
    (∀ i, at_gate (clock i) - lft < recovery_timeout (config cb)) →
    ∃ W',
      execute_with_protection rnd clock func (Some cb_name) (Some retry_name) W
      = (Raised (CircuitBreakerOpenError
                   ("Circuit breaker " +:+ name cb +:+ " is OPEN")), W')
      ∧ manager (user W') = manager (user W)
      ∧ world (user W') = world (user W)
      ∧ invocations W' = (invocations W + Z.to_nat (max_attempts policy))%nat
      ∧ length (sleeps W')
        = (length (sleeps W) + Z.to_nat (max_attempts policy - 1))%nat.
Proof.
  intros St V rnd clock func cb_name retry_name W cb policy lft
    Hcn Hrn Hcb Hpol Hm Hfin Hopen Hlft Hearly.
  set (e := CircuitBreakerOpenError
              ("Circuit breaker " +:+ name cb +:+ " is OPEN")).
  assert (Hreg : registered (Some cb_name) (circuit_breakers (manager (user W)))
                 = Some (cb_name, cb)) by (by apply registered_Some).
  assert (Htrace : ∀ k,
    op_trace (func_to_call clock func (Some cb_name)) k (user W)
    = (List.map (@Raised V) (replicate k e),
       {| manager := manager (user W); world := world (user W);
          gated_runs := (gated_runs (user W) + k)%nat |})).
  { intros k. rewrite (op_trace_func_to_call clock func _ cb_name k _ cb Hreg).
    rewrite (run_calls_rejected _ cb (world (user W)) lft Hopen Hlft).
    - rewrite map_const_Raised, gated_calls_length.
      by rewrite store_breaker_same.
    - unfold gated_calls. apply Forall_forall. intros c Hc.
      apply list_elem_of_In, in_map_iff in Hc as (i & <- & _). apply Hearly. }
  unfold execute_with_protection.
  replace (registered (Some retry_name) (retry_policies (manager (user W))))
    with (Some (retry_name, policy))
    by (symmetry; by apply registered_Some).
  set (n := Z.to_nat (max_attempts policy - 1)).
  destruct (execute_loop_failures rnd policy (Returned "<lambda>")
              (func_to_call clock func (Some cb_name))
              (replicate n e) "<lambda>" eq_refl 1 None W
              {| manager := manager (user W); world := world (user W);
                 gated_runs := (gated_runs (user W) + n)%nat |})
    as (W1 & last' & Hrun & Hu & Hi & Hs).
  - lia.
  - intros k Hk. rewrite length_replicate in Hk. apply Hfin. lia.
  - rewrite length_replicate. apply Htrace.
  - apply Forall_forall. by intros x [-> _]%elem_of_replicate.
  - rewrite length_replicate. lia.
  - rewrite length_replicate in *. unfold execute. rewrite Hrun.
    replace (1 + Z.of_nat n) with (max_attempts policy) by lia.
    rewrite (range_cons (max_attempts policy)),
      (range_nil (max_attempts policy + 1)) by lia.
    cbn [execute_loop]. unfold invoke. rewrite Hu.
    pose proof (Htrace 1%nat) as H1. cbn [op_trace replicate List.map] in H1.
    unfold func_to_call at 1. unfold func_to_call at 1 in H1.
    unfold _execute_with_circuit_breaker in *.
    cbn [manager world gated_runs].
    rewrite Hreg in *.
    unfold call in *.
    rewrite (gate_open_early _ _ _ Hopen Hlft (Hearly _)) in *.
    cbn [exc_is_Exception CircuitBreakerOpenError]. rewrite Z.eqb_refl.
    cbn [raise_last]. eexists. split; [reflexivity |].
    cbn [user invocations sleeps manager world].
    rewrite store_breaker_same by done. repeat split; lia.
Qed.

Lemma protected_retries_fail_fast_on_open_breaker_witness :
  let cb := mkBreaker "svc" sample_config OPEN 3 0 (Some 0) 0
              ErrorMetrics_default in
  let mgr := {| circuit_breakers := {[ "svc" := cb ]};
                retry_policies := {[ "retry" := sample_policy ]};
                global_metrics := ErrorMetrics_default |} in
  let W : World (Protected nat) :=
    mkWorld {| manager := mgr; world := sample_world; gated_runs := 0 |}
      0 [] 0 in
  let clock := λ _ : nat, sample_clock 5 in
  "svc" ≠ "" ∧ "retry" ≠ ""
  ∧ circuit_breakers (manager (user W)) !! "svc" = Some cb
  ∧ retry_policies (manager (user W)) !! "retry" = Some sample_policy
  ∧ 1 <= max_attempts sample_policy
  ∧ (∀ k, 1 <= k < max_attempts sample_policy →
          Py.float_finite (backoff_factor sample_policy ^ (k - 1)))
  ∧ state cb = OPEN
  ∧ last_failure_time cb = Some 0
  ∧ (∀ i, at_gate (clock i) - 0 < recovery_timeout (config cb))
  ∧ ∃ W',
      execute_with_protection sample_rnd clock failing_service
        (Some "svc") (Some "retry") W
      = (Raised (CircuitBreakerOpenError
                   ("Circuit breaker " +:+ name cb +:+ " is OPEN")), W')
      ∧ manager (user W') = manager (user W)
      ∧ world (user W') = world (user W)
      ∧ invocations W'
        = (invocations W + Z.to_nat (max_attempts sample_policy))%nat
      ∧ length (sleeps W')
        = (length (sleeps W) + Z.to_nat (max_attempts sample_policy - 1))%nat.
Proof.
  cbv zeta.
  assert (Hfin : ∀ k, 1 <= k < max_attempts sample_policy →
                      Py.float_finite (backoff_factor sample_policy ^ (k - 1))).
  { intros k Hk. cbn in Hk.
    assert (k = 1 ∨ k = 2) as [-> | ->] by lia; by vm_compute. }
  split; [discriminate |]. split; [discriminate |].
  split; [by vm_compute |]. split; [by vm_compute |].
  split; [by vm_compute |]. split; [exact Hfin |].
  split; [reflexivity |]. split; [reflexivity |].
  assert (Hearly : ∀ i : nat,
    at_gate ((λ _ : nat, sample_clock 5) i) - 0
    < recovery_timeout
        (config (mkBreaker "svc" sample_config OPEN 3 0 (Some 0) 0
                   ErrorMetrics_default))) by (intros i; by vm_compute).
  split; [exact Hearly |].
  apply (protected_retries_fail_fast_on_open_breaker nat string sample_rnd
           (λ _ : nat, sample_clock 5) failing_service "svc" "retry" _
           (mkBreaker "svc" sample_config OPEN 3 0 (Some 0) 0
              ErrorMetrics_default) sample_policy 0);
    [discriminate | discriminate | by vm_compute | by vm_compute
    | by vm_compute | exact Hfin | reflexivity | reflexivity | exact Hearly].
Defined.



End RecoveryFacts.
